(** * GraphAttention: segmented cross-modal multi-head attention

    A shallow embedding of
    [MMSA-GsiT/models/custom/GSIT/modules/GraphAttentions/GraphMultiheadAttention.py]
    (class [GraphAttention]) and the properties of its constructor and of
    its [forward] method.

    Tensors are dense arrays with an explicit shape.  Their elements are
    kept abstract (class [Scalar]): every statement below holds for any
    interpretation of the floating-point operations.  Python exceptions are
    values of the [result] monad. *)

From Stdlib Require Import ZArith Lia List String Bool.
From stdpp Require Import base list.
Import ListNotations.

Local Open Scope Z_scope.
Local Open Scope nat_scope.

(** ** Exceptions and the error monad *)

Inductive exn : Type :=
| AssertionError (msg : string)
| AttributeError (msg : string)
| TypeError (msg : string)
| ValueError (msg : string)
| RuntimeError (msg : string)
| IndexError (msg : string)
| ZeroDivisionError.

Inductive result (A : Type) : Type :=
| Ok (a : A)
| Raise (e : exn).
Arguments Ok {A} a.
Arguments Raise {A} e.

#[global] Instance result_ret : MRet result := λ A a, Ok a.
#[global] Instance result_bind : MBind result :=
  λ A B f m, match m with Ok a => f a | Raise e => Raise e end.
#[global] Instance result_fmap : FMap result :=
  λ A B f m, match m with Ok a => Ok (f a) | Raise e => Raise e end.

Definition is_ok {A} (r : result A) : bool :=
  match r with Ok _ => true | Raise _ => false end.

(** Python's [assert cond, msg]. *)
Definition py_assert (cond : bool) (msg : string) : result unit :=
  if cond then Ok tt else Raise (AssertionError msg).

(** ** Scalars

    The element type of a tensor and the arithmetic the module uses on it.
    Nothing is assumed about these operations. *)

Class Scalar (R : Type) : Type := {
  r0 : R;
  r1 : R;
  radd : R → R → R;
  rsub : R → R → R;
  rmul : R → R → R;
  rdiv : R → R → R;
  rexp : R → R;
  rmax : R → R → R;
  rltb : R → R → bool;
  reqb : R → R → bool;
  (** [n ** -0.5] for a non-zero Python int [n] *)
  rpow_neg_half : Z → R;
  (** [.float()]: cast to single precision *)
  rfloat : R → R;
  (** [.type_as(x)]: cast back to the working precision *)
  rtype_as : R → R
}.

(** ** Python slices

    [clamp_index n i] is the position that index [i] of a slice denotes in
    a dimension of size [n]: negative indices count from the end and the
    result is clipped to [0, n]. *)

Definition clamp_index (n : nat) (i : Z) : nat :=
  Z.to_nat (Z.min (Z.of_nat n) (Z.max 0 (if (i <? 0)%Z then i + Z.of_nat n else i)%Z)).

(** [py_slice n start stop] is the (first index, number of elements) that
    [x[start:stop]] selects in a dimension of size [n]; [stop = None] is
    an omitted upper bound. *)
Definition py_slice (n : nat) (start : Z) (stop : option Z) : nat * nat :=
  let a := clamp_index n start in
  let b := match stop with Some s => clamp_index n s | None => n end in
  (a, b - a).

Section Tensors.
Context {R : Type} {SR : Scalar R}.

(** ** Tensors *)

Definition tabulate {A} (n : nat) (f : nat → A) : list A := map f (seq 0 n).

Record tensor1 : Type := T1 { len1 : nat; data1 : list R }.
Record tensor2 : Type := T2 { rows2 : nat; cols2 : nat; data2 : list (list R) }.
Record tensor3 : Type :=
  T3 { dim0 : nat; dim1 : nat; dim2 : nat; data3 : list (list (list R)) }.

Definition get1 (t : tensor1) (i : nat) : R := nth i (data1 t) r0.
Definition get2 (t : tensor2) (i j : nat) : R := nth j (nth i (data2 t) []) r0.
Definition get3 (t : tensor3) (i j k : nat) : R :=
  nth k (nth j (nth i (data3 t) []) []) r0.

Definition mk1 (n : nat) (f : nat → R) : tensor1 := T1 n (tabulate n f).
Definition mk2 (n m : nat) (f : nat → nat → R) : tensor2 :=
  T2 n m (tabulate n (λ i, tabulate m (f i))).
Definition mk3 (n0 n1 n2 : nat) (f : nat → nat → nat → R) : tensor3 :=
  T3 n0 n1 n2 (tabulate n0 (λ i, tabulate n1 (λ j, tabulate n2 (f i j)))).

(** [t.size()] *)
Definition size3 (t : tensor3) : nat * nat * nat := (dim0 t, dim1 t, dim2 t).
Definition numel3 (t : tensor3) : nat := dim0 t * dim1 t * dim2 t.

Definition size3_eqb (a b : tensor3) : bool :=
  (dim0 a =? dim0 b) && (dim1 a =? dim1 b) && (dim2 a =? dim2 b).

(** An argument of [forward]: a tensor together with the address of its
    first element, which [forward] compares to detect aliasing. *)
Record nodes : Type := Nodes { data_ptr : Z; values : tensor3 }.

(** Accumulated sum [f 0 + f 1 + ... + f (n-1)]. *)
Definition sum_upto (n : nat) (f : nat → R) : R :=
  fold_left (λ acc i, radd acc (f i)) (seq 0 n) r0.

(** ** Tensor primitives (torch) *)

(** [w[start:stop, :]] *)
Definition slice_rows (w : tensor2) (start : Z) (stop : option Z) : tensor2 :=
  let '(a, n) := py_slice (rows2 w) start stop in
  mk2 n (cols2 w) (λ i j, get2 w (a + i) j).

(** [b[start:stop]] *)
Definition slice_vec (b : tensor1) (start : Z) (stop : option Z) : tensor1 :=
  let '(a, n) := py_slice (len1 b) start stop in
  mk1 n (λ i, get1 b (a + i)).

(** [F.linear(input, weight, bias)]: [input @ weight^T + bias] over the
    last dimension. *)
Definition linear (input : tensor3) (weight : tensor2) (bias : option tensor1)
  : result tensor3 :=
  if negb (dim2 input =? cols2 weight) then
    Raise (RuntimeError "mat1 and mat2 shapes cannot be multiplied")
  else
    let dot i j o :=
      sum_upto (dim2 input) (λ e, rmul (get3 input i j e) (get2 weight o e)) in
    match bias with
    | None => Ok (mk3 (dim0 input) (dim1 input) (rows2 weight) dot)
    | Some b =>
        if negb (len1 b =? rows2 weight) then
          Raise (RuntimeError "The size of the bias must match the output features")
        else
          Ok (mk3 (dim0 input) (dim1 input) (rows2 weight)
                (λ i j o, radd (dot i j o) (get1 b o)))
    end.

(** [t.chunk(chunks, dim=-1)]: pieces of [ceil(n / chunks)] columns, the
    last one possibly shorter; an empty last dimension gives [chunks]
    empty pieces. *)
Definition chunk_last (t : tensor3) (chunks : nat) : list tensor3 :=
  let n := dim2 t in
  let piece start width :=
    mk3 (dim0 t) (dim1 t) width (λ i j c, get3 t i j (start + c)) in
  if n =? 0 then tabulate chunks (λ _, piece 0 0)
  else
    let step := (n + chunks - 1) / chunks in
    tabulate ((n + step - 1) / step) (λ c, piece (c * step) (Nat.min step (n - c * step))).

(** Element of [t] at position [f] of its row-major layout. *)
Definition flat_get (t : tensor3) (f : nat) : R :=
  get3 t (f / (dim1 t * dim2 t)) (f / dim2 t mod dim1 t) (f mod dim2 t).

(** [t.contiguous().view(x, y, z)]: the same elements in row-major order
    under a new shape.  One of the sizes may be [-1] and is then inferred. *)
Definition infer_view (numel : nat) (x y z : Z) : result (nat * nat * nat) :=
  let wild := List.filter (λ d, (d =? -1)%Z) [x; y; z] in
  if existsb (λ d, (d <? -1)%Z) [x; y; z] then
    Raise (RuntimeError "invalid shape dimension")
  else match wild with
  | [] =>
      if (Z.of_nat numel =? x * y * z)%Z
      then Ok (Z.to_nat x, Z.to_nat y, Z.to_nat z)
      else Raise (RuntimeError "shape is invalid for input size")
  | [_] =>
      let known := (- (x * y * z))%Z in
      if (known =? 0)%Z then
        Raise (RuntimeError "cannot reshape: the unspecified dimension is ambiguous or the shape is invalid")
      else if negb (Z.of_nat numel mod known =? 0)%Z then
        Raise (RuntimeError "shape is invalid for input size")
      else
        let fill d := if (d =? -1)%Z then (Z.of_nat numel / known)%Z else d in
        Ok (Z.to_nat (fill x), Z.to_nat (fill y), Z.to_nat (fill z))
  | _ => Raise (RuntimeError "only one dimension can be inferred")
  end.

Definition view3 (t : tensor3) (x y z : Z) : result tensor3 :=
  '(a, b, c) ← infer_view (numel3 t) x y z;
  Ok (mk3 a b c (λ i j k, flat_get t ((i * b + j) * c + k))).

(** [t.transpose(0, 1)] and [t.transpose(1, 2)] *)
Definition transpose01 (t : tensor3) : tensor3 :=
  mk3 (dim1 t) (dim0 t) (dim2 t) (λ i j k, get3 t j i k).
Definition transpose12 (t : tensor3) : tensor3 :=
  mk3 (dim0 t) (dim2 t) (dim1 t) (λ i j k, get3 t i k j).

(** [t[:, start:stop]] *)
Definition slice_dim1 (t : tensor3) (s : Z * Z) : tensor3 :=
  let '(a, n) := py_slice (dim1 t) (fst s) (Some (snd s)) in
  mk3 (dim0 t) n (dim2 t) (λ i j k, get3 t i (a + j) k).

(** [torch.bmm(a, b)] *)
Definition bmm (a b : tensor3) : result tensor3 :=
  if (dim0 a =? dim0 b) && (dim2 a =? dim1 b) then
    Ok (mk3 (dim0 a) (dim1 a) (dim2 b)
          (λ n i j, sum_upto (dim2 a) (λ e, rmul (get3 a n i e) (get3 b n e j))))
  else Raise (RuntimeError "bmm: batch or inner dimensions do not match").

(** [t * c] for a Python number [c] *)
Definition scale3 (t : tensor3) (c : R) : tensor3 :=
  mk3 (dim0 t) (dim1 t) (dim2 t) (λ i j k, rmul (get3 t i j k) c).

(** [b.repeat(1, bsz, 1)] *)
Definition repeat_1n1 (b : tensor3) (bsz : nat) : tensor3 :=
  mk3 (dim0 b) (dim1 b * bsz) (dim2 b) (λ i j k, get3 b i (j mod dim1 b) k).

(** [torch.cat([a, b])] (along dimension 0) *)
Definition cat0 (a b : tensor3) : result tensor3 :=
  if (dim1 a =? dim1 b) && (dim2 a =? dim2 b) then
    Ok (mk3 (dim0 a + dim0 b) (dim1 a) (dim2 a)
          (λ i j k, if i <? dim0 a then get3 a i j k else get3 b (i - dim0 a) j k))
  else Raise (RuntimeError "cat: sizes of tensors must match except in dimension 0").

(** [torch.cat([a, b], dim=1)] for rank-3 tensors *)
Definition cat1 (a b : tensor3) : result tensor3 :=
  if (dim0 a =? dim0 b) && (dim2 a =? dim2 b) then
    Ok (mk3 (dim0 a) (dim1 a + dim1 b) (dim2 a)
          (λ i j k, if j <? dim1 a then get3 a i j k else get3 b i (j - dim1 a) k))
  else Raise (RuntimeError "cat: sizes of tensors must match except in dimension 1").

(** [torch.concat(ts, dim=1)] for a list of rank-3 tensors *)
Fixpoint concat1 (ts : list tensor3) : result tensor3 :=
  match ts with
  | [] => Raise (RuntimeError "concat: expected a non-empty list of tensors")
  | [t] => Ok t
  | t :: rest => r ← concat1 rest; cat1 t r
  end.

(** [k.new_zeros((k.size(0), 1) + k.size()[2:])] *)
Definition zeros_row (t : tensor3) : tensor3 := mk3 (dim0 t) 1 (dim2 t) (λ _ _ _, r0).

(** [torch.cat([m, m.new_zeros(m.size(0), 1)], dim=1)] for a rank-2 mask *)
Definition mask_add_column (m : tensor2) : tensor2 :=
  mk2 (rows2 m) (cols2 m + 1) (λ i j, if j <? cols2 m then get2 m i j else r0).

(** [F.softmax(x.float(), dim=-1).type_as(x)]: each row is shifted by its
    maximum, exponentiated and divided by the row total. *)
Definition row_max (n : nat) (f : nat → R) : R :=
  fold_left (λ acc j, rmax acc (f j)) (seq 1 (n - 1)) (f 0).

Definition softmax_last (x : tensor3) : tensor3 :=
  mk3 (dim0 x) (dim1 x) (dim2 x) (λ n i j,
    let row c := rfloat (get3 x n i c) in
    let m := row_max (dim2 x) row in
    let e c := rexp (rsub (row c) m) in
    rtype_as (rdiv (e j) (sum_upto (dim2 x) e))).

(** [F.dropout(x, p, training)].  [keep] is the Bernoulli(1-p) sample the
    call draws, one bit per element. *)
Definition dropout (x : tensor3) (p : R) (training : bool)
    (keep : nat → nat → nat → bool) : result tensor3 :=
  if rltb p r0 || rltb r1 p then
    Raise (ValueError "dropout probability has to be between 0 and 1")
  else if reqb p r0 || negb training || (numel3 x =? 0) then Ok x
  else if reqb p r1 then
    Ok (mk3 (dim0 x) (dim1 x) (dim2 x) (λ i j k, rmul (get3 x i j k) r0))
  else
    Ok (mk3 (dim0 x) (dim1 x) (dim2 x) (λ i j k,
          rmul (get3 x i j k)
               (if keep i j k then rdiv r1 (rsub r1 p) else r0))).

End Tensors.

(** ** The module *)

Section Model.
Context {R : Type} {SR : Scalar R}.

(** [nn.Linear] *)
Record Linear : Type := MkLinear { weight : tensor2 (R:=R); bias : option (tensor1 (R:=R)) }.

(** The attributes of a [GraphAttention] instance.  [training] is the mode
    flag every [nn.Module] carries. *)
Record GraphAttention : Type := MkGraphAttention {
  embed_dim : Z;
  num_heads : Z;
  attn_dropout : R;
  head_dim : Z;
  scaling : R;
  in_proj_weight : tensor2 (R:=R);
  in_proj_bias : option (tensor1 (R:=R));
  out_proj : Linear;
  bias_k : option (tensor3 (R:=R));
  bias_v : option (tensor3 (R:=R));
  add_zero_attn : bool;
  training : bool
}.

(** The values [reset_parameters] draws for the parameters, by position. *)
Record initial_values : Type := MkInit {
  xavier_in_proj : nat → nat → R;
  xavier_out_proj : nat → nat → R;
  normal_bias_k : nat → R;
  normal_bias_v : nat → R
}.

(** [a // b] on Python ints *)
Definition floordiv (a b : Z) : result Z :=
  if (b =? 0)%Z then Raise ZeroDivisionError else Ok (a / b)%Z.

(** [n ** -0.5] on a Python int *)
Definition pow_neg_half (n : Z) : result R :=
  if (n =? 0)%Z then Raise ZeroDivisionError else Ok (rpow_neg_half n).

(** [torch.Tensor(n, m)], then filled with [f] *)
Definition new_tensor2 (n m : Z) (f : nat → nat → R) : result tensor2 :=
  if (n <? 0)%Z || (m <? 0)%Z then
    Raise (RuntimeError "Trying to create tensor with negative dimension")
  else Ok (mk2 (Z.to_nat n) (Z.to_nat m) f).

Definition new_tensor1 (n : Z) (f : nat → R) : result tensor1 :=
  if (n <? 0)%Z then
    Raise (RuntimeError "Trying to create tensor with negative dimension")
  else Ok (mk1 (Z.to_nat n) f).

(** [torch.Tensor(1, 1, n)], then filled with [f] *)
Definition new_tensor_11n (n : Z) (f : nat → R) : result tensor3 :=
  if (n <? 0)%Z then
    Raise (RuntimeError "Trying to create tensor with negative dimension")
  else Ok (mk3 1 1 (Z.to_nat n) (λ _ _ k, f k)).

(** [GraphAttention.__init__] followed by [reset_parameters], which it
    calls last. *)
Definition GraphAttention_init (embed_dim num_heads : Z) (attn_dropout : R)
    (bias add_bias_kv add_zero_attn : bool) (init : initial_values)
  : result GraphAttention :=
  head_dim ← floordiv embed_dim num_heads;
  _ ← py_assert (head_dim * num_heads =? embed_dim)%Z
        "embed_dim must be divisible by num_heads";
  scaling ← pow_neg_half head_dim;
  in_proj_weight ← new_tensor2 (3 * embed_dim) embed_dim (xavier_in_proj init);
  in_proj_bias ←
    (if bias then Some <$> new_tensor1 (3 * embed_dim) (λ _, r0) else Ok None);
  out_weight ← new_tensor2 embed_dim embed_dim (xavier_out_proj init);
  out_bias ← (if bias then Some <$> new_tensor1 embed_dim (λ _, r0) else Ok None);
  '(bias_k, bias_v) ←
    (if add_bias_kv then
       bk ← new_tensor_11n embed_dim (normal_bias_k init);
       bv ← new_tensor_11n embed_dim (normal_bias_v init);
       Ok (Some bk, Some bv)
     else Ok (None, None)) : result (option tensor3 * option tensor3);
  Ok {| embed_dim := embed_dim; num_heads := num_heads;
        attn_dropout := attn_dropout; head_dim := head_dim; scaling := scaling;
        in_proj_weight := in_proj_weight; in_proj_bias := in_proj_bias;
        out_proj := MkLinear out_weight out_bias;
        bias_k := bias_k; bias_v := bias_v;
        add_zero_attn := add_zero_attn; training := true |}.

(** *** Input projections *)

(** [_in_proj(input, start, end)] with the module's own weight and bias *)
Definition _in_proj (self : GraphAttention) (input : tensor3) (start : Z)
    (stop : option Z) : result tensor3 :=
  let weight := slice_rows (in_proj_weight self) start stop in
  let bias := (λ b, slice_vec b start stop) <$> in_proj_bias self in
  linear input weight bias.

Definition in_proj_qkv (self : GraphAttention) (query : tensor3) : result (list tensor3) :=
  t ← _in_proj self query 0 None; Ok (chunk_last t 3).

Definition in_proj_kv (self : GraphAttention) (key : tensor3) : result (list tensor3) :=
  t ← _in_proj self key (embed_dim self) None; Ok (chunk_last t 2).

Definition in_proj_q (self : GraphAttention) (query : tensor3) : result tensor3 :=
  _in_proj self query 0 (Some (embed_dim self)).

Definition in_proj_k (self : GraphAttention) (key : tensor3) : result tensor3 :=
  _in_proj self key (embed_dim self) (Some (2 * embed_dim self)%Z).

Definition in_proj_v (self : GraphAttention) (value : tensor3) : result tensor3 :=
  _in_proj self value (2 * embed_dim self)%Z None.

(** Tuple unpacking [a, b, c = xs] and [a, b = xs] *)
Definition unpack3 {A} (xs : list A) : result (A * A * A) :=
  match xs with
  | [a; b; c] => Ok (a, b, c)
  | _ => Raise (ValueError "wrong number of values to unpack (expected 3)")
  end.

Definition unpack2 {A} (xs : list A) : result (A * A) :=
  match xs with
  | [a; b] => Ok (a, b)
  | _ => Raise (ValueError "wrong number of values to unpack (expected 2)")
  end.

(** Lines 69-84 of [forward]: the projection path is chosen by comparing
    the data pointers of the three arguments. *)
Definition project_inputs (self : GraphAttention)
    (query_nodes key_nodes value_nodes : nodes (R:=R))
  : result (tensor3 * tensor3 * tensor3) :=
  let qkv_same := (data_ptr query_nodes =? data_ptr key_nodes)%Z
                  && (data_ptr key_nodes =? data_ptr value_nodes)%Z in
  let kv_same := (data_ptr key_nodes =? data_ptr value_nodes)%Z in
  if qkv_same then
    qkv ← in_proj_qkv self (values query_nodes); unpack3 qkv
  else if kv_same then
    q ← in_proj_q self (values query_nodes);
    kv ← in_proj_kv self (values key_nodes);
    '(k, v) ← unpack2 kv;
    Ok (q, k, v)
  else
    q ← in_proj_q self (values query_nodes);
    k ← in_proj_k self (values key_nodes);
    v ← in_proj_v self (values value_nodes);
    Ok (q, k, v).

(** *** Segmented attention *)

(** [direction == name]; [direction] may be [None]. *)
Definition direction_is (direction : option string) (name : string) : bool :=
  match direction with Some d => String.eqb d name | None => false end.

(** [xs[i]] *)
Definition getitem {A} (xs : list A) (i : nat) : result A :=
  match xs !! i with
  | Some x => Ok x
  | None => Raise (IndexError "list index out of range")
  end.

(** Lines 110-113: the three index ranges cut out by [seq_split]. *)
Definition segment_ranges (seq_split : Z * Z * Z) : (Z * Z) * (Z * Z) * (Z * Z) :=
  let '(text, vision, audio) := seq_split in
  let s1 := (0, text)%Z in
  let s2 := (text, text + vision)%Z in
  let s3 := (text + vision, text + vision + audio)%Z in
  (s1, s2, s3).

(** Lines 114-144: the raw scores of the three segment pairs. *)
Definition pair_scores (direction : option string) (q k : tensor3 (R:=R))
    (s1 s2 s3 : Z * Z) : result (list tensor3) :=
  let attn_weights := [] in
  if direction_is direction "forward" then
    w ← bmm (slice_dim1 q s1) (transpose12 (slice_dim1 k s2));
    let attn_weights := attn_weights ++ [w] in
    w ← bmm (slice_dim1 q s2) (transpose12 (slice_dim1 k s3));
    let attn_weights := attn_weights ++ [w] in
    w ← bmm (slice_dim1 q s3) (transpose12 (slice_dim1 k s1));
    let attn_weights := attn_weights ++ [w] in
    Ok attn_weights
  else if direction_is direction "backward" then
    w ← bmm (slice_dim1 q s1) (transpose12 (slice_dim1 k s3));
    let attn_weights := attn_weights ++ [w] in
    w ← bmm (slice_dim1 q s2) (transpose12 (slice_dim1 k s1));
    let attn_weights := attn_weights ++ [w] in
    w ← bmm (slice_dim1 q s3) (transpose12 (slice_dim1 k s2));
    let attn_weights := attn_weights ++ [w] in
    Ok attn_weights
  else
    w ← bmm (slice_dim1 q s1) (transpose12 (slice_dim1 k s1));
    let attn_weights := attn_weights ++ [w] in
    w ← bmm (slice_dim1 q s2) (transpose12 (slice_dim1 k s2));
    let attn_weights := attn_weights ++ [w] in
    w ← bmm (slice_dim1 q s3) (transpose12 (slice_dim1 k s3));
    let attn_weights := attn_weights ++ [w] in
    Ok attn_weights.

(** Lines 148-155.  When [mask_fixer] is given, line 149 calls [.float()]
    on [attn_weights], which is a Python list at that point. *)
Definition normalise (mask_fixer : option (tensor2 (R:=R)))
    (attn_weights : list (tensor3 (R:=R))) : result (list tensor3) :=
  match mask_fixer with
  | Some _ => Raise (AttributeError "'list' object has no attribute 'float'")
  | None => Ok (map softmax_last attn_weights)
  end.

(** Lines 156-159: one [F.dropout] call per list element; the [n]-th call
    draws the sample [noise n]. *)
Fixpoint dropout_each (p : R) (training : bool)
    (noise : nat → nat → nat → nat → bool) (n : nat)
    (attn_weights : list (tensor3 (R:=R))) : result (list tensor3) :=
  match attn_weights with
  | [] => Ok []
  | w :: rest =>
      d ← dropout w p training (noise n);
      ds ← dropout_each p training noise (S n) rest;
      Ok (d :: ds)
  end.

(** Lines 161-172: each list entry is overwritten by its product with a
    slice of the values. *)
Definition weighted_values (direction : option string)
    (attn_weights : list (tensor3 (R:=R))) (v : tensor3 (R:=R))
    (s1 s2 s3 : Z * Z) : result (list tensor3) :=
  let update attn_weights i s :=
    w ← getitem attn_weights i;
    o ← bmm w (slice_dim1 v s);
    Ok (<[i := o]> attn_weights) in
  if direction_is direction "forward" then
    attn_weights ← update attn_weights 0 s2;
    attn_weights ← update attn_weights 1 s3;
    update attn_weights 2 s1
  else if direction_is direction "backward" then
    attn_weights ← update attn_weights 0 s3;
    attn_weights ← update attn_weights 1 s1;
    update attn_weights 2 s2
  else
    attn_weights ← update attn_weights 0 s1;
    attn_weights ← update attn_weights 1 s2;
    update attn_weights 2 s3.

(** Lines 114-172 of [forward]: scores, softmax, dropout and weighted
    values of the three segment pairs. *)
Definition segment_attention (self : GraphAttention) (direction : option string)
    (q k v : tensor3 (R:=R)) (s1 s2 s3 : Z * Z)
    (mask_fixer : option (tensor2 (R:=R)))
    (noise : nat → nat → nat → nat → bool) : result (list tensor3) :=
  attn_weights ← pair_scores direction q k s1 s2 s3;
  attn_weights ← normalise mask_fixer attn_weights;
  attn_weights ← dropout_each (attn_dropout self) (training self) noise 0 attn_weights;
  weighted_values direction attn_weights v s1 s2 s3.

(** [GraphAttention.forward].  [noise] stands for the random draws of the
    dropout calls.  The arguments are rank-3 tensors, so the assertion of
    line 64 always holds, and the [key_nodes is None] branch of lines
    76-78 (unreachable after line 59) is left out.  [edge_mask] and
    [mask_fixer] are rank-2 masks, as the docstring describes them. *)
Definition forward (self : GraphAttention)
    (query_nodes key_nodes value_nodes : nodes (R:=R))
    (edge_mask : option (tensor2 (R:=R))) (seq_split : option (Z * Z * Z))
    (mask_fixer : option (tensor2 (R:=R))) (direction : option string)
    (plot_map : bool) (noise : nat → nat → nat → nat → bool)
  : result (tensor3 (R:=R) * (option (tensor3 (R:=R)) * option (tensor3 (R:=R)))) :=
  let '(tgt_len, bsz, embed_dim') := size3 (values query_nodes) in
  _ ← py_assert (Z.of_nat embed_dim' =? embed_dim self)%Z "";
  _ ← py_assert (size3_eqb (values key_nodes) (values value_nodes)) "";
  '(q, k, v) ← project_inputs self query_nodes key_nodes value_nodes;
  let q := scale3 q (scaling self) in
  '(k, v, edge_mask) ←
    match bias_k self with
    | Some bias_k =>
        bias_v ← match bias_v self with
                 | Some b => Ok b
                 | None => Raise (AssertionError "")
                 end;
        k ← cat0 k (repeat_1n1 bias_k bsz);
        v ← cat0 v (repeat_1n1 bias_v bsz);
        Ok (k, v, mask_add_column <$> edge_mask)
    | None => Ok (k, v, edge_mask)
    end;
  q ← view3 q (Z.of_nat tgt_len) (Z.of_nat bsz * num_heads self) (head_dim self);
  let q := transpose01 q in
  k ← view3 k (-1) (Z.of_nat bsz * num_heads self) (head_dim self);
  let k := transpose01 k in
  v ← view3 v (-1) (Z.of_nat bsz * num_heads self) (head_dim self);
  let v := transpose01 v in
  let src_len := dim1 k in
  '(src_len, k, v, edge_mask) ←
    (if add_zero_attn self then
       k ← cat1 k (zeros_row k);
       v ← cat1 v (zeros_row v);
       Ok (src_len + 1, k, v, mask_add_column <$> edge_mask)
     else Ok (src_len, k, v, edge_mask))
    : result (nat * tensor3 (R:=R) * tensor3 (R:=R) * option (tensor2 (R:=R)));
  '(s1, s2, s3) ←
    match seq_split with
    | Some split => Ok (segment_ranges split)
    | None => Raise (TypeError "cannot unpack non-iterable NoneType object")
    end;
  attn_weights ← segment_attention self direction q k v s1 s2 s3 mask_fixer noise;
  attn ← concat1 attn_weights;
  attn ← view3 (transpose01 attn) (Z.of_nat tgt_len) (Z.of_nat bsz) (Z.of_nat embed_dim');
  attn ← linear attn (weight (out_proj self)) (bias (out_proj self));
  Ok (attn, (None, None)).

End Model.

(** ** Definitions used to state the properties *)

(** The three modality segments. *)
Inductive segment : Type := S1 | S2 | S3.

(** The table of section 4.3 of the specification: for each direction,
    the three (query segment, key segment) pairs, in order. *)
Definition spec_direction_pairs (direction : option string) : list (segment * segment) :=
  if direction_is direction "forward" then [(S1, S2); (S2, S3); (S3, S1)]
  else if direction_is direction "backward" then [(S1, S3); (S2, S1); (S3, S2)]
  else [(S1, S1); (S2, S2); (S3, S3)].

(** The index range of a segment: S1 = [0, t), S2 = [t, t+v),
    S3 = [t+v, t+v+a). *)
Definition spec_segment_range (seq_split : Z * Z * Z) (s : segment) : Z * Z :=
  let '(t, v, a) := seq_split in
  match s with
  | S1 => (0, t)%Z
  | S2 => (t, t + v)%Z
  | S3 => (t + v, t + v + a)%Z
  end.

(** First index and length of a segment for lengths [t], [v], [a]. *)
Definition seg_start (t v a : nat) (s : segment) : nat :=
  match s with S1 => 0 | S2 => t | S3 => t + v end.

(** Number of positions of a segment. *)
Definition seg_len (t v a : nat) (s : segment) : nat :=
  match s with S1 => t | S2 => v | S3 => a end.

(** The [seq_split] argument for segment lengths [t], [v], [a]. *)
Definition nat_split (t v a : nat) : Z * Z * Z := (Z.of_nat t, Z.of_nat v, Z.of_nat a).

Section Statements.
Context {R : Type} {SR : Scalar R}.

(** [check] on the content of an optional attribute. *)
Definition opt_all {A} (check : A → bool) (o : option A) : bool :=
  match o with Some a => check a | None => true end.

(** The shape invariant of a module instance: positive head count and
    head width with [head_dim * num_heads = embed_dim], a combined input
    weight of [3 * embed_dim] rows and [embed_dim] columns, and biases,
    output projection and sentinel vectors of matching sizes. *)
Definition module_ok (m : GraphAttention (R:=R)) : bool :=
  let E := Z.to_nat (embed_dim m) in
  (0 <? num_heads m)%Z && (0 <? head_dim m)%Z
  && (head_dim m * num_heads m =? embed_dim m)%Z
  && (rows2 (in_proj_weight m) =? 3 * E) && (cols2 (in_proj_weight m) =? E)
  && opt_all (λ b, len1 b =? 3 * E) (in_proj_bias m)
  && (rows2 (weight (out_proj m)) =? E) && (cols2 (weight (out_proj m)) =? E)
  && opt_all (λ b, len1 b =? E) (bias (out_proj m))
  && opt_all (λ b, (dim0 b =? 1) && (dim1 b =? 1) && (dim2 b =? E)) (bias_k m)
  && opt_all (λ b, (dim0 b =? 1) && (dim1 b =? 1) && (dim2 b =? E)) (bias_v m)
  && match bias_k m, bias_v m with
     | Some _, Some _ | None, None => true
     | _, _ => false
     end.

(** A dropout probability that [F.dropout] accepts. *)
Definition prob_ok (p : R) : bool := negb (rltb p r0 || rltb r1 p).

(** Row [r] of the combined affine map applied to position [(i, j)] of
    [x]: [x[i, j, :] . W[r, :] + b[r]]. *)
Definition affine (self : GraphAttention (R:=R)) (x : tensor3) (i j r : nat) : R :=
  let dot :=
    sum_upto (dim2 x) (λ e, rmul (get3 x i j e) (get2 (in_proj_weight self) r e)) in
  match in_proj_bias self with
  | Some b => radd dot (get1 b r)
  | None => dot
  end.

(** Rows [a, a + n) of the combined affine map applied to [x]. *)
Definition proj_rows (self : GraphAttention (R:=R)) (x : tensor3) (a n : nat) : tensor3 :=
  mk3 (dim0 x) (dim1 x) n (λ i j o, affine self x i j (a + o)).

(** The raw scores of one segment pair: the queries of segment [qs]
    against the keys of segment [ks]. *)
Definition spec_pair_scores (q k : tensor3 (R:=R)) (seq_split : Z * Z * Z)
    (pair : segment * segment) : result tensor3 :=
  bmm (slice_dim1 q (spec_segment_range seq_split (fst pair)))
      (transpose12 (slice_dim1 k (spec_segment_range seq_split (snd pair)))).

(** The score block of a pair, element by element: entry [(i, j)] of
    batch-head [b] is the product of query row [i] of the query segment
    with key row [j] of the key segment. *)
Definition pair_block (q k : tensor3 (R:=R)) (t v a : nat)
    (pair : segment * segment) : tensor3 :=
  mk3 (dim0 q) (seg_len t v a (fst pair)) (seg_len t v a (snd pair))
    (λ b i j, sum_upto (dim2 q) (λ e,
       rmul (get3 q b (seg_start t v a (fst pair) + i) e)
            (get3 k b (seg_start t v a (snd pair) + j) e))).

(** The output block of the [n]-th pair, following section 4.3: scores
    of the pair, softmax, dropout, then the product with the values of the
    pair's key segment. *)
Definition spec_pair_output (p : R) (training : bool)
    (noise : nat → nat → nat → nat → bool) (q k v : tensor3 (R:=R))
    (seq_split : Z * Z * Z) (n : nat) (pair : segment * segment) : result tensor3 :=
  scores ← spec_pair_scores q k seq_split pair;
  w ← dropout (softmax_last scores) p training (noise n);
  bmm w (slice_dim1 v (spec_segment_range seq_split (snd pair))).

(** The blocks of a list of pairs, the [n]-th pair with the [n]-th
    dropout sample. *)
Fixpoint spec_outputs (f : nat → segment * segment → result (tensor3 (R:=R)))
    (n : nat) (pairs : list (segment * segment)) : result (list tensor3) :=
  match pairs with
  | [] => Ok []
  | sp :: rest =>
      o ← f n sp; os ← spec_outputs f (S n) rest; Ok (o :: os)
  end.

(** The tensor [view3] builds once the shape [(a, b, c)] is settled. *)
Definition reshaped (x : tensor3 (R:=R)) (a b c : nat) : tensor3 :=
  mk3 a b c (λ i j k, flat_get x ((i * b + j) * c + k)).

(** The module [self] with sentinel vectors [bk] and [bv], as built with
    [add_bias_kv=True]. *)
Definition with_sentinels (self : GraphAttention (R:=R)) (bk bv : tensor3 (R:=R))
  : GraphAttention (R:=R) := {|
  embed_dim := embed_dim self; num_heads := num_heads self;
  attn_dropout := attn_dropout self; head_dim := head_dim self;
  scaling := scaling self;
  in_proj_weight := in_proj_weight self; in_proj_bias := in_proj_bias self;
  out_proj := out_proj self;
  bias_k := Some bk; bias_v := Some bv;
  add_zero_attn := add_zero_attn self; training := training self
|}.

(** [x] and [y] have the same shape and the same elements at the
    positions below [n] of dimension 1. *)
Definition agree_below (n : nat) (x y : tensor3 (R:=R)) : Prop :=
  size3 x = size3 y
  ∧ ∀ i j k, i < dim0 x → j < n → j < dim1 x → k < dim2 x →
      get3 x i j k = get3 y i j k.

End Statements.

(** ** Concrete scalars for running the model

    Integer scalars, used only to evaluate the definitions on small
    inputs.  Sums and products are exact.  The modules below have
    [head_dim = 1], for which the scaling factor [1 ** -0.5] is exactly 1;
    [2 ^ x] stands in for the exponential, and agrees with it at 0, the
    only argument it receives in the runs whose output values are
    compared (every softmax row there has a single key). *)

#[global] Instance Zscalar : Scalar Z := {|
  r0 := 0%Z; r1 := 1%Z;
  radd := Z.add; rsub := Z.sub; rmul := Z.mul; rdiv := Z.div;
  rexp := λ x, (2 ^ x)%Z;
  rmax := Z.max;
  rltb := Z.ltb; reqb := Z.eqb;
  rpow_neg_half := λ _, 1%Z;
  rfloat := λ x, x;
  rtype_as := λ x, x
|}.

(** A rank-3 tensor from nested lists, of the given shape. *)
Definition of_lists (n0 n1 n2 : nat) (l : list (list (list Z))) : tensor3 (R:=Z) :=
  T3 n0 n1 n2 l.

(** [GraphAttention(embed_dim=1, num_heads=1, bias=False, add_bias_kv=kv)]
    with every drawn weight equal to 1 and the sentinel vectors filled with
    [bk] and [bv]. *)
Definition unit_module (kv : bool) (bk bv : Z) : result (GraphAttention (R:=Z)) :=
  GraphAttention_init 1 1 0%Z false kv false
    (MkInit (λ _ _, 1%Z) (λ _ _, 1%Z) (λ _, bk) (λ _, bv)).

(** [GraphAttention(embed_dim=e, num_heads=h)] with the default options
    ([attn_dropout=0.], [bias=True]) and every drawn weight equal to 1. *)
Definition unit_module_like (e h : Z) : result (GraphAttention (R:=Z)) :=
  GraphAttention_init e h 0%Z true false false
    (MkInit (λ _ _, 1%Z) (λ _ _, 1%Z) (λ _, 0%Z) (λ _, 0%Z)).

(** A module with [embed_dim = 2], [num_heads = 2], biases, and optional
    sentinel vectors filled with [bk] and [bv]. *)
Definition demo_module (kv : bool) (bk bv : Z) : GraphAttention (R:=Z) := {|
  embed_dim := 2; num_heads := 2; attn_dropout := 0%Z; head_dim := 1;
  scaling := 1%Z;
  in_proj_weight := mk2 6 2 (λ i j, Z.of_nat (i + 2 * j + 1));
  in_proj_bias := Some (mk1 6 (λ i, Z.of_nat i));
  out_proj := MkLinear (mk2 2 2 (λ i j, Z.of_nat (i + j + 1)))
                       (Some (mk1 2 (λ i, Z.of_nat i)));
  bias_k := if kv then Some (mk3 1 1 2 (λ _ _ _, bk)) else None;
  bias_v := if kv then Some (mk3 1 1 2 (λ _ _ _, bv)) else None;
  add_zero_attn := false;
  training := true
|}.

(** A sequence of [n] tokens for batch size 1 and [embed_dim = 2]. *)
Definition demo_sequence (ptr : Z) (n : nat) : nodes (R:=Z) :=
  Nodes ptr (mk3 n 1 2 (λ i _ e, Z.of_nat (i + e))).

(** Queries and keys of 2 batch-heads, 3 positions and head width 2. *)
Definition demo_heads (c : Z) : tensor3 (R:=Z) :=
  mk3 2 3 2 (λ b i e, (c + Z.of_nat (b + 2 * i + e))%Z).

(** A sentinel vector of width 2 filled with [c]. *)
Definition demo_sentinel (c : Z) : tensor3 (R:=Z) := mk3 1 1 2 (λ _ _ _, c).

(** A dropout sample that keeps every element. *)
Definition no_noise : nat → nat → nat → nat → bool := λ _ _ _ _, true.

(** ** The mask-construction helper

    [build_adj_masked_matrix] of the script part of the file (lines
    217-270).  Its tensors only hold the floats 0, 1, -1 and -10e9, which
    are integers and on which the subtraction, absolute value and
    comparison it uses are exact: they are integers here. *)

(** [neg_inf = -10e9] *)
Definition neg_inf : Z := (-10000000000)%Z.

(** [torch.ones(n, dtype=torch.float32)] *)
Definition ones1 (n : Z) : result (tensor1 (R:=Z)) :=
  if (n <? 0)%Z then
    Raise (RuntimeError "Trying to create tensor with negative dimension")
  else Ok (mk1 (Z.to_nat n) (λ _, 1%Z)).

(** [row[start:stop] = c] *)
Definition assign_slice (row : tensor1 (R:=Z)) (start : Z) (stop : option Z) (c : Z)
  : tensor1 (R:=Z) :=
  let '(a, n) := py_slice (len1 row) start stop in
  mk1 (len1 row) (λ i, if (a <=? i) && (i <? a + n) then c else get1 row i).

(** Lines 233-251: the mask row of a position of segment number [idx]. *)
Definition mask_row (split : Z * Z * Z) (direction : option string) (idx : nat)
  : result (tensor1 (R:=Z)) :=
  let '(t, v, a) := split in
  let s1 := (0, t)%Z in
  let s2 := (t, t + v)%Z in
  let s3 := (t + v, t + v + a)%Z in
  let sum_len := (0 + t + v + a)%Z in
  row_mask_tensor ← ones1 sum_len;
  Ok (if idx =? 0 then
        let row_mask_tensor := assign_slice row_mask_tensor 0 (Some (snd s1)) 0 in
        if direction_is direction "forward" then
          assign_slice row_mask_tensor (fst s3) None 0
        else if direction_is direction "backward" then
          assign_slice row_mask_tensor (fst s2) (Some (snd s2)) 0
        else row_mask_tensor
      else if idx =? 1 then
        let row_mask_tensor :=
          assign_slice row_mask_tensor (fst s2) (Some (snd s2)) 0 in
        if direction_is direction "forward" then
          assign_slice row_mask_tensor (fst s3) None 0
        else if direction_is direction "backward" then
          assign_slice row_mask_tensor 0 (Some (snd s1)) 0
        else row_mask_tensor
      else if idx =? 2 then
        let row_mask_tensor :=
          assign_slice row_mask_tensor (fst s3) (Some (snd s3)) 0 in
        if direction_is direction "forward" then
          assign_slice row_mask_tensor 0 (Some (snd s1)) 0
        else if direction_is direction "backward" then
          assign_slice row_mask_tensor (fst s2) (Some (snd s2)) 0
        else row_mask_tensor
      else row_mask_tensor).

(** [for _ in range(split_len): ...; mask_list.append(row)], with
    [n] iterations left. *)
Fixpoint append_rows (n : nat) (row : result (tensor1 (R:=Z)))
    (mask_list : list (tensor1 (R:=Z))) : result (list (tensor1 (R:=Z))) :=
  match n with
  | 0 => Ok mask_list
  | S n' => r ← row; append_rows n' row (mask_list ++ [r])
  end.

(** [torch.stack(rows)] for rank-1 tensors *)
Definition stack_rows (rows : list (tensor1 (R:=Z))) : result (tensor2 (R:=Z)) :=
  match rows with
  | [] => Raise (RuntimeError "stack expects a non-empty TensorList")
  | r :: _ =>
      if forallb (λ x, len1 x =? len1 r) rows then
        Ok (mk2 (length rows) (len1 r) (λ i j, get1 (nth i rows r) j))
      else Raise (RuntimeError "stack expects each tensor to be equal size")
  end.

(** [get_mask_neginf_0]: [torch.where(mask == 0, neg_inf, 0)] *)
Definition get_mask_neginf_0 (mask : tensor2 (R:=Z)) : tensor2 (R:=Z) :=
  mk2 (rows2 mask) (cols2 mask)
    (λ i j, if (get2 mask i j =? 0)%Z then neg_inf else 0%Z).

(** [torch.abs(m - 1)] *)
Definition abs_minus_one (m : tensor2 (R:=Z)) : tensor2 (R:=Z) :=
  mk2 (rows2 m) (cols2 m) (λ i j, Z.abs (get2 m i j - 1)).

Definition build_adj_masked_matrix (split : Z * Z * Z) (mode : string)
    (direction : option string) : result (tensor2 (R:=Z)) :=
  let '(t, v, a) := split in
  let mask_list := [] in
  mask_list ← append_rows (Z.to_nat t) (mask_row split direction 0) mask_list;
  mask_list ← append_rows (Z.to_nat v) (mask_row split direction 1) mask_list;
  mask_list ← append_rows (Z.to_nat a) (mask_row split direction 2) mask_list;
  if String.eqb mode "cross" then
    mask ← stack_rows mask_list;
    if direction_is direction "forward" then Ok (get_mask_neginf_0 mask)
    else if direction_is direction "backward" then Ok (get_mask_neginf_0 mask)
    else Raise (ValueError "direction must be 'forward' or 'backward'")
  else if String.eqb mode "self" then
    mask ← stack_rows mask_list;
    Ok (get_mask_neginf_0 (abs_minus_one mask))
  else Raise (ValueError "mode must be \'cross\' or \'self\'").

(** The segment a position belongs to, for segment lengths [t], [v], [a]. *)
Definition position_segment (t v a : nat) (i : nat) : segment :=
  if i <? t then S1 else if i <? t + v then S2 else S3.

Definition segment_eqb (x y : segment) : bool :=
  match x, y with
  | S1, S1 | S2, S2 | S3, S3 => true
  | _, _ => false
  end.

(** The one segment a row of segment [s] leaves open in the helper's
    cross-modal mask, as lines 234-251 zero the others. *)
Definition mask_open_segment (direction : option string) (s : segment) : segment :=
  if direction_is direction "forward" then
    match s with S1 => S2 | S2 => S1 | S3 => S2 end
  else
    match s with S1 => S3 | S2 => S3 | S3 => S1 end.

(** Whether the mask row of a position of segment [rs] is set to 0 at
    the positions of segment [cs]. *)
Definition zero_at (direction : option string) (rs cs : segment) : bool :=
  if direction_is direction "forward" || direction_is direction "backward"
  then negb (segment_eqb cs (mask_open_segment direction rs))
  else segment_eqb cs rs.

(** The segment with number [idx], and the 0/1 row of its positions. *)
Definition segment_of_idx (idx : nat) : segment :=
  match idx with 0 => S1 | 1 => S2 | _ => S3 end.

Definition mask_row_spec (t v a : nat) (direction : option string) (rs : segment)
  : tensor1 (R:=Z) :=
  mk1 (t + v + a)
    (λ j, if zero_at direction rs (position_segment t v a j) then 0%Z else 1%Z).

(** The stacked 0/1 rows, before [get_mask_neginf_0]. *)
Definition mask_rows_spec (t v a : nat) (direction : option string) : tensor2 (R:=Z) :=
  mk2 (t + v + a) (t + v + a)
    (λ i j, get1 (mask_row_spec t v a direction (position_segment t v a i)) j).

(** [m.size()] for a rank-2 tensor *)
Definition size_pair (m : tensor2 (R:=Z)) : nat * nat := (rows2 m, cols2 m).

Section MoreStatements.
Context {R : Type} {SR : Scalar R}.

(** The module [self] with its [add_zero_attn] flag set to [za]. *)
Definition with_zero_attn (self : GraphAttention (R:=R)) (za : bool)
  : GraphAttention (R:=R) := {|
  embed_dim := embed_dim self; num_heads := num_heads self;
  attn_dropout := attn_dropout self; head_dim := head_dim self;
  scaling := scaling self;
  in_proj_weight := in_proj_weight self; in_proj_bias := in_proj_bias self;
  out_proj := out_proj self;
  bias_k := bias_k self; bias_v := bias_v self;
  add_zero_attn := za; training := training self
|}.

(** Lines 100-179 of [forward]: what follows the split into heads, for
    heads [q], [k], [v] and a query of shape [(tgt_len, bsz, embed_dim')]. *)
Definition forward_tail (self : GraphAttention (R:=R)) (za : bool)
    (direction : option string) (tgt_len bsz embed_dim' : nat)
    (q k v : tensor3 (R:=R)) (edge_mask : option (tensor2 (R:=R)))
    (seq_split : option (Z * Z * Z)) (mask_fixer : option (tensor2 (R:=R)))
    (noise : nat → nat → nat → nat → bool)
  : result (tensor3 (R:=R) * (option (tensor3 (R:=R)) * option (tensor3 (R:=R)))) :=
  let src_len := dim1 k in
  '(src_len, k, v, edge_mask) ←
    (if za then
       k ← cat1 k (zeros_row k);
       v ← cat1 v (zeros_row v);
       Ok (src_len + 1, k, v, mask_add_column <$> edge_mask)
     else Ok (src_len, k, v, edge_mask))
    : result (nat * tensor3 (R:=R) * tensor3 (R:=R) * option (tensor2 (R:=R)));
  '(s1, s2, s3) ←
    match seq_split with
    | Some split => Ok (segment_ranges split)
    | None => Raise (TypeError "cannot unpack non-iterable NoneType object")
    end;
  attn_weights ← segment_attention self direction q k v s1 s2 s3 mask_fixer noise;
  attn ← concat1 attn_weights;
  attn ← view3 (transpose01 attn) (Z.of_nat tgt_len) (Z.of_nat bsz) (Z.of_nat embed_dim');
  attn ← linear attn (weight (out_proj self)) (bias (out_proj self));
  Ok (attn, (None, None)).

(** [x] and [y] have the same shape and the same elements at the
    positions below [n] of dimension 0, the sequence dimension of an
    argument of [forward]. *)
Definition agree_rows (n : nat) (x y : tensor3 (R:=R)) : Prop :=
  size3 x = size3 y
  ∧ ∀ i j k, i < n → i < dim0 x → j < dim1 x → k < dim2 x →
      get3 x i j k = get3 y i j k.

(** Lines 87-90 of [forward]: the projected keys (or values) [x] with the
    sentinel vector [b], if the module has one, appended as a last
    position. *)
Definition with_sentinel_row (b : option (tensor3 (R:=R))) (bsz : nat)
    (x : tensor3 (R:=R)) : tensor3 (R:=R) :=
  match b with
  | Some b =>
      mk3 (dim0 x + 1) (dim1 x) (dim2 x)
        (λ i j e, if i <? dim0 x then get3 x i j e
                  else get3 (repeat_1n1 b bsz) (i - dim0 x) j e)
  | None => x
  end.

(** Lines 94-98 of [forward]: the split of a projected sequence into
    heads. *)
Definition heads (self : GraphAttention (R:=R)) (bsz : nat) (x : tensor3 (R:=R))
  : tensor3 (R:=R) :=
  transpose01 (reshaped x (dim0 x) (bsz * Z.to_nat (num_heads self))
                 (Z.to_nat (head_dim self))).

End MoreStatements.

(** A sequence of [n] tokens that holds the tokens of [demo_sequence] at
    the positions below [m] and the constant [c] after them. *)
Definition demo_sequence_upto (ptr : Z) (n m : nat) (c : Z) : nodes (R:=Z) :=
  Nodes ptr (mk3 n 1 2 (λ i _ e, if i <? m then Z.of_nat (i + e) else c)).

(** * Properties *)

(** ** Basic facts about tensors *)

Section TensorFacts.
Context {R : Type} {SR : Scalar R}.

Lemma length_tabulate {A} n (f : nat → A) : length (tabulate n f) = n.
Proof. unfold tabulate. now rewrite length_map, length_seq. Qed.

Lemma nth_tabulate {A} n (f : nat → A) i d : i < n → nth i (tabulate n f) d = f i.
Proof.
  intros Hi. unfold tabulate.
  rewrite (nth_indep _ d (f 0)) by (now rewrite length_map, length_seq).
  rewrite (map_nth f (seq 0 n) 0 i), seq_nth; auto.
Qed.

Lemma tabulate_ext {A} n (f g : nat → A) :
  (∀ i, i < n → f i = g i) → tabulate n f = tabulate n g.
Proof.
  intros Hfg. unfold tabulate. apply map_ext_in.
  intros i Hi. apply in_seq in Hi. apply Hfg. lia.
Qed.

Lemma get1_mk1 n (f : nat → R) i : i < n → get1 (mk1 n f) i = f i.
Proof. intros. unfold get1, mk1; simpl. now rewrite nth_tabulate. Qed.

Lemma get2_mk2 n m (f : nat → nat → R) i j : i < n → j < m → get2 (mk2 n m f) i j = f i j.
Proof. intros. unfold get2, mk2; simpl. now rewrite !nth_tabulate. Qed.

Lemma get3_mk3 n0 n1 n2 (f : nat → nat → nat → R) i j k :
  i < n0 → j < n1 → k < n2 → get3 (mk3 n0 n1 n2 f) i j k = f i j k.
Proof. intros. unfold get3, mk3; simpl. now rewrite !nth_tabulate. Qed.

Lemma mk1_ext n (f g : nat → R) : (∀ i, i < n → f i = g i) → mk1 n f = mk1 n g.
Proof. intros Hfg. unfold mk1. f_equal. now apply tabulate_ext. Qed.

Lemma mk2_ext n m (f g : nat → nat → R) :
  (∀ i j, i < n → j < m → f i j = g i j) → mk2 n m f = mk2 n m g.
Proof.
  intros Hfg. unfold mk2. f_equal.
  apply tabulate_ext; intros i Hi. apply tabulate_ext; auto.
Qed.

Lemma mk3_ext n0 n1 n2 (f g : nat → nat → nat → R) :
  (∀ i j k, i < n0 → j < n1 → k < n2 → f i j k = g i j k) →
  mk3 n0 n1 n2 f = mk3 n0 n1 n2 g.
Proof.
  intros Hfg. unfold mk3. f_equal.
  apply tabulate_ext; intros i Hi. apply tabulate_ext; intros j Hj.
  apply tabulate_ext; auto.
Qed.

Lemma fold_left_ext_in {A B} (f g : A → B → A) (l : list B) (a : A) :
  (∀ acc x, In x l → f acc x = g acc x) → fold_left f l a = fold_left g l a.
Proof.
  revert a. induction l as [|x l IH]; intros a Hfg; simpl; [reflexivity|].
  rewrite Hfg by (now left). apply IH. intros acc y Hy. apply Hfg. now right.
Qed.

Lemma sum_upto_ext n (f g : nat → R) :
  (∀ i, i < n → f i = g i) → sum_upto n f = sum_upto n g.
Proof.
  intros Hfg. unfold sum_upto. apply fold_left_ext_in.
  intros acc i Hi. apply in_seq in Hi. rewrite Hfg; [reflexivity | lia].
Qed.

End TensorFacts.

(** ** Construction *)

Section Construction.
Context {R : Type} {SR : Scalar R}.

Lemma div_exact_iff (e h : Z) :
  (0 < h)%Z → ((e / h * h =? e)%Z = true ↔ (e mod h = 0)%Z).
Proof.
  intros Hh. rewrite Z.eqb_eq.
  pose proof (Z.div_mod e h ltac:(lia)) as Hdm. split; intros E; nia.
Qed.

Lemma init_ok_of_divisible (e h : Z) p b kv za (init : initial_values (R:=R)) :
  (0 < e)%Z → (0 < h)%Z → (e mod h = 0)%Z →
  ∃ m, GraphAttention_init e h p b kv za init = Ok m
       ∧ module_ok m = true
       ∧ embed_dim m = e ∧ num_heads m = h ∧ attn_dropout m = p
       ∧ add_zero_attn m = za ∧ training m = true
       ∧ (kv = false → bias_k m = None).
Proof.
  intros He Hh Hmod.
  pose proof (proj2 (div_exact_iff e h Hh) Hmod) as Hassert.
  assert (Hd : (0 < e / h)%Z).
  { apply Z.eqb_eq in Hassert. nia. }
  unfold GraphAttention_init, floordiv, pow_neg_half, new_tensor2, new_tensor1,
    new_tensor_11n.
  replace (h =? 0)%Z with false by (symmetry; apply Z.eqb_neq; lia).
  cbn [mbind result_bind]. rewrite Hassert. cbn [py_assert mbind result_bind].
  replace (e / h =? 0)%Z with false by (symmetry; apply Z.eqb_neq; lia).
  replace (3 * e <? 0)%Z with false by (symmetry; apply Z.ltb_ge; lia).
  replace (e <? 0)%Z with false by (symmetry; apply Z.ltb_ge; lia).
  assert (H3 : Z.to_nat (3 * e) = 3 * Z.to_nat e) by lia.
  destruct b, kv; cbn; eexists; (split; [reflexivity|]);
    unfold module_ok; cbn; rewrite ?H3, ?Nat.eqb_refl, ?Hassert;
    replace (0 <? h)%Z with true by (symmetry; apply Z.ltb_lt; lia);
    replace (0 <? e / h)%Z with true by (symmetry; apply Z.ltb_lt; lia);
    cbn; repeat split; try reflexivity; try discriminate.
Qed.

(** C9.  For positive [embed_dim] and [num_heads] the constructor returns
    a module exactly when [num_heads] divides [embed_dim]; otherwise the
    constructor itself raises the assertion error "embed_dim must be
    divisible by num_heads". *)
Theorem construction_iff_divisible
    (e h : Z) p b kv za (init : initial_values (R:=R)) :
  (0 < e)%Z → (0 < h)%Z →
  (is_ok (GraphAttention_init e h p b kv za init) = true ↔ (e mod h = 0)%Z)
  ∧ ((e mod h ≠ 0)%Z →
     GraphAttention_init e h p b kv za init
     = Raise (AssertionError "embed_dim must be divisible by num_heads")).
Proof.
  intros He Hh.
  assert (Hfail : (e mod h ≠ 0)%Z →
     GraphAttention_init e h p b kv za init
     = Raise (AssertionError "embed_dim must be divisible by num_heads")).
  { intros Hmod. unfold GraphAttention_init, floordiv.
    replace (h =? 0)%Z with false by (symmetry; apply Z.eqb_neq; lia).
    cbn [mbind result_bind].
    destruct (e / h * h =? e)%Z eqn:Hassert; [|reflexivity].
    apply div_exact_iff in Hassert; [contradiction | assumption]. }
  split; [split|exact Hfail].
  - intros Hok. destruct (Z.eq_dec (e mod h)%Z 0%Z) as [|Hne]; [assumption|].
    rewrite (Hfail Hne) in Hok. discriminate.
  - intros Hmod.
    destruct (init_ok_of_divisible e h p b kv za init He Hh Hmod) as (m & -> & _).
    reflexivity.
Qed.

End Construction.

(** The theorem at [embed_dim = 6], [num_heads = 3]. *)
Lemma construction_iff_divisible_witness :
  (is_ok (unit_module_like 6 3) = true ↔ (6 mod 3 = 0)%Z)
  ∧ ((6 mod 3 ≠ 0)%Z →
     unit_module_like 6 3
     = Raise (AssertionError "embed_dim must be divisible by num_heads")).
Proof.
  apply (construction_iff_divisible (R:=Z) 6 3); lia.
Defined.

(** ** Arguments that never reach the scores *)

(** Case analysis on the innermost scrutinee of the goal. *)
Ltac case_scrutinee :=
  match goal with
  | |- context [match ?x with _ => _ end] =>
      lazymatch x with
      | context [match _ with _ => _ end] => fail
      | _ => destruct x eqn:?
      end
  end.

Ltac run_cases := repeat (cbn beta iota zeta; try reflexivity; case_scrutinee).

Section Unused.
Context {R : Type} {SR : Scalar R}.

(** C7.  Two calls that differ only in [edge_mask] give the same result:
    the mask is widened when a sentinel or a zero position is appended,
    and is never applied to a score tensor. *)
Theorem edge_mask_has_no_effect
    (self : GraphAttention (R:=R)) (query_nodes key_nodes value_nodes : nodes)
    (edge_mask edge_mask' : option tensor2) seq_split mask_fixer direction
    plot_map noise :
  forward self query_nodes key_nodes value_nodes edge_mask seq_split
          mask_fixer direction plot_map noise
  = forward self query_nodes key_nodes value_nodes edge_mask' seq_split
          mask_fixer direction plot_map noise.
Proof.
  unfold forward, size3. cbv [mbind result_bind]. run_cases.
Qed.

(** C5.  A call that supplies [mask_fixer] never returns: whenever the
    earlier steps succeed, line 149 raises [AttributeError], because it
    calls [.float()] on the list of score tensors.  The second part runs
    the module on a 3-token self-attention call with an all-ones mask. *)
Theorem mask_fixer_call_fails :
  (∀ (self : GraphAttention (R:=R)) query_nodes key_nodes value_nodes
     edge_mask seq_split (mask : tensor2) direction plot_map noise,
     is_ok (forward self query_nodes key_nodes value_nodes edge_mask seq_split
              (Some mask) direction plot_map noise) = false)
  ∧ (let x := Nodes 0 (of_lists 3 1 1 [[[1%Z]]; [[2%Z]]; [[3%Z]]]) in
     (m ← unit_module false 0 0;
      forward m x x x None (Some (1, 1, 1)%Z) (Some (mk2 1 1 (λ _ _, 1%Z)))
              (Some "forward"%string) false no_noise)
     = Raise (AttributeError "'list' object has no attribute 'float'")).
Proof.
  split; [|reflexivity].
  intros. unfold forward, size3, segment_attention, normalise.
  cbv [mbind result_bind]. run_cases.
Qed.

End Unused.

(** ** Input projections *)

Section Projections.
Context {R : Type} {SR : Scalar R}.

Lemma clamp_index_of_nat n a : clamp_index n (Z.of_nat a) = Nat.min n a.
Proof.
  unfold clamp_index.
  replace (Z.of_nat a <? 0)%Z with false by (symmetry; apply Z.ltb_ge; lia). lia.
Qed.

Lemma py_slice_of_nat n a b :
  py_slice n (Z.of_nat a) (Some (Z.of_nat b)) = (Nat.min n a, Nat.min n b - Nat.min n a).
Proof. unfold py_slice. now rewrite !clamp_index_of_nat. Qed.

Lemma py_slice_open n a :
  py_slice n (Z.of_nat a) None = (Nat.min n a, n - Nat.min n a).
Proof. unfold py_slice. now rewrite !clamp_index_of_nat. Qed.

(** What [module_ok] says, as propositions. *)
Lemma module_ok_shapes (m : GraphAttention (R:=R)) :
  module_ok m = true →
  let E := Z.to_nat (embed_dim m) in
  let Hn := Z.to_nat (num_heads m) in
  let D := Z.to_nat (head_dim m) in
  embed_dim m = Z.of_nat E ∧ num_heads m = Z.of_nat Hn ∧ head_dim m = Z.of_nat D
  ∧ 0 < Hn ∧ 0 < D ∧ D * Hn = E
  ∧ rows2 (in_proj_weight m) = 3 * E ∧ cols2 (in_proj_weight m) = E
  ∧ (∀ b, in_proj_bias m = Some b → len1 b = 3 * E)
  ∧ rows2 (weight (out_proj m)) = E ∧ cols2 (weight (out_proj m)) = E
  ∧ (∀ b, bias (out_proj m) = Some b → len1 b = E)
  ∧ (∀ b, bias_k m = Some b → size3 b = (1, 1, E) ∧ ∃ b', bias_v m = Some b')
  ∧ (∀ b, bias_v m = Some b → size3 b = (1, 1, E)).
Proof.
  unfold module_ok. intros Hok. cbn zeta in *.
  rewrite !andb_true_iff in Hok.
  destruct Hok as (((((((((((Hh & Hd) & Hdiv) & Hwr) & Hwc) & Hb) & Hor) & Hoc)
                     & Hob) & Hbk) & Hbv) & Hboth).
  apply Z.ltb_lt in Hh, Hd. apply Z.eqb_eq in Hdiv.
  apply Nat.eqb_eq in Hwr, Hwc, Hor, Hoc.
  assert (Hsize : ∀ (o : option (tensor3 (R:=R))) (b : tensor3 (R:=R)),
             opt_all (λ b : tensor3 (R:=R), (dim0 b =? 1) && (dim1 b =? 1)
                           && (dim2 b =? Z.to_nat (embed_dim m))) o = true →
             o = Some b → size3 b = (1, 1, Z.to_nat (embed_dim m))).
  { intros o b Ho ->. cbn in Ho. rewrite !andb_true_iff in Ho.
    destruct Ho as ((H0 & H1) & H2). apply Nat.eqb_eq in H0, H1, H2.
    unfold size3. congruence. }
  repeat match goal with |- _ ∧ _ => split end; try lia; try assumption.
  - intros b Hb'. rewrite Hb' in Hb. now apply Nat.eqb_eq.
  - intros b Hb'. rewrite Hb' in Hob. now apply Nat.eqb_eq.
  - intros b Hb'. split; [exact (Hsize _ _ Hbk Hb')|].
    rewrite Hb' in Hboth. destruct (bias_v m); [eauto | discriminate].
  - intros b Hb'. exact (Hsize _ _ Hbv Hb').
Qed.

Lemma in_proj_rows (self : GraphAttention (R:=R)) x start stop a n :
  py_slice (rows2 (in_proj_weight self)) start stop = (a, n) →
  a + n ≤ rows2 (in_proj_weight self) →
  (∀ b, in_proj_bias self = Some b → len1 b = rows2 (in_proj_weight self)) →
  dim2 x = cols2 (in_proj_weight self) →
  _in_proj self x start stop = Ok (proj_rows self x a n).
Proof.
  intros Hs Hle Hb Hx. unfold _in_proj, slice_rows, slice_vec, linear, proj_rows, affine.
  rewrite Hs. cbn [cols2 rows2 mk2]. rewrite Hx, Nat.eqb_refl. cbn [negb].
  destruct (in_proj_bias self) as [b|] eqn:Hbias; cbn [fmap option_fmap option_map].
  - rewrite (Hb b eq_refl), Hs. cbn [len1 mk1]. rewrite Nat.eqb_refl. cbn [negb].
    f_equal. apply mk3_ext. intros i j o Hi Hj Ho.
    rewrite get1_mk1 by assumption. f_equal.
    apply sum_upto_ext. intros e He. now rewrite get2_mk2 by lia.
  - f_equal. apply mk3_ext. intros i j o Hi Hj Ho.
    apply sum_upto_ext. intros e He. now rewrite get2_mk2 by lia.
Qed.

Lemma in_proj_mismatch (self : GraphAttention (R:=R)) x start stop :
  dim2 x ≠ cols2 (in_proj_weight self) →
  _in_proj self x start stop
  = Raise (RuntimeError "mat1 and mat2 shapes cannot be multiplied").
Proof.
  intros Hx. unfold _in_proj, slice_rows, linear.
  destruct (py_slice _ start stop) as [a n]. cbn [cols2 mk2].
  apply Nat.eqb_neq in Hx. now rewrite Hx.
Qed.

(** Chunking [c * E] projected rows into [c] pieces of [E] rows each. *)
Lemma chunk_proj_rows (self : GraphAttention (R:=R)) x a E c :
  0 < E → 0 < c →
  chunk_last (proj_rows self x a (c * E)) c
  = tabulate c (λ n, proj_rows self x (a + n * E) E).
Proof.
  intros HE Hc. unfold chunk_last. cbn [dim0 dim1 dim2 proj_rows mk3].
  replace (c * E =? 0) with false by (symmetry; apply Nat.eqb_neq; nia).
  assert (Hstep : (c * E + c - 1) / c = E).
  { symmetry. apply Nat.div_unique with (r := c - 1); nia. }
  rewrite Hstep.
  assert (Hcount : (c * E + E - 1) / E = c).
  { symmetry. apply Nat.div_unique with (r := E - 1); nia. }
  rewrite Hcount. apply tabulate_ext. intros n Hn.
  replace (Nat.min E (c * E - n * E)) with E by nia.
  unfold proj_rows. apply mk3_ext. intros i j o Hi Hj Ho.
  rewrite get3_mk3 by nia. f_equal. lia.
Qed.

Section WithModule.
Variable self : GraphAttention (R:=R).
Hypothesis Hok : module_ok self = true.
Let E := Z.to_nat (embed_dim self).

Variable x : tensor3 (R:=R).

Lemma in_proj_q_value :
  dim2 x = E → in_proj_q self x = Ok (proj_rows self x 0 E).
Proof using Hok.
  intros Hx. destruct (module_ok_shapes self Hok) as (HE & _ & _ & _ & _ & _ & Hr & Hc & Hb & _).
  fold E in HE, Hr, Hc, Hb. rewrite <- Hr in Hb. unfold in_proj_q. apply in_proj_rows; try lia; auto.
  rewrite HE, Hr. change 0%Z with (Z.of_nat 0). rewrite py_slice_of_nat.
  f_equal; lia.
Qed.

Lemma in_proj_k_value :
  dim2 x = E → in_proj_k self x = Ok (proj_rows self x E E).
Proof using Hok.
  intros Hx. destruct (module_ok_shapes self Hok) as (HE & _ & _ & _ & _ & _ & Hr & Hc & Hb & _).
  fold E in HE, Hr, Hc, Hb. rewrite <- Hr in Hb. unfold in_proj_k. apply in_proj_rows; try lia; auto.
  rewrite HE, Hr. replace (2 * Z.of_nat E)%Z with (Z.of_nat (2 * E)) by lia.
  rewrite py_slice_of_nat. f_equal; lia.
Qed.

Lemma in_proj_v_value :
  dim2 x = E → in_proj_v self x = Ok (proj_rows self x (2 * E) E).
Proof using Hok.
  intros Hx. destruct (module_ok_shapes self Hok) as (HE & _ & _ & _ & _ & _ & Hr & Hc & Hb & _).
  fold E in HE, Hr, Hc, Hb. rewrite <- Hr in Hb. unfold in_proj_v. apply in_proj_rows; try lia; auto.
  rewrite HE, Hr. replace (2 * Z.of_nat E)%Z with (Z.of_nat (2 * E)) by lia.
  rewrite py_slice_open. f_equal; lia.
Qed.

Lemma in_proj_qkv_value :
  dim2 x = E →
  in_proj_qkv self x
  = Ok [proj_rows self x 0 E; proj_rows self x E E; proj_rows self x (2 * E) E].
Proof using Hok.
  intros Hx.
  destruct (module_ok_shapes self Hok) as (HE & _ & _ & HH & HD & HDH & Hr & Hc & Hb & _).
  fold E in HE, Hr, Hc, Hb, HDH. rewrite <- Hr in Hb. unfold in_proj_qkv.
  rewrite (in_proj_rows self x 0 None 0 (3 * E)); try lia; auto.
  - cbn [mbind result_bind]. rewrite chunk_proj_rows by nia.
    cbn. repeat f_equal; lia.
  - rewrite Hr. change 0%Z with (Z.of_nat 0). rewrite py_slice_open. f_equal; lia.
Qed.

Lemma in_proj_kv_value :
  dim2 x = E →
  in_proj_kv self x = Ok [proj_rows self x E E; proj_rows self x (2 * E) E].
Proof using Hok.
  intros Hx.
  destruct (module_ok_shapes self Hok) as (HE & _ & _ & HH & HD & HDH & Hr & Hc & Hb & _).
  fold E in HE, Hr, Hc, Hb, HDH. rewrite <- Hr in Hb. unfold in_proj_kv.
  rewrite (in_proj_rows self x _ None E (2 * E)); try lia; auto.
  - cbn [mbind result_bind]. rewrite chunk_proj_rows by nia.
    cbn. repeat f_equal; lia.
  - rewrite Hr, HE. rewrite py_slice_open. f_equal; lia.
Qed.

(** Whatever the three data pointers, arguments that hold the same
    tensor are projected as by the three independent projections. *)
Lemma project_inputs_same_values (pq pk pv : Z) :
  project_inputs self (Nodes pq x) (Nodes pk x) (Nodes pv x)
  = (q ← in_proj_q self x; k ← in_proj_k self x; v ← in_proj_v self x; Ok (q, k, v)).
Proof using Hok.
  destruct (module_ok_shapes self Hok) as (HE & _ & _ & _ & _ & _ & Hr & Hc & Hb & _).
  fold E in HE, Hr, Hc, Hb.
  unfold project_inputs. cbn [data_ptr values].
  destruct (Nat.eq_dec (dim2 x) E) as [Hx|Hx].
  - rewrite in_proj_q_value, in_proj_k_value, in_proj_v_value, in_proj_qkv_value,
      in_proj_kv_value by assumption.
    destruct ((pq =? pk)%Z && (pk =? pv)%Z); [reflexivity|].
    destruct (pk =? pv)%Z; reflexivity.
  - unfold in_proj_q, in_proj_k, in_proj_v, in_proj_qkv, in_proj_kv.
    rewrite !in_proj_mismatch by lia.
    destruct ((pq =? pk)%Z && (pk =? pv)%Z); [reflexivity|].
    destruct (pk =? pv)%Z; reflexivity.
Qed.

End WithModule.

(** C3.  On one input sequence, the fused projection (one product with
    the combined weight, cut into three chunks) and the three independent
    projections (with the corresponding slices of the same weight and
    bias) give the same Q, K and V; and [forward]'s choice of path, made
    by comparing data pointers, does not change the projections of
    arguments that hold the same values. *)
Theorem fused_projection_equals_independent
    (self : GraphAttention (R:=R)) (x : tensor3) :
  module_ok self = true →
  (qkv ← in_proj_qkv self x; unpack3 qkv)
  = (q ← in_proj_q self x; k ← in_proj_k self x; v ← in_proj_v self x; Ok (q, k, v))
  ∧ ∀ pq pk pv pq' pk' pv' : Z,
      project_inputs self (Nodes pq x) (Nodes pk x) (Nodes pv x)
      = project_inputs self (Nodes pq' x) (Nodes pk' x) (Nodes pv' x).
Proof.
  intros Hok. split.
  - rewrite <- (project_inputs_same_values self Hok x 0 0 0). reflexivity.
  - intros. now rewrite !project_inputs_same_values.
Qed.

End Projections.

(** ** The direction policy *)

Section Policy.
Context {R : Type} {SR : Scalar R}.

Lemma segment_ranges_spec seq_split :
  segment_ranges seq_split
  = (spec_segment_range seq_split S1, spec_segment_range seq_split S2,
     spec_segment_range seq_split S3).
Proof. destruct seq_split as [[t v] a]. reflexivity. Qed.

Lemma pair_scores_table direction (q k : tensor3 (R:=R)) seq_split :
  pair_scores direction q k (spec_segment_range seq_split S1)
    (spec_segment_range seq_split S2) (spec_segment_range seq_split S3)
  = mapM (spec_pair_scores q k seq_split) (spec_direction_pairs direction).
Proof.
  unfold pair_scores, spec_direction_pairs, spec_pair_scores.
  destruct (direction_is direction "forward");
    [|destruct (direction_is direction "backward")];
    cbn [mapM fst snd]; cbv [mbind result_bind mret result_ret]; run_cases.
Qed.

Lemma slice_dim1_nat (x : tensor3 (R:=R)) a b :
  a ≤ b → b ≤ dim1 x →
  slice_dim1 x (Z.of_nat a, Z.of_nat b)
  = mk3 (dim0 x) (b - a) (dim2 x) (λ i j k, get3 x i (a + j) k).
Proof.
  intros Hab Hb. unfold slice_dim1. cbn [fst snd]. rewrite py_slice_of_nat.
  replace (Nat.min (dim1 x) a) with a by lia.
  replace (Nat.min (dim1 x) b) with b by lia. reflexivity.
Qed.

Lemma segment_slice (x : tensor3 (R:=R)) t v a s :
  t + v + a ≤ dim1 x →
  slice_dim1 x (spec_segment_range (nat_split t v a) s)
  = mk3 (dim0 x) (seg_len t v a s) (dim2 x)
      (λ i j k, get3 x i (seg_start t v a s + j) k).
Proof.
  intros Hx. unfold nat_split, spec_segment_range.
  destruct s; cbn [seg_len seg_start].
  - change 0%Z with (Z.of_nat 0). rewrite slice_dim1_nat by lia.
    f_equal; lia.
  - rewrite <- Nat2Z.inj_add. rewrite slice_dim1_nat by lia. f_equal; lia.
  - rewrite <- !Nat2Z.inj_add. rewrite slice_dim1_nat by lia. f_equal; lia.
Qed.

Lemma mapM_ok {A B} (f : A → result B) (g : A → B) (l : list A) :
  (∀ x, In x l → f x = Ok (g x)) → mapM f l = Ok (map g l).
Proof.
  induction l as [|x l IH]; intros Hf; [reflexivity|].
  cbn [mapM map]. rewrite Hf by (now left). cbn [mbind result_bind].
  rewrite IH by (intros y Hy; apply Hf; now right). reflexivity.
Qed.

Lemma spec_direction_pairs_length direction :
  length (spec_direction_pairs direction) = 3.
Proof.
  unfold spec_direction_pairs.
  destruct (direction_is direction "forward"); [reflexivity|].
  destruct (direction_is direction "backward"); reflexivity.
Qed.

Lemma spec_pair_scores_value (q k : tensor3 (R:=R)) t v a pair :
  t + v + a ≤ dim1 q → t + v + a ≤ dim1 k →
  dim0 q = dim0 k → dim2 q = dim2 k →
  spec_pair_scores q k (nat_split t v a) pair = Ok (pair_block q k t v a pair).
Proof.
  intros Hq Hk H0 H2. unfold spec_pair_scores, pair_block.
  rewrite !segment_slice by assumption.
  unfold bmm, transpose12. cbn [dim0 dim1 dim2 mk3].
  rewrite H0, H2, !Nat.eqb_refl. cbn [andb]. f_equal.
  apply mk3_ext. intros b i j Hb Hi Hj.
  apply sum_upto_ext. intros e He.
  rewrite !get3_mk3 by lia. reflexivity.
Qed.

(** C1.  For segment lengths [t], [v], [a] that fit the query and key
    sequences, the scores [forward] computes are those of the three
    (query segment, key segment) pairs of the table, in the table's order:
    the [n]-th score tensor has one row per query of the pair's query
    segment and one column per key of its key segment, and every entry is
    the product of exactly that query row with that key row. *)
Theorem direction_policy_selects_table_pairs
    direction (q k : tensor3 (R:=R)) (t v a : nat) :
  t + v + a ≤ dim1 q → t + v + a ≤ dim1 k →
  dim0 q = dim0 k → dim2 q = dim2 k →
  let '(s1, s2, s3) := segment_ranges (nat_split t v a) in
  pair_scores direction q k s1 s2 s3
  = mapM (spec_pair_scores q k (nat_split t v a)) (spec_direction_pairs direction)
  ∧ ∃ ws, pair_scores direction q k s1 s2 s3 = Ok ws ∧ length ws = 3
      ∧ ∀ n qs ks, spec_direction_pairs direction !! n = Some (qs, ks) →
          ∃ w, ws !! n = Some w
            ∧ size3 w = (dim0 q, seg_len t v a qs, seg_len t v a ks)
            ∧ ∀ b i j, b < dim0 q → i < seg_len t v a qs → j < seg_len t v a ks →
                get3 w b i j
                = sum_upto (dim2 q) (λ e,
                    rmul (get3 q b (seg_start t v a qs + i) e)
                         (get3 k b (seg_start t v a ks + j) e)).
Proof.
  intros Hq Hk H0 H2. rewrite segment_ranges_spec, pair_scores_table.
  split; [reflexivity|].
  exists (map (pair_block q k t v a) (spec_direction_pairs direction)).
  split; [|split].
  - apply mapM_ok. intros pair _. now apply spec_pair_scores_value.
  - rewrite length_map. apply spec_direction_pairs_length.
  - intros n qs ks Hn. exists (pair_block q k t v a (qs, ks)).
    split; [|split].
    + rewrite list_lookup_fmap, Hn. reflexivity.
    + reflexivity.
    + intros b i j Hb Hi Hj. unfold pair_block. cbn [fst snd].
      now rewrite get3_mk3.
Qed.

Lemma segment_attention_table
    (self : GraphAttention (R:=R)) direction (q k v : tensor3 (R:=R))
    seq_split noise (outs : list tensor3) :
  segment_attention self direction q k v (spec_segment_range seq_split S1)
    (spec_segment_range seq_split S2) (spec_segment_range seq_split S3) None noise
  = Ok outs
  ↔ spec_outputs
      (spec_pair_output (attn_dropout self) (training self) noise q k v seq_split)
      0 (spec_direction_pairs direction) = Ok outs.
Proof.
  unfold segment_attention, pair_scores, weighted_values, normalise,
    spec_direction_pairs, spec_pair_output, spec_pair_scores.
  destruct (direction_is direction "forward");
    [|destruct (direction_is direction "backward")];
    cbn [spec_outputs fst snd];
    repeat (cbn [dropout_each map app getitem lookup list_lookup insert list_insert];
            cbv [mbind result_bind]; cbn beta iota zeta;
            try (split; intros Hx; (exact Hx || discriminate Hx));
            case_scrutinee).
Qed.

(** C2.  A call without [mask_fixer] produces the blocks [outs] exactly
    when the three pairs of the table produce them, each pair multiplying
    its attention weights by the values of the key segment its scores were
    computed against. *)
Theorem pair_output_uses_key_segment_values
    (self : GraphAttention (R:=R)) direction (q k v : tensor3 (R:=R))
    seq_split noise (outs : list tensor3) :
  let '(s1, s2, s3) := segment_ranges seq_split in
  segment_attention self direction q k v s1 s2 s3 None noise = Ok outs
  ↔ spec_outputs
      (spec_pair_output (attn_dropout self) (training self) noise q k v seq_split)
      0 (spec_direction_pairs direction) = Ok outs.
Proof. rewrite segment_ranges_spec. apply segment_attention_table. Qed.

End Policy.

(** ** Shapes along the forward pass *)

Section Shapes.
Context {R : Type} {SR : Scalar R}.

Lemma slice_dim1_dims (x : tensor3 (R:=R)) s :
  dim0 (slice_dim1 x s) = dim0 x
  ∧ dim1 (slice_dim1 x s) = snd (py_slice (dim1 x) (fst s) (Some (snd s)))
  ∧ dim2 (slice_dim1 x s) = dim2 x.
Proof. unfold slice_dim1. destruct (py_slice _ _ _). cbn. auto. Qed.

Lemma bmm_dims (a b : tensor3 (R:=R)) :
  dim0 a = dim0 b → dim2 a = dim1 b →
  ∃ c, bmm a b = Ok c ∧ dim0 c = dim0 a ∧ dim1 c = dim1 a ∧ dim2 c = dim2 b.
Proof.
  intros H0 H1. unfold bmm. rewrite H0, H1, !Nat.eqb_refl. cbn [andb].
  eexists. split; [reflexivity|]. cbn. auto.
Qed.

Lemma dropout_dims (x : tensor3 (R:=R)) p training keep :
  prob_ok p = true →
  ∃ y, dropout x p training keep = Ok y
       ∧ dim0 y = dim0 x ∧ dim1 y = dim1 x ∧ dim2 y = dim2 x.
Proof.
  unfold prob_ok, dropout. intros Hp. apply negb_true_iff in Hp. rewrite Hp.
  destruct (reqb p r0 || negb training || (numel3 x =? 0)); [eauto|].
  destruct (reqb p r1); eexists; (split; [reflexivity|]); cbn; auto.
Qed.

Lemma cat1_dims (a b : tensor3 (R:=R)) :
  dim0 a = dim0 b → dim2 a = dim2 b →
  ∃ c, cat1 a b = Ok c ∧ dim0 c = dim0 a ∧ dim1 c = dim1 a + dim1 b ∧ dim2 c = dim2 a.
Proof.
  intros H0 H2. unfold cat1. rewrite H0, H2, !Nat.eqb_refl. cbn [andb].
  eexists. split; [reflexivity|]. cbn. auto.
Qed.

(** The block of one pair has one row per query of its query segment. *)
Lemma spec_pair_output_dims p training noise (q k v : tensor3 (R:=R)) t v' a n pair :
  prob_ok p = true →
  t + v' + a ≤ dim1 q →
  dim0 q = dim0 k → dim2 q = dim2 k →
  dim0 v = dim0 k → dim1 v = dim1 k →
  ∃ o, spec_pair_output p training noise q k v (nat_split t v' a) n pair = Ok o
       ∧ dim0 o = dim0 q ∧ dim1 o = seg_len t v' a (fst pair) ∧ dim2 o = dim2 v.
Proof.
  intros Hp Hq H0 H2 Hv0 Hv1. unfold spec_pair_output, spec_pair_scores.
  rewrite (segment_slice q) by assumption.
  set (ks := spec_segment_range (nat_split t v' a) (snd pair)).
  destruct (slice_dim1_dims k ks) as (Hk0 & Hk1 & Hk2).
  destruct (slice_dim1_dims v ks) as (Hs0 & Hs1 & Hs2).
  destruct (bmm_dims
              (mk3 (dim0 q) (seg_len t v' a (fst pair)) (dim2 q)
                 (λ i j e, get3 q i (seg_start t v' a (fst pair) + j) e))
              (transpose12 (slice_dim1 k ks)))
    as (sc & -> & Hc0 & Hc1 & Hc2);
    [cbn [dim0 dim1 dim2 mk3 transpose12]; lia
    |cbn [dim0 dim1 dim2 mk3 transpose12]; lia |].
  cbn [mbind result_bind].
  destruct (dropout_dims (softmax_last sc) p training (noise n) Hp)
    as (w & -> & Hw0 & Hw1 & Hw2).
  cbn [mbind result_bind].
  cbn [dim0 dim1 dim2 mk3 transpose12 softmax_last] in Hc0, Hc1, Hc2, Hw0, Hw1, Hw2.
  rewrite Hv1 in Hs1.
  destruct (bmm_dims w (slice_dim1 v ks)) as (o & -> & Ho0 & Ho1 & Ho2);
    [lia | lia |].
  exists o. split; [reflexivity|]. lia.
Qed.

Lemma spec_direction_pairs_queries direction :
  ∃ k1 k2 k3, spec_direction_pairs direction = [(S1, k1); (S2, k2); (S3, k3)].
Proof.
  unfold spec_direction_pairs.
  destruct (direction_is direction "forward"); [eauto|].
  destruct (direction_is direction "backward"); eauto.
Qed.

(** The three blocks of a call without [mask_fixer]: one row per query
    of S1, S2 and S3, in this order, whatever the direction. *)
Lemma segment_attention_blocks (self : GraphAttention (R:=R)) direction
    (q k v : tensor3 (R:=R)) t v' a noise :
  prob_ok (attn_dropout self) = true →
  t + v' + a ≤ dim1 q →
  dim0 q = dim0 k → dim2 q = dim2 k →
  dim0 v = dim0 k → dim1 v = dim1 k →
  ∃ o1 o2 o3,
    segment_attention self direction q k v
      (spec_segment_range (nat_split t v' a) S1)
      (spec_segment_range (nat_split t v' a) S2)
      (spec_segment_range (nat_split t v' a) S3) None noise
    = Ok [o1; o2; o3]
    ∧ size3 o1 = (dim0 q, t, dim2 v)
    ∧ size3 o2 = (dim0 q, v', dim2 v)
    ∧ size3 o3 = (dim0 q, a, dim2 v).
Proof.
  intros Hp Hq H0 H2 Hv0 Hv1.
  destruct (spec_direction_pairs_queries direction) as (k1 & k2 & k3 & Htab).
  pose proof (λ n pair, spec_pair_output_dims (attn_dropout self) (training self)
                noise q k v t v' a n pair Hp Hq H0 H2 Hv0 Hv1) as Hpair.
  destruct (Hpair 0 (S1, k1)) as (o1 & E1 & ? & ? & ?).
  destruct (Hpair 1 (S2, k2)) as (o2 & E2 & ? & ? & ?).
  destruct (Hpair 2 (S3, k3)) as (o3 & E3 & ? & ? & ?).
  exists o1, o2, o3. split.
  - apply segment_attention_table. rewrite Htab. cbn [spec_outputs].
    rewrite E1, E2, E3. reflexivity.
  - unfold size3. cbn [seg_len fst] in *. repeat split; congruence.
Qed.

Lemma concat1_three (o1 o2 o3 : tensor3 (R:=R)) N D t v a :
  size3 o1 = (N, t, D) → size3 o2 = (N, v, D) → size3 o3 = (N, a, D) →
  ∃ c, concat1 [o1; o2; o3] = Ok c ∧ size3 c = (N, t + v + a, D).
Proof.
  unfold size3. intros [= ? ? ?] [= ? ? ?] [= ? ? ?].
  cbn [concat1 mbind result_bind].
  destruct (cat1_dims o2 o3) as (c23 & -> & ? & ? & ?); [lia | lia |].
  cbn [mbind result_bind].
  destruct (cat1_dims o1 c23) as (c & -> & ? & ? & ?); [lia | lia |].
  exists c. split; [reflexivity|]. f_equal; [f_equal|]; lia.
Qed.

Lemma infer_view_exact (a b c : nat) :
  infer_view (a * b * c) (Z.of_nat a) (Z.of_nat b) (Z.of_nat c) = Ok (a, b, c).
Proof.
  unfold infer_view. cbn [existsb List.filter].
  repeat match goal with
  | |- context [(Z.of_nat ?n <? -1)%Z] =>
      replace (Z.of_nat n <? -1)%Z with false by (symmetry; apply Z.ltb_ge; lia)
  | |- context [(Z.of_nat ?n =? -1)%Z] =>
      replace (Z.of_nat n =? -1)%Z with false by (symmetry; apply Z.eqb_neq; lia)
  end.
  cbn [orb].
  replace (Z.of_nat (a * b * c) =? Z.of_nat a * Z.of_nat b * Z.of_nat c)%Z
    with true by (symmetry; apply Z.eqb_eq; lia).
  now rewrite !Nat2Z.id.
Qed.

Lemma infer_view_mismatch (n a b c : nat) :
  n ≠ a * b * c →
  infer_view n (Z.of_nat a) (Z.of_nat b) (Z.of_nat c)
  = Raise (RuntimeError "shape is invalid for input size").
Proof.
  intros Hn. unfold infer_view. cbn [existsb List.filter].
  repeat match goal with
  | |- context [(Z.of_nat ?n <? -1)%Z] =>
      replace (Z.of_nat n <? -1)%Z with false by (symmetry; apply Z.ltb_ge; lia)
  | |- context [(Z.of_nat ?n =? -1)%Z] =>
      replace (Z.of_nat n =? -1)%Z with false by (symmetry; apply Z.eqb_neq; lia)
  end.
  cbn [orb].
  replace (Z.of_nat n =? Z.of_nat a * Z.of_nat b * Z.of_nat c)%Z
    with false by (symmetry; apply Z.eqb_neq; lia).
  reflexivity.
Qed.

Lemma infer_view_first (a b c : nat) :
  0 < b → 0 < c →
  infer_view (a * b * c) (-1) (Z.of_nat b) (Z.of_nat c) = Ok (a, b, c).
Proof.
  intros Hb Hc. unfold infer_view. cbn [existsb List.filter].
  repeat match goal with
  | |- context [(Z.of_nat ?n <? -1)%Z] =>
      replace (Z.of_nat n <? -1)%Z with false by (symmetry; apply Z.ltb_ge; lia)
  | |- context [(Z.of_nat ?n =? -1)%Z] =>
      replace (Z.of_nat n =? -1)%Z with false by (symmetry; apply Z.eqb_neq; lia)
  end.
  change (-1 <? -1)%Z with false. change (-1 =? -1)%Z with true.
  cbn [orb].
  assert (Hknown : (- (-1 * Z.of_nat b * Z.of_nat c))%Z = Z.of_nat (b * c)) by lia.
  rewrite Hknown.
  replace (Z.of_nat (b * c) =? 0)%Z with false by (symmetry; apply Z.eqb_neq; nia).
  replace (Z.of_nat (a * b * c)) with (Z.of_nat a * Z.of_nat (b * c))%Z by lia.
  rewrite Z.mod_mul by nia. cbn [Z.eqb negb].
  rewrite Z.div_mul by nia. now rewrite !Nat2Z.id.
Qed.

Lemma view3_exact (x : tensor3 (R:=R)) a b c :
  numel3 x = a * b * c →
  view3 x (Z.of_nat a) (Z.of_nat b) (Z.of_nat c) = Ok (reshaped x a b c).
Proof. intros Hn. unfold view3. rewrite Hn, infer_view_exact. reflexivity. Qed.

Lemma view3_mismatch (x : tensor3 (R:=R)) a b c :
  numel3 x ≠ a * b * c →
  view3 x (Z.of_nat a) (Z.of_nat b) (Z.of_nat c)
  = Raise (RuntimeError "shape is invalid for input size").
Proof. intros Hn. unfold view3. now rewrite infer_view_mismatch. Qed.

Lemma view3_first (x : tensor3 (R:=R)) a b c :
  0 < b → 0 < c → numel3 x = a * b * c →
  view3 x (-1) (Z.of_nat b) (Z.of_nat c) = Ok (reshaped x a b c).
Proof.
  intros Hb Hc Hn. unfold view3. rewrite Hn, infer_view_first by assumption.
  reflexivity.
Qed.

Lemma cat0_dims (a b : tensor3 (R:=R)) :
  dim1 a = dim1 b → dim2 a = dim2 b →
  ∃ c, cat0 a b = Ok c ∧ size3 c = (dim0 a + dim0 b, dim1 a, dim2 a)
       ∧ ∀ i j k, i < dim0 a → j < dim1 a → k < dim2 a → get3 c i j k = get3 a i j k.
Proof.
  intros H1 H2. unfold cat0. rewrite H1, H2, !Nat.eqb_refl. cbn [andb].
  eexists. split; [reflexivity|]. split; [reflexivity|].
  intros i j k Hi Hj Hk. rewrite get3_mk3 by lia.
  replace (i <? dim0 a) with true by (symmetry; apply Nat.ltb_lt; lia).
  reflexivity.
Qed.

Lemma linear_dims (x : tensor3 (R:=R)) (l : Linear (R:=R)) :
  dim2 x = cols2 (weight l) →
  (∀ b, bias l = Some b → len1 b = rows2 (weight l)) →
  ∃ y, linear x (weight l) (bias l) = Ok y
       ∧ size3 y = (dim0 x, dim1 x, rows2 (weight l)).
Proof.
  intros Hx Hb. unfold linear. rewrite Hx, Nat.eqb_refl. cbn [negb].
  destruct (bias l) as [b|]; [|eauto].
  rewrite (Hb b eq_refl), Nat.eqb_refl. cbn [negb]. eauto.
Qed.

Section WithModule.
Variable self : GraphAttention (R:=R).
Hypothesis Hok : module_ok self = true.
Let E := Z.to_nat (embed_dim self).

Lemma project_inputs_dims (qn kn vn : nodes (R:=R)) T B S :
  size3 (values qn) = (T, B, E) →
  size3 (values kn) = (S, B, E) →
  size3 (values vn) = (S, B, E) →
  ∃ q k v S', project_inputs self qn kn vn = Ok (q, k, v)
    ∧ size3 q = (T, B, E) ∧ size3 k = (S', B, E) ∧ size3 v = (S', B, E)
    ∧ (S' = S ∨ S' = T).
Proof using Hok.
  unfold size3. intros [= Hq0 Hq1 Hq2] [= Hk0 Hk1 Hk2] [= Hv0 Hv1 Hv2].
  unfold project_inputs.
  destruct ((data_ptr qn =? data_ptr kn)%Z && (data_ptr kn =? data_ptr vn)%Z);
    [|destruct (data_ptr kn =? data_ptr vn)%Z].
  - rewrite in_proj_qkv_value by assumption. cbn [mbind result_bind unpack3].
    do 3 eexists. exists T. split; [reflexivity|]. cbn. subst. fold E.
    rewrite ?Hk1, ?Hv0, ?Hv1. auto.
  - rewrite in_proj_q_value, in_proj_kv_value by assumption.
    cbn [mbind result_bind unpack2].
    do 3 eexists. exists S. split; [reflexivity|]. cbn. subst. fold E.
    rewrite ?Hk1, ?Hv0, ?Hv1. auto.
  - rewrite in_proj_q_value, in_proj_k_value, in_proj_v_value by assumption.
    cbn [mbind result_bind].
    do 3 eexists. exists S. split; [reflexivity|]. cbn. subst. fold E.
    rewrite ?Hk1, ?Hv0, ?Hv1. auto.
Qed.

End WithModule.

End Shapes.

(** ** Calls that respect the shape contract *)

Section ValidCall.
Context {R : Type} {SR : Scalar R}.

Variable self : GraphAttention (R:=R).
Variables query_nodes key_nodes value_nodes : nodes (R:=R).
Variable edge_mask : option (tensor2 (R:=R)).
Variable direction : option string.
Variable plot_map : bool.
Variable noise : nat → nat → nat → nat → bool.
Variables T B S : nat.
Variables t v a : nat.

Let E := Z.to_nat (embed_dim self).
Let Hn := Z.to_nat (num_heads self).
Let D := Z.to_nat (head_dim self).

Hypothesis Hok : module_ok self = true.
Hypothesis Hp : prob_ok (attn_dropout self) = true.
Hypothesis HB : 0 < B.
Hypothesis Hq : size3 (values query_nodes) = (T, B, E).
Hypothesis Hk : size3 (values key_nodes) = (S, B, E).
Hypothesis Hv : size3 (values value_nodes) = (S, B, E).
Hypothesis Hsum : t + v + a ≤ T.

(** Up to the final reshape the call succeeds: it has computed three
    blocks of [t], [v] and [a] rows and their concatenation [c]. *)
Lemma forward_reduces :
  ∃ qh kh vh o1 o2 o3 c,
    segment_attention self direction qh kh vh
      (spec_segment_range (nat_split t v a) S1)
      (spec_segment_range (nat_split t v a) S2)
      (spec_segment_range (nat_split t v a) S3) None noise
    = Ok [o1; o2; o3]
    ∧ size3 o1 = (B * Hn, t, D)
    ∧ size3 o2 = (B * Hn, v, D)
    ∧ size3 o3 = (B * Hn, a, D)
    ∧ concat1 [o1; o2; o3] = Ok c
    ∧ size3 c = (B * Hn, t + v + a, D)
    ∧ forward self query_nodes key_nodes value_nodes edge_mask
        (Some (nat_split t v a)) None direction plot_map noise
      = (attn ← view3 (transpose01 c) (Z.of_nat T) (Z.of_nat B) (Z.of_nat E);
         attn ← linear attn (weight (out_proj self)) (bias (out_proj self));
         Ok (attn, (None, None))).
Proof using Hok Hp HB Hq Hk Hv Hsum.
  destruct (module_ok_shapes self Hok)
    as (HE & HH & HD & HHpos & HDpos & HDH & _ & _ & _ & _ & _ & _ & Hbk & Hbv).
  fold E in HE, HDH, Hbk, Hbv. fold Hn in HH, HHpos, HDH. fold D in HD, HDpos, HDH.
  unfold forward. rewrite Hq, segment_ranges_spec.
  replace (Z.of_nat E =? embed_dim self)%Z with true
    by (symmetry; apply Z.eqb_eq; lia).
  replace (size3_eqb (values key_nodes) (values value_nodes)) with true.
  2:{ unfold size3 in Hk, Hv. injection Hk as ? ? ?. injection Hv as ? ? ?.
      unfold size3_eqb. symmetry. rewrite !andb_true_iff, !Nat.eqb_eq. lia. }
  cbn [py_assert mbind result_bind].
  destruct (project_inputs_dims self Hok query_nodes key_nodes value_nodes T B S Hq Hk Hv)
    as (q & k & v0 & S' & -> & Hq' & Hk' & Hv' & _).
  fold E in Hq', Hk', Hv'.
  cbn [mbind result_bind].
  (* sentinel key and value *)
  match goal with
  | |- context [mbind _ ?m] =>
      lazymatch m with
      | match bias_k self with _ => _ end =>
          assert (Hstage : ∃ k' v' em' S'', m = Ok (k', v', em')
                     ∧ size3 k' = (S'', B, E) ∧ size3 v' = (S'', B, E))
      end
  end.
  { destruct (bias_k self) as [bk|] eqn:Hbk'; [|eauto 8].
    destruct (Hbk bk eq_refl) as (Hbks & bv & Hbv').
    rewrite Hbv'. pose proof (Hbv bv Hbv') as Hbvs.
    unfold size3 in *.
    injection Hbks as ? ? ?. injection Hbvs as ? ? ?.
    injection Hk' as ? ? ?. injection Hv' as ? ? ?.
    cbn [mbind result_bind].
    destruct (cat0_dims k (repeat_1n1 bk B)) as (k' & -> & Hk'' & _);
      [cbn; lia | cbn; lia |].
    destruct (cat0_dims v0 (repeat_1n1 bv B)) as (v' & -> & Hv'' & _);
      [cbn; lia | cbn; lia |].
    cbn [mbind result_bind]. unfold size3 in *.
    exists k', v', (mask_add_column <$> edge_mask), (S' + 1).
    split; [reflexivity|]. cbn in Hk'', Hv''. split; congruence. }
  destruct Hstage as (k' & v' & em' & S'' & -> & Hk'' & Hv'').
  cbn [mbind result_bind].
  (* heads *)
  rewrite HH, HD, <- Nat2Z.inj_mul.
  unfold size3 in Hq', Hk'', Hv''.
  injection Hq' as Hq0 Hq1 Hq2. injection Hk'' as Hk0 Hk1 Hk2.
  injection Hv'' as Hv0 Hv1 Hv2.
  rewrite (view3_exact (scale3 q (scaling self)) T (B * Hn) D)
    by (unfold numel3; cbn [scale3 mk3 dim0 dim1 dim2]; nia).
  rewrite (view3_first k' S'' (B * Hn) D) by (unfold numel3; nia).
  rewrite (view3_first v' S'' (B * Hn) D) by (unfold numel3; nia).
  cbn [mbind result_bind].
  (* zero attention *)
  set (qh := transpose01 (reshaped (scale3 q (scaling self)) T (B * Hn) D)).
  set (kh := transpose01 (reshaped k' S'' (B * Hn) D)).
  set (vh := transpose01 (reshaped v' S'' (B * Hn) D)).
  match goal with
  | |- context [mbind _ ?m] =>
      lazymatch m with
      | if add_zero_attn self then _ else _ =>
          assert (Hzero : ∃ sl k2 v2 em2 S3, m = Ok (sl, k2, v2, em2)
                     ∧ size3 k2 = (B * Hn, S3, D) ∧ size3 v2 = (B * Hn, S3, D))
      end
  end.
  { destruct (add_zero_attn self); [|do 4 eexists; exists S''; eauto].
    destruct (cat1_dims kh (zeros_row kh)) as (k2 & -> & ? & ? & ?);
      [reflexivity | reflexivity |].
    destruct (cat1_dims vh (zeros_row vh)) as (v2 & -> & ? & ? & ?);
      [reflexivity | reflexivity |].
    cbn [mbind result_bind]. do 4 eexists. exists (S'' + 1).
    split; [reflexivity|]. unfold size3.
    cbn in *. split; congruence. }
  destruct Hzero as (sl & k2 & v2 & em2 & S3 & -> & Hkz & Hvz).
  cbn [mbind result_bind].
  (* the three blocks and their concatenation *)
  unfold size3 in Hkz, Hvz. injection Hkz as ? ? ?. injection Hvz as ? ? ?.
  destruct (segment_attention_blocks self direction qh k2 v2 t v a noise Hp)
    as (o1 & o2 & o3 & Hatt & Ho1 & Ho2 & Ho3).
  all: try (unfold qh, reshaped; cbn [transpose01 mk3 dim0 dim1 dim2]; lia).
  assert (Hd0 : dim0 qh = B * Hn) by reflexivity.
  rewrite Hd0 in Ho1, Ho2, Ho3.
  replace (dim2 v2) with D in Ho1, Ho2, Ho3 by congruence.
  destruct (concat1_three o1 o2 o3 _ _ _ _ _ Ho1 Ho2 Ho3) as (c & Hcat & Hc).
  exists qh, k2, v2, o1, o2, o3, c.
  rewrite Hatt. cbn [mbind result_bind]. rewrite Hcat. cbn [mbind result_bind].
  repeat split; assumption || reflexivity.
Qed.

(** When the segment lengths sum to the sequence length, the call
    returns an output of the query's shape. *)
Lemma forward_returns :
  t + v + a = T →
  ∃ out, forward self query_nodes key_nodes value_nodes edge_mask
           (Some (nat_split t v a)) None direction plot_map noise
         = Ok (out, (None, None))
       ∧ size3 out = (T, B, E).
Proof using Hok Hp HB Hq Hk Hv Hsum.
  intros Heq.
  destruct forward_reduces as (_ & _ & _ & _ & _ & _ & c & _ & _ & _ & _ & _ & Hc & ->).
  destruct (module_ok_shapes self Hok)
    as (HE & HH & HD & HHpos & HDpos & HDH & _ & _ & _ & Hor & Hoc & Hob & _).
  fold E in HDH, Hor, Hoc, Hob. fold Hn in HDH. fold D in HDH.
  unfold size3 in Hc. injection Hc as Hc0 Hc1 Hc2.
  rewrite view3_exact
    by (unfold numel3; cbn [transpose01 mk3 dim0 dim1 dim2]; nia).
  cbn [mbind result_bind].
  destruct (linear_dims (reshaped (transpose01 c) T B E) (out_proj self))
    as (out & -> & Hout); [cbn; lia | intros b Hb; rewrite (Hob b Hb); lia |].
  exists out. split; [reflexivity|]. rewrite Hout. cbn. now rewrite Hor.
Qed.

(** When they sum to less, the final reshape fails. *)
Lemma forward_short :
  t + v + a < T →
  forward self query_nodes key_nodes value_nodes edge_mask
    (Some (nat_split t v a)) None direction plot_map noise
  = Raise (RuntimeError "shape is invalid for input size").
Proof using Hok Hp HB Hq Hk Hv Hsum.
  intros Hlt.
  destruct forward_reduces as (_ & _ & _ & _ & _ & _ & c & _ & _ & _ & _ & _ & Hc & ->).
  destruct (module_ok_shapes self Hok)
    as (HE & HH & HD & HHpos & HDpos & HDH & _).
  fold E in HDH. fold Hn in HDH, HHpos. fold D in HDH, HDpos.
  unfold size3 in Hc. injection Hc as Hc0 Hc1 Hc2.
  rewrite view3_mismatch; [reflexivity|].
  unfold numel3. cbn [transpose01 mk3 dim0 dim1 dim2].
  rewrite Hc0, Hc1, Hc2, <- HDH. intros Heq.
  assert (Hx : (t + v + a) * (B * Hn * D) = T * (B * Hn * D)) by lia.
  apply Nat.mul_cancel_r in Hx; [lia|].
  pose proof (Nat.mul_pos_pos _ _ (Nat.mul_pos_pos _ _ HB HHpos) HDpos). lia.
Qed.

End ValidCall.

Section Contract.
Context {R : Type} {SR : Scalar R}.

(** C4.  For a well-formed module and query, key and value sequences of
    its embedding width, a call whose segment lengths sum to the query's
    sequence length returns, for every direction, an output of the query's
    shape together with the pair [(None, None)]. *)
Theorem forward_output_has_query_shape
    (self : GraphAttention (R:=R)) (query_nodes key_nodes value_nodes : nodes)
    edge_mask direction plot_map noise (T B S t v a : nat) :
  module_ok self = true →
  prob_ok (attn_dropout self) = true →
  0 < B →
  size3 (values query_nodes) = (T, B, Z.to_nat (embed_dim self)) →
  size3 (values key_nodes) = (S, B, Z.to_nat (embed_dim self)) →
  size3 (values value_nodes) = (S, B, Z.to_nat (embed_dim self)) →
  t + v + a = T →
  ∃ out, forward self query_nodes key_nodes value_nodes edge_mask
           (Some (nat_split t v a)) None direction plot_map noise
         = Ok (out, (None, None))
       ∧ size3 out = size3 (values query_nodes).
Proof.
  intros Hok Hp HB Hq Hk Hv Hsum.
  destruct (forward_returns self query_nodes key_nodes value_nodes edge_mask
              direction plot_map noise T B S t v a Hok Hp HB Hq Hk Hv
              ltac:(lia) Hsum) as (out & Hout & Hsize).
  exists out. split; [assumption|]. congruence.
Qed.

(** C8.  With one or more segment lengths equal to 0 (and the lengths
    still summing to the sequence length) the call returns: the three
    blocks have [t], [v] and [a] rows, so the block of an empty segment
    has none, their concatenation has [T] rows, and so does the output. *)
Theorem empty_segments_do_not_crash
    (self : GraphAttention (R:=R)) (query_nodes key_nodes value_nodes : nodes)
    edge_mask direction plot_map noise (T B S t v a : nat) :
  module_ok self = true →
  prob_ok (attn_dropout self) = true →
  0 < B →
  size3 (values query_nodes) = (T, B, Z.to_nat (embed_dim self)) →
  size3 (values key_nodes) = (S, B, Z.to_nat (embed_dim self)) →
  size3 (values value_nodes) = (S, B, Z.to_nat (embed_dim self)) →
  t + v + a = T →
  t = 0 ∨ v = 0 ∨ a = 0 →
  ∃ qh kh vh o1 o2 o3 c out,
    segment_attention self direction qh kh vh
      (spec_segment_range (nat_split t v a) S1)
      (spec_segment_range (nat_split t v a) S2)
      (spec_segment_range (nat_split t v a) S3) None noise
    = Ok [o1; o2; o3]
    ∧ dim1 o1 = t ∧ dim1 o2 = v ∧ dim1 o3 = a
    ∧ (∀ n s o, [S1; S2; S3] !! n = Some s → [o1; o2; o3] !! n = Some o →
         seg_len t v a s = 0 → dim1 o = 0)
    ∧ concat1 [o1; o2; o3] = Ok c ∧ dim1 c = T
    ∧ forward self query_nodes key_nodes value_nodes edge_mask
        (Some (nat_split t v a)) None direction plot_map noise
      = (attn ← view3 (transpose01 c) (Z.of_nat T) (Z.of_nat B)
                  (Z.of_nat (Z.to_nat (embed_dim self)));
         attn ← linear attn (weight (out_proj self)) (bias (out_proj self));
         Ok (attn, (None, None)))
    ∧ forward self query_nodes key_nodes value_nodes edge_mask
        (Some (nat_split t v a)) None direction plot_map noise
      = Ok (out, (None, None))
    ∧ dim0 out = T.
Proof.
  intros Hok Hp HB Hq Hk Hv Hsum _.
  destruct (forward_reduces self query_nodes key_nodes value_nodes edge_mask
              direction plot_map noise T B S t v a Hok Hp HB Hq Hk Hv ltac:(lia))
    as (qh & kh & vh & o1 & o2 & o3 & c & Hatt & Ho1 & Ho2 & Ho3 & Hcat & Hc & Hfw).
  destruct (forward_returns self query_nodes key_nodes value_nodes edge_mask
              direction plot_map noise T B S t v a Hok Hp HB Hq Hk Hv
              ltac:(lia) Hsum) as (out & Hout & Hsize).
  unfold size3 in Ho1, Ho2, Ho3, Hc, Hsize.
  injection Ho1 as ? ? ?. injection Ho2 as ? ? ?. injection Ho3 as ? ? ?.
  injection Hc as ? ? ?. injection Hsize as ? ? ?.
  exists qh, kh, vh, o1, o2, o3, c, out.
  repeat match goal with |- _ ∧ _ => split end;
    try assumption; try lia.
  intros n s o Hs Ho Hz.
  destruct n as [|[|[|n]]]; cbn in Hs, Ho; try discriminate;
    injection Hs as <-; injection Ho as <-; cbn in Hz; lia.
Qed.

(** C6, as the code has it.  A query whose embedding width differs from
    the module's, and a key and value of different sizes, are rejected by
    the assertions of lines 63 and 65; segment lengths that sum to less
    than the query's sequence length make an otherwise well-formed call
    fail at the final reshape.  In all three cases no result is returned. *)
Theorem shape_violations_detected
    (self : GraphAttention (R:=R)) (query_nodes key_nodes value_nodes : nodes)
    edge_mask direction plot_map noise :
  (∀ seq_split mask_fixer,
     Z.of_nat (dim2 (values query_nodes)) ≠ embed_dim self →
     forward self query_nodes key_nodes value_nodes edge_mask seq_split
       mask_fixer direction plot_map noise
     = Raise (AssertionError ""))
  ∧ (∀ seq_split mask_fixer,
     size3 (values key_nodes) ≠ size3 (values value_nodes) →
     forward self query_nodes key_nodes value_nodes edge_mask seq_split
       mask_fixer direction plot_map noise
     = Raise (AssertionError ""))
  ∧ (∀ T B S t v a,
     module_ok self = true →
     prob_ok (attn_dropout self) = true →
     0 < B →
     size3 (values query_nodes) = (T, B, Z.to_nat (embed_dim self)) →
     size3 (values key_nodes) = (S, B, Z.to_nat (embed_dim self)) →
     size3 (values value_nodes) = (S, B, Z.to_nat (embed_dim self)) →
     t + v + a < T →
     forward self query_nodes key_nodes value_nodes edge_mask
       (Some (nat_split t v a)) None direction plot_map noise
     = Raise (RuntimeError "shape is invalid for input size")).
Proof.
  split; [|split].
  - intros seq_split mask_fixer Hne. unfold forward, size3.
    apply Z.eqb_neq in Hne. rewrite Hne. reflexivity.
  - intros seq_split mask_fixer Hne. unfold forward, size3.
    destruct (Z.of_nat (dim2 (values query_nodes)) =? embed_dim self)%Z;
      [|reflexivity].
    cbn [py_assert mbind result_bind].
    destruct (size3_eqb (values key_nodes) (values value_nodes)) eqn:Heq;
      [|reflexivity].
    exfalso. apply Hne. unfold size3_eqb in Heq.
    rewrite !andb_true_iff, !Nat.eqb_eq in Heq. unfold size3.
    destruct Heq as ((-> & ->) & ->). reflexivity.
  - intros T B S t v a Hok Hp HB Hq Hk Hv Hlt.
    exact (forward_short self query_nodes key_nodes value_nodes edge_mask
             direction plot_map noise T B S t v a Hok Hp HB Hq Hk Hv
             ltac:(lia) Hlt).
Qed.

End Contract.

(** Two calls that break the shape contract and still return: segment
    lengths [(2, 2, 2)] for a query of 3 tokens, and a key and value of 2
    tokens for a query of 3 tokens. *)
Lemma unchecked_shape_violations_return :
  (2 + 2 + 2 ≠ dim0 (values (demo_sequence 0 3))
   ∧ is_ok (forward (demo_module false 0 0) (demo_sequence 0 3)
              (demo_sequence 0 3) (demo_sequence 0 3) None
              (Some (2, 2, 2)%Z) None (Some "forward"%string) false no_noise)
     = true)
  ∧ (size3 (values (demo_sequence 1 2)) ≠ size3 (values (demo_sequence 0 3))
     ∧ is_ok (forward (demo_module false 0 0) (demo_sequence 0 3)
                (demo_sequence 1 2) (demo_sequence 1 2) None
                (Some (1, 1, 1)%Z) None (Some "forward"%string) false no_noise)
       = true).
Proof.
  split; (split; [vm_compute; intros [=] | vm_compute; reflexivity]).
Qed.

Lemma shape_violations_detected_witness :
  (module_ok (demo_module false 0 0) = true
   ∧ prob_ok (attn_dropout (demo_module false 0 0)) = true
   ∧ 0 < 1
   ∧ 1 + 1 + 0 < 3)
  ∧ forward (demo_module false 0 0) (demo_sequence 0 3) (demo_sequence 0 3)
      (demo_sequence 0 3) None (Some (nat_split 1 1 0)) None None false no_noise
    = Raise (RuntimeError "shape is invalid for input size").
Proof.
  split; [repeat split; lia|].
  apply (proj2 (proj2 (shape_violations_detected (demo_module false 0 0)
                  (demo_sequence 0 3) (demo_sequence 0 3) (demo_sequence 0 3)
                  None None false no_noise)) 3 1 3 1 1 0);
    reflexivity || lia.
Defined.

Lemma forward_output_has_query_shape_witness :
  ∃ out, forward (demo_module true 5 7) (demo_sequence 0 3) (demo_sequence 1 4)
           (demo_sequence 1 4) None (Some (nat_split 1 1 1)) None
           (Some "backward"%string) false no_noise
         = Ok (out, (None, None))
       ∧ size3 out = size3 (values (demo_sequence 0 3)).
Proof.
  apply (forward_output_has_query_shape (demo_module true 5 7)
           (demo_sequence 0 3) (demo_sequence 1 4) (demo_sequence 1 4)
           None (Some "backward"%string) false no_noise 3 1 4 1 1 1);
    reflexivity || lia.
Defined.

Lemma empty_segments_do_not_crash_witness :
  ∃ qh kh vh o1 o2 o3 c out,
    segment_attention (demo_module false 0 0) (Some "forward"%string) qh kh vh
      (spec_segment_range (nat_split 0 3 0) S1)
      (spec_segment_range (nat_split 0 3 0) S2)
      (spec_segment_range (nat_split 0 3 0) S3) None no_noise
    = Ok [o1; o2; o3]
    ∧ dim1 o1 = 0 ∧ dim1 o2 = 3 ∧ dim1 o3 = 0
    ∧ (∀ n s o, [S1; S2; S3] !! n = Some s → [o1; o2; o3] !! n = Some o →
         seg_len 0 3 0 s = 0 → dim1 o = 0)
    ∧ concat1 [o1; o2; o3] = Ok c ∧ dim1 c = 3
    ∧ forward (demo_module false 0 0) (demo_sequence 0 3) (demo_sequence 0 3)
        (demo_sequence 0 3) None (Some (nat_split 0 3 0)) None
        (Some "forward"%string) false no_noise
      = (attn ← view3 (transpose01 c) (Z.of_nat 3) (Z.of_nat 1)
                  (Z.of_nat (Z.to_nat (embed_dim (demo_module false 0 0))));
         attn ← linear attn (weight (out_proj (demo_module false 0 0)))
                  (bias (out_proj (demo_module false 0 0)));
         Ok (attn, (None, None)))
    ∧ forward (demo_module false 0 0) (demo_sequence 0 3) (demo_sequence 0 3)
        (demo_sequence 0 3) None (Some (nat_split 0 3 0)) None
        (Some "forward"%string) false no_noise
      = Ok (out, (None, None))
    ∧ dim0 out = 3.
Proof.
  apply (empty_segments_do_not_crash (demo_module false 0 0)
           (demo_sequence 0 3) (demo_sequence 0 3) (demo_sequence 0 3)
           None (Some "forward"%string) false no_noise 3 1 3 0 3 0);
    try reflexivity; try lia.
Defined.

(** ** The theorems at concrete inputs *)

Lemma direction_policy_selects_table_pairs_witness :
  (1 + 1 + 1 ≤ dim1 (demo_heads 0) ∧ 1 + 1 + 1 ≤ dim1 (demo_heads 1)
   ∧ dim0 (demo_heads 0) = dim0 (demo_heads 1)
   ∧ dim2 (demo_heads 0) = dim2 (demo_heads 1))
  ∧ let '(s1, s2, s3) := segment_ranges (nat_split 1 1 1) in
    pair_scores (Some "forward"%string) (demo_heads 0) (demo_heads 1) s1 s2 s3
    = mapM (spec_pair_scores (demo_heads 0) (demo_heads 1) (nat_split 1 1 1))
        (spec_direction_pairs (Some "forward"%string))
    ∧ ∃ ws, pair_scores (Some "forward"%string) (demo_heads 0) (demo_heads 1)
              s1 s2 s3 = Ok ws
        ∧ length ws = 3
        ∧ ∀ n qs ks,
            spec_direction_pairs (Some "forward"%string) !! n = Some (qs, ks) →
            ∃ w, ws !! n = Some w
              ∧ size3 w = (dim0 (demo_heads 0), seg_len 1 1 1 qs, seg_len 1 1 1 ks)
              ∧ ∀ b i j, b < dim0 (demo_heads 0) →
                  i < seg_len 1 1 1 qs → j < seg_len 1 1 1 ks →
                  get3 w b i j
                  = sum_upto (dim2 (demo_heads 0)) (λ e,
                      rmul (get3 (demo_heads 0) b (seg_start 1 1 1 qs + i) e)
                           (get3 (demo_heads 1) b (seg_start 1 1 1 ks + j) e)).
Proof.
  split; [cbn; lia|].
  apply (direction_policy_selects_table_pairs (Some "forward"%string)
           (demo_heads 0) (demo_heads 1) 1 1 1); cbn; lia.
Defined.

Lemma fused_projection_equals_independent_witness :
  module_ok (demo_module false 0 0) = true
  ∧ ((qkv ← in_proj_qkv (demo_module false 0 0) (values (demo_sequence 0 3));
      unpack3 qkv)
     = (q ← in_proj_q (demo_module false 0 0) (values (demo_sequence 0 3));
        k ← in_proj_k (demo_module false 0 0) (values (demo_sequence 0 3));
        v ← in_proj_v (demo_module false 0 0) (values (demo_sequence 0 3));
        Ok (q, k, v))
     ∧ ∀ pq pk pv pq' pk' pv' : Z,
         project_inputs (demo_module false 0 0)
           (Nodes pq (values (demo_sequence 0 3)))
           (Nodes pk (values (demo_sequence 0 3)))
           (Nodes pv (values (demo_sequence 0 3)))
         = project_inputs (demo_module false 0 0)
             (Nodes pq' (values (demo_sequence 0 3)))
             (Nodes pk' (values (demo_sequence 0 3)))
             (Nodes pv' (values (demo_sequence 0 3)))).
Proof.
  split; [reflexivity|].
  apply (fused_projection_equals_independent (demo_module false 0 0)
           (values (demo_sequence 0 3))).
  reflexivity.
Defined.

(** ** The sentinel key and value *)

Section Sentinel.
Context {R : Type} {SR : Scalar R}.

Lemma agree_below_segment n (x y : tensor3 (R:=R)) t v a s :
  agree_below n x y → t + v + a ≤ n → t + v + a ≤ dim1 x →
  slice_dim1 x (spec_segment_range (nat_split t v a) s)
  = slice_dim1 y (spec_segment_range (nat_split t v a) s).
Proof.
  intros [Hsize Hget] Hn Hx. unfold size3 in Hsize. injection Hsize as H0 H1 H2.
  rewrite !segment_slice by lia. rewrite H0, H2.
  apply mk3_ext. intros i j k Hi Hj Hk.
  apply Hget; try lia; destruct s; cbn in *; lia.
Qed.

(** The scores and blocks depend on keys and values only through their
    three segment slices. *)
Lemma segment_attention_slices (self : GraphAttention (R:=R)) direction
    (q k v k' v' : tensor3 (R:=R)) s1 s2 s3 mask_fixer noise :
  (∀ s, s = s1 ∨ s = s2 ∨ s = s3 → slice_dim1 k s = slice_dim1 k' s) →
  (∀ s, s = s1 ∨ s = s2 ∨ s = s3 → slice_dim1 v s = slice_dim1 v' s) →
  segment_attention self direction q k v s1 s2 s3 mask_fixer noise
  = segment_attention self direction q k' v' s1 s2 s3 mask_fixer noise.
Proof.
  intros Hk Hv. unfold segment_attention, pair_scores, weighted_values.
  rewrite (Hk s1), (Hk s2), (Hk s3), (Hv s1), (Hv s2), (Hv s3) by auto.
  reflexivity.
Qed.

(** Splitting into heads reads position [i] of the sequence for position
    [i] of every head. *)
Lemma reshaped_agree (x y : tensor3 (R:=R)) n a b c :
  size3 x = size3 y →
  (∀ i j k, i < n → j < dim1 x → k < dim2 x → get3 x i j k = get3 y i j k) →
  dim1 x * dim2 x = b * c → 0 < b → 0 < c →
  agree_below n (transpose01 (reshaped x a b c)) (transpose01 (reshaped y a b c)).
Proof.
  intros Hsize Hget Hbc Hb Hc. split; [reflexivity|].
  intros h i k Hh Hi Hia Hk.
  change (dim0 (transpose01 (reshaped x a b c))) with b in Hh.
  change (dim1 (transpose01 (reshaped x a b c))) with a in Hia.
  change (dim2 (transpose01 (reshaped x a b c))) with c in Hk.
  unfold transpose01, reshaped. cbn [mk3 dim0 dim1 dim2].
  change (T3 ?n0 ?n1 ?n2 (tabulate ?n0 (λ i, tabulate ?n1 (λ j, tabulate ?n2 (?f i j)))))
    with (mk3 n0 n1 n2 f).
  rewrite !get3_mk3 by lia. unfold flat_get.
  unfold size3 in Hsize. injection Hsize as H0 H1 H2. rewrite <- H1, <- H2.
  assert (Hpos : 0 < dim1 x * dim2 x) by nia.
  assert (Hd1 : 0 < dim1 x) by nia. assert (Hd2 : 0 < dim2 x) by nia.
  apply Hget.
  - replace ((i * b + h) * c + k) with (i * (dim1 x * dim2 x) + (h * c + k)) by nia.
    rewrite Nat.div_add_l by lia. rewrite Nat.div_small by nia. lia.
  - apply Nat.mod_upper_bound. lia.
  - apply Nat.mod_upper_bound. lia.
Qed.

Lemma cat1_zeros_agree n (x y : tensor3 (R:=R)) :
  agree_below n x y →
  ∃ zx zy, cat1 x (zeros_row x) = Ok zx ∧ cat1 y (zeros_row y) = Ok zy
    ∧ agree_below n zx zy ∧ dim1 zx = dim1 x + 1.
Proof.
  intros [Hsize Hget]. unfold size3 in Hsize. injection Hsize as H0 H1 H2.
  assert (Hcat : ∀ z : tensor3 (R:=R),
            cat1 z (zeros_row z)
            = Ok (mk3 (dim0 z) (dim1 z + 1) (dim2 z)
                    (λ i j k, if j <? dim1 z then get3 z i j k
                              else get3 (zeros_row z) i (j - dim1 z) k))).
  { intros z. unfold cat1.
    change (dim0 (zeros_row z)) with (dim0 z).
    change (dim1 (zeros_row z)) with 1.
    change (dim2 (zeros_row z)) with (dim2 z).
    now rewrite !Nat.eqb_refl. }
  do 2 eexists. split; [apply Hcat|]. split; [apply Hcat|].
  split; [split|reflexivity].
  - unfold size3. cbn [mk3 dim0 dim1 dim2]. congruence.
  - intros i j k Hi Hj Hj' Hk.
    change (dim0 (mk3 ?a _ _ _)) with a in Hi.
    change (dim1 (mk3 _ ?b _ _)) with b in Hj'.
    change (dim2 (mk3 _ _ ?c _)) with c in Hk.
    rewrite !get3_mk3 by lia. rewrite <- H1.
    destruct (j <? dim1 x) eqn:Hlt.
    + apply Nat.ltb_lt in Hlt. now apply Hget.
    + unfold zeros_row. now rewrite H0, H2.
Qed.

Lemma in_proj_rows_inv (self : GraphAttention (R:=R)) x start stop y :
  _in_proj self x start stop = Ok y → dim0 y = dim0 x ∧ dim1 y = dim1 x.
Proof.
  unfold _in_proj, linear. intros Hy.
  destruct (negb _); [discriminate|].
  destruct (_ <$> in_proj_bias self); [destruct (negb _); [discriminate|]|];
    injection Hy as <-; auto.
Qed.

Lemma chunk_last_dims (x : tensor3 (R:=R)) n y :
  In y (chunk_last x n) → dim0 y = dim0 x ∧ dim1 y = dim1 x.
Proof.
  unfold chunk_last, tabulate. destruct (dim2 x =? 0);
    intros Hin; apply in_map_iff in Hin as (c & <- & _); auto.
Qed.

(** The projected keys and values have as many positions as the key (or,
    on the fused path, the query) sequence. *)
Lemma project_inputs_rows (self : GraphAttention (R:=R)) qn kn vn q k v :
  project_inputs self qn kn vn = Ok (q, k, v) →
  dim0 (values kn) = dim0 (values vn) →
  (dim0 k = dim0 (values qn) ∨ dim0 k = dim0 (values kn))
  ∧ (dim0 v = dim0 (values qn) ∨ dim0 v = dim0 (values kn)).
Proof.
  unfold project_inputs, in_proj_qkv, in_proj_kv, in_proj_q, in_proj_k, in_proj_v.
  intros Hp Hkv.
  destruct (_ && _).
  - destruct (_in_proj self (values qn) 0 None) as [y|] eqn:Hy; [|discriminate].
    cbn [mbind result_bind] in Hp.
    destruct (chunk_last y 3) as [|a [|b [|c [|]]]] eqn:Hc; try discriminate.
    injection Hp as <- <- <-.
    apply in_proj_rows_inv in Hy as [Hy0 _].
    destruct (chunk_last_dims y 3 b) as [Hb _]; [rewrite Hc; cbn; auto|].
    destruct (chunk_last_dims y 3 c) as [Hc' _]; [rewrite Hc; cbn; auto|].
    split; left; congruence.
  - destruct (_ =? _)%Z.
    + destruct (_in_proj self (values qn) _ _) as [yq|]; [|discriminate].
      cbn [mbind result_bind] in Hp.
      destruct (_in_proj self (values kn) _ _) as [y|] eqn:Hy; [|discriminate].
      cbn [mbind result_bind] in Hp.
      destruct (chunk_last y 2) as [|a [|b [|]]] eqn:Hc; try discriminate.
      injection Hp as <- <- <-.
      apply in_proj_rows_inv in Hy as [Hy0 _].
      destruct (chunk_last_dims y 2 a) as [Ha _]; [rewrite Hc; cbn; auto|].
      destruct (chunk_last_dims y 2 b) as [Hb _]; [rewrite Hc; cbn; auto|].
      split; right; congruence.
    + destruct (_in_proj self (values qn) _ _) as [yq|]; [|discriminate].
      cbn [mbind result_bind] in Hp.
      destruct (_in_proj self (values kn) _ _) as [yk|] eqn:Hyk; [|discriminate].
      cbn [mbind result_bind] in Hp.
      destruct (_in_proj self (values vn) _ _) as [yv|] eqn:Hyv; [|discriminate].
      injection Hp as <- <- <-.
      apply in_proj_rows_inv in Hyk as [Hk0 _].
      apply in_proj_rows_inv in Hyv as [Hv0 _].
      split; right; congruence.
Qed.

(** With batch size 0 the inferred reshape is always refused. *)
Lemma infer_view_ambiguous (c : Z) :
  ∃ e, ∀ numel, infer_view numel (-1) 0 c = Raise e.
Proof.
  unfold infer_view. cbn [existsb List.filter].
  change (-1 =? -1)%Z with true. change (0 =? -1)%Z with false.
  change (-1 <? -1)%Z with false. change (0 <? -1)%Z with false. cbn [orb].
  replace (- (-1 * 0 * c))%Z with 0%Z by lia. change (0 =? 0)%Z with true.
  destruct (c <? -1)%Z; [eauto|].
  destruct (c =? -1)%Z; eauto.
Qed.

(** Appending a sentinel row of shape [(1, 1, E)] repeated over the
    batch. *)
Lemma cat0_sentinel (x b : tensor3 (R:=R)) B E :
  size3 b = (1, 1, E) →
  cat0 x (repeat_1n1 b B)
  = if (dim1 x =? B) && (dim2 x =? E) then
      Ok (mk3 (dim0 x + 1) (dim1 x) (dim2 x)
            (λ i j e, if i <? dim0 x then get3 x i j e
                      else get3 (repeat_1n1 b B) (i - dim0 x) j e))
    else Raise (RuntimeError "cat: sizes of tensors must match except in dimension 0").
Proof.
  unfold size3. intros [= H0 H1 H2]. unfold cat0.
  change (dim0 (repeat_1n1 b B)) with (dim0 b).
  change (dim1 (repeat_1n1 b B)) with (dim1 b * B).
  change (dim2 (repeat_1n1 b B)) with (dim2 b).
  now rewrite H0, H1, H2, Nat.mul_1_l.
Qed.

Section TwoRuns.
Variable self : GraphAttention (R:=R).
Variables bk bv bk' bv' : tensor3 (R:=R).
Hypothesis Hok : module_ok (with_sentinels self bk bv) = true.
Hypothesis Hok' : module_ok (with_sentinels self bk' bv') = true.

Variables query_nodes key_nodes value_nodes : nodes (R:=R).
Variable edge_mask : option (tensor2 (R:=R)).
Variable mask_fixer : option (tensor2 (R:=R)).
Variable direction : option string.
Variable plot_map : bool.
Variable noise : nat → nat → nat → nat → bool.
Variables t v a : nat.
Hypothesis Hquery : t + v + a = dim0 (values query_nodes).
Hypothesis Hkey : t + v + a ≤ dim0 (values key_nodes).

Lemma sentinel_values_unused :
  forward (with_sentinels self bk bv) query_nodes key_nodes value_nodes
    edge_mask (Some (nat_split t v a)) mask_fixer direction plot_map noise
  = forward (with_sentinels self bk' bv') query_nodes key_nodes value_nodes
      edge_mask (Some (nat_split t v a)) mask_fixer direction plot_map noise.
Proof using Hok Hok' Hquery Hkey.
  destruct (module_ok_shapes _ Hok)
    as (HE & HH & HD & HHpos & HDpos & HDH & _ & _ & _ & _ & _ & _ & Hbk & Hbv).
  destruct (module_ok_shapes _ Hok')
    as (_ & _ & _ & _ & _ & _ & _ & _ & _ & _ & _ & _ & Hbk' & Hbv').
  cbn [with_sentinels embed_dim num_heads head_dim bias_k bias_v] in *.
  destruct (Hbk bk eq_refl) as [Hsk _]. pose proof (Hbv bv eq_refl) as Hsv.
  destruct (Hbk' bk' eq_refl) as [Hsk' _]. pose proof (Hbv' bv' eq_refl) as Hsv'.
  clear Hbk Hbv Hbk' Hbv'.
  set (E := Z.to_nat (embed_dim self)) in *.
  set (Hn := Z.to_nat (num_heads self)) in *.
  set (D := Z.to_nat (head_dim self)) in *.
  unfold forward.
  change (project_inputs (with_sentinels self bk' bv'))
    with (project_inputs (with_sentinels self bk bv)).
  cbn [with_sentinels embed_dim num_heads head_dim bias_k bias_v scaling
         add_zero_attn out_proj].
  destruct (size3 (values query_nodes)) as [[T B] E'] eqn:Hqsize.
  destruct (py_assert (Z.of_nat E' =? embed_dim self)%Z "") as [[]|]; [|reflexivity].
  cbn [mbind result_bind].
  destruct (size3_eqb (values key_nodes) (values value_nodes)) eqn:Hkv;
    [|reflexivity].
  cbn [py_assert mbind result_bind].
  destruct (project_inputs (with_sentinels self bk bv) query_nodes key_nodes
              value_nodes) as [[[q k] v0]|] eqn:Hproj; [|reflexivity].
  cbn [mbind result_bind].
  unfold size3 in Hqsize. injection Hqsize as HT HB HE'.
  (* rows of the projected keys and values *)
  assert (Hrows : t + v + a ≤ dim0 k ∧ t + v + a ≤ dim0 v0).
  { unfold size3_eqb in Hkv. rewrite !andb_true_iff, !Nat.eqb_eq in Hkv.
    destruct (project_inputs_rows _ _ _ _ _ _ _ Hproj) as [[?|?] [?|?]]; lia. }
  destruct Hrows as [Hkrows Hvrows].
  (* the sentinel rows *)
  rewrite (cat0_sentinel k bk B E Hsk), (cat0_sentinel k bk' B E Hsk').
  destruct ((dim1 k =? B) && (dim2 k =? E)) eqn:Hkdims; [|reflexivity].
  cbn [mbind result_bind].
  rewrite (cat0_sentinel v0 bv B E Hsv), (cat0_sentinel v0 bv' B E Hsv').
  destruct ((dim1 v0 =? B) && (dim2 v0 =? E)) eqn:Hvdims; [|reflexivity].
  cbn [mbind result_bind].
  apply andb_true_iff in Hkdims as [Hk1 Hk2]. apply Nat.eqb_eq in Hk1, Hk2.
  apply andb_true_iff in Hvdims as [Hv1 Hv2]. apply Nat.eqb_eq in Hv1, Hv2.
  (* heads *)
  destruct (view3 (scale3 q (scaling self)) _ _ _) as [qv|]; [|reflexivity].
  cbn [mbind result_bind].
  rewrite HH, HD, <- Nat2Z.inj_mul.
  destruct (Nat.eq_dec B 0) as [HB0|HB0].
  { unfold view3. rewrite HB0. change (Z.of_nat (0 * Hn)) with 0%Z.
    destruct (infer_view_ambiguous (Z.of_nat D)) as [e He]. now rewrite !He. }
  set (kc := mk3 (dim0 k + 1) (dim1 k) (dim2 k) _).
  set (kc' := mk3 (dim0 k + 1) (dim1 k) (dim2 k) _).
  set (vc := mk3 (dim0 v0 + 1) (dim1 v0) (dim2 v0) _).
  set (vc' := mk3 (dim0 v0 + 1) (dim1 v0) (dim2 v0) _).
  rewrite (view3_first kc (dim0 k + 1) (B * Hn) D),
    (view3_first kc' (dim0 k + 1) (B * Hn) D)
    by (try lia; unfold numel3; cbn [kc kc' mk3 dim0 dim1 dim2]; nia).
  cbn [mbind result_bind].
  rewrite (view3_first vc (dim0 v0 + 1) (B * Hn) D),
    (view3_first vc' (dim0 v0 + 1) (B * Hn) D)
    by (try lia; unfold numel3; cbn [vc vc' mk3 dim0 dim1 dim2]; nia).
  cbn [mbind result_bind].
  (* the heads of both runs agree below the sentinel *)
  assert (Hkh : agree_below (dim0 k)
                  (transpose01 (reshaped kc (dim0 k + 1) (B * Hn) D))
                  (transpose01 (reshaped kc' (dim0 k + 1) (B * Hn) D))).
  { apply reshaped_agree; try lia; [reflexivity | | cbn [kc mk3 dim1 dim2]; nia].
    intros i j e Hi Hj He. unfold kc, kc' in *.
    change (dim1 (mk3 _ ?b _ _)) with b in Hj.
    change (dim2 (mk3 _ _ ?c _)) with c in He.
    rewrite !get3_mk3 by lia.
    replace (i <? dim0 k) with true by (symmetry; apply Nat.ltb_lt; lia).
    reflexivity. }
  assert (Hvh : agree_below (dim0 v0)
                  (transpose01 (reshaped vc (dim0 v0 + 1) (B * Hn) D))
                  (transpose01 (reshaped vc' (dim0 v0 + 1) (B * Hn) D))).
  { apply reshaped_agree; try lia; [reflexivity | | cbn [vc mk3 dim1 dim2]; nia].
    intros i j e Hi Hj He. unfold vc, vc' in *.
    change (dim1 (mk3 _ ?b _ _)) with b in Hj.
    change (dim2 (mk3 _ _ ?c _)) with c in He.
    rewrite !get3_mk3 by lia.
    replace (i <? dim0 v0) with true by (symmetry; apply Nat.ltb_lt; lia).
    reflexivity. }
  set (kh := transpose01 (reshaped kc _ _ _)) in *.
  set (kh' := transpose01 (reshaped kc' _ _ _)) in *.
  set (vh := transpose01 (reshaped vc _ _ _)) in *.
  set (vh' := transpose01 (reshaped vc' _ _ _)) in *.
  change (segment_attention (with_sentinels self bk' bv'))
    with (segment_attention (with_sentinels self bk bv)).
  rewrite segment_ranges_spec.
  assert (Hfinal : ∀ (x x' y y' : tensor3 (R:=R)),
            agree_below (dim0 k) x x' → agree_below (dim0 v0) y y' →
            dim0 k ≤ dim1 x → dim0 v0 ≤ dim1 y →
            segment_attention (with_sentinels self bk bv) direction
              (transpose01 qv) x y
              (spec_segment_range (nat_split t v a) S1)
              (spec_segment_range (nat_split t v a) S2)
              (spec_segment_range (nat_split t v a) S3) mask_fixer noise
            = segment_attention (with_sentinels self bk bv) direction
                (transpose01 qv) x' y'
                (spec_segment_range (nat_split t v a) S1)
                (spec_segment_range (nat_split t v a) S2)
                (spec_segment_range (nat_split t v a) S3) mask_fixer noise).
  { intros x x' y y' Hx Hy Hxl Hyl. apply segment_attention_slices.
    - intros s [-> | [-> | ->]];
        apply (agree_below_segment (dim0 k)); auto; lia.
    - intros s [-> | [-> | ->]];
        apply (agree_below_segment (dim0 v0)); auto; lia. }
  destruct (add_zero_attn self).
  - destruct (cat1_zeros_agree _ _ _ Hkh) as (zk & zk' & -> & -> & Hzk & Hzk1).
    destruct (cat1_zeros_agree _ _ _ Hvh) as (zv & zv' & -> & -> & Hzv & Hzv1).
    cbn [mbind result_bind].
    rewrite (Hfinal zk zk' zv zv') by
      (assumption || (rewrite ?Hzk1, ?Hzv1; cbn [kh vh transpose01 reshaped mk3 dim1 dim0]; lia)).
    reflexivity.
  - cbn [mbind result_bind].
    rewrite (Hfinal kh kh' vh vh') by
      (assumption || (cbn [kh vh transpose01 reshaped mk3 dim1 dim0]; lia)).
    reflexivity.
Qed.

End TwoRuns.

(** C10, as the code has it.  For a module built with sentinel vectors,
    a call whose segment lengths sum to the query's sequence length and do
    not exceed the key sequence's length never reads the sentinel
    position: two runs that differ only in the values of [bias_k] and
    [bias_v] give the same result. *)
Theorem sentinel_not_attended_within_key_length
    (self : GraphAttention (R:=R)) (bk bv bk' bv' : tensor3 (R:=R))
    (query_nodes key_nodes value_nodes : nodes (R:=R))
    edge_mask mask_fixer direction plot_map noise (t v a : nat) :
  module_ok (with_sentinels self bk bv) = true →
  module_ok (with_sentinels self bk' bv') = true →
  t + v + a = dim0 (values query_nodes) →
  t + v + a ≤ dim0 (values key_nodes) →
  forward (with_sentinels self bk bv) query_nodes key_nodes value_nodes
    edge_mask (Some (nat_split t v a)) mask_fixer direction plot_map noise
  = forward (with_sentinels self bk' bv') query_nodes key_nodes value_nodes
      edge_mask (Some (nat_split t v a)) mask_fixer direction plot_map noise.
Proof. intros. now apply sentinel_values_unused. Qed.

End Sentinel.

(** With a key sequence of 2 positions and a query of 3, the sentinel
    sits at index 2, inside S3: the two runs below differ only in
    [bias_v] and return different outputs. *)
Lemma sentinel_attended_when_key_is_short :
  1 + 1 + 1 = dim0 (values (demo_sequence 0 3))
  ∧ forward (with_sentinels (demo_module false 0 0) (demo_sentinel 5) (demo_sentinel 5))
      (demo_sequence 0 3) (demo_sequence 1 2) (demo_sequence 1 2) None
      (Some (nat_split 1 1 1)) None None false no_noise
    ≠ forward (with_sentinels (demo_module false 0 0) (demo_sentinel 5) (demo_sentinel 7))
        (demo_sequence 0 3) (demo_sequence 1 2) (demo_sequence 1 2) None
        (Some (nat_split 1 1 1)) None None false no_noise.
Proof. split; [reflexivity|]. vm_compute. intros [=]. Qed.

Lemma sentinel_not_attended_within_key_length_witness :
  (module_ok (with_sentinels (demo_module false 0 0) (demo_sentinel 5) (demo_sentinel 5))
   = true
   ∧ module_ok (with_sentinels (demo_module false 0 0) (demo_sentinel 6) (demo_sentinel 7))
     = true
   ∧ 1 + 1 + 1 = dim0 (values (demo_sequence 0 3))
   ∧ 1 + 1 + 1 ≤ dim0 (values (demo_sequence 1 4)))
  ∧ forward (with_sentinels (demo_module false 0 0) (demo_sentinel 5) (demo_sentinel 5))
      (demo_sequence 0 3) (demo_sequence 1 4) (demo_sequence 1 4) None
      (Some (nat_split 1 1 1)) None (Some "forward"%string) false no_noise
    = forward (with_sentinels (demo_module false 0 0) (demo_sentinel 6) (demo_sentinel 7))
        (demo_sequence 0 3) (demo_sequence 1 4) (demo_sequence 1 4) None
        (Some (nat_split 1 1 1)) None (Some "forward"%string) false no_noise.
Proof.
  split; [repeat split; cbn; lia|].
  apply (sentinel_not_attended_within_key_length (demo_module false 0 0)
           (demo_sentinel 5) (demo_sentinel 5) (demo_sentinel 6) (demo_sentinel 7));
    reflexivity || (cbn; lia).
Defined.

(** ** The mask-construction helper *)

Section MaskHelper.

Ltac split_comparisons :=
  repeat match goal with
  | |- context [?x <=? ?y] => destruct (Nat.leb_spec x y)
  | |- context [?x <? ?y] => destruct (Nat.ltb_spec x y)
  end.

Lemma assign_slice_nat (row : tensor1 (R:=Z)) lo hi c :
  lo ≤ hi → hi ≤ len1 row →
  assign_slice row (Z.of_nat lo) (Some (Z.of_nat hi)) c
  = mk1 (len1 row) (λ i, if (lo <=? i) && (i <? hi) then c else get1 row i).
Proof.
  intros Hlo Hhi. unfold assign_slice. rewrite py_slice_of_nat.
  apply mk1_ext. intros i Hi.
  replace (Nat.min (len1 row) lo) with lo by lia.
  replace (Nat.min (len1 row) hi) with hi by lia.
  replace (lo + (hi - lo)) with hi by lia. reflexivity.
Qed.

Lemma assign_slice_open (row : tensor1 (R:=Z)) lo c :
  lo ≤ len1 row →
  assign_slice row (Z.of_nat lo) None c
  = mk1 (len1 row) (λ i, if (lo <=? i) && (i <? len1 row) then c else get1 row i).
Proof.
  intros Hlo. unfold assign_slice. rewrite py_slice_open.
  apply mk1_ext. intros i Hi.
  replace (Nat.min (len1 row) lo) with lo by lia.
  replace (lo + (len1 row - lo)) with (len1 row) by lia. reflexivity.
Qed.

Lemma assign_slice_prefix (row : tensor1 (R:=Z)) hi c :
  hi ≤ len1 row →
  assign_slice row 0 (Some (Z.of_nat hi)) c
  = mk1 (len1 row) (λ i, if i <? hi then c else get1 row i).
Proof.
  intros Hhi. change 0%Z with (Z.of_nat 0). rewrite assign_slice_nat by lia.
  reflexivity.
Qed.

Lemma len1_assign_slice (row : tensor1 (R:=Z)) start stop c :
  len1 (assign_slice row start stop c) = len1 row.
Proof. unfold assign_slice. now destruct (py_slice _ _ _). Qed.

Lemma mask_row_value t v a direction idx :
  idx < 3 →
  mask_row (nat_split t v a) direction idx
  = Ok (mask_row_spec t v a direction (segment_of_idx idx)).
Proof.
  intros Hidx. unfold mask_row, nat_split, ones1. cbn [fst snd].
  replace (0 + Z.of_nat t + Z.of_nat v + Z.of_nat a)%Z
    with (Z.of_nat (t + v + a)) by lia.
  replace (Z.of_nat (t + v + a) <? 0)%Z with false by (symmetry; apply Z.ltb_ge; lia).
  cbn [mbind result_bind]. rewrite Nat2Z.id. f_equal.
  rewrite <- !Nat2Z.inj_add.
  unfold mask_row_spec, zero_at, mask_open_segment, position_segment.
  destruct idx as [|[|[|idx]]]; [| | |lia]; cbn [Nat.eqb segment_of_idx];
    destruct (direction_is direction "forward");
    [| destruct (direction_is direction "backward") | |
     destruct (direction_is direction "backward") | |
     destruct (direction_is direction "backward")];
    cbn [orb];
    rewrite ?assign_slice_nat, ?assign_slice_open, ?assign_slice_prefix
      by (rewrite ?len1_assign_slice; cbn [len1 mk1]; lia);
    rewrite ?len1_assign_slice; cbn [len1 mk1];
    rewrite ?assign_slice_nat, ?assign_slice_open, ?assign_slice_prefix
      by (cbn [len1 mk1]; lia);
    cbn [len1 mk1];
    apply mk1_ext; intros j Hj; rewrite ?get1_mk1 by lia;
    split_comparisons; cbn; try reflexivity; lia.
Qed.

Lemma append_rows_ok n (r : tensor1 (R:=Z)) l :
  append_rows n (Ok r) l = Ok (l ++ repeat r n).
Proof.
  revert l. induction n as [|n IH]; intros l; cbn [append_rows repeat].
  - now rewrite app_nil_r.
  - cbn [mbind result_bind]. rewrite IH, <- app_assoc. reflexivity.
Qed.

Lemma nth_three_repeats {A} (x y z d : A) t v a i :
  i < t + v + a →
  nth i (repeat x t ++ repeat y v ++ repeat z a) d
  = match position_segment t v a i with S1 => x | S2 => y | S3 => z end.
Proof.
  intros Hi. unfold position_segment.
  destruct (Nat.ltb_spec i t).
  - rewrite app_nth1 by (rewrite repeat_length; lia). apply nth_repeat_lt; lia.
  - rewrite app_nth2 by (rewrite repeat_length; lia). rewrite repeat_length.
    destruct (Nat.ltb_spec i (t + v)).
    + rewrite app_nth1 by (rewrite repeat_length; lia). apply nth_repeat_lt; lia.
    + rewrite app_nth2 by (rewrite repeat_length; lia). rewrite repeat_length.
      apply nth_repeat_lt; lia.
Qed.

Lemma stack_mask_rows t v a direction :
  0 < t + v + a →
  stack_rows (repeat (mask_row_spec t v a direction S1) t
              ++ repeat (mask_row_spec t v a direction S2) v
              ++ repeat (mask_row_spec t v a direction S3) a)
  = Ok (mask_rows_spec t v a direction).
Proof.
  intros Hn.
  set (rows := repeat _ t ++ repeat _ v ++ repeat _ a).
  assert (Hlen : length rows = t + v + a).
  { unfold rows. rewrite !length_app, !repeat_length. lia. }
  assert (Hall : ∀ x, In x rows → len1 x = t + v + a).
  { unfold rows. intros x Hx.
    repeat (apply in_app_or in Hx as [Hx|Hx]);
      apply repeat_spec in Hx; subst x; reflexivity. }
  unfold stack_rows. destruct rows as [|r rest] eqn:Hrows; [cbn in Hlen; lia|].
  rewrite <- Hrows in *.
  assert (Hr : len1 r = t + v + a) by (apply Hall; rewrite Hrows; now left).
  replace (forallb (λ x, len1 x =? len1 r) rows) with true.
  2:{ symmetry. apply forallb_forall. intros x Hx. apply Nat.eqb_eq.
      rewrite Hr. now apply Hall. }
  rewrite Hlen, Hr. f_equal. unfold mask_rows_spec. apply mk2_ext.
  intros i j Hi Hj. unfold rows. rewrite nth_three_repeats by assumption.
  destruct (position_segment t v a i); reflexivity.
Qed.

(** What the helper returns for segment lengths [t], [v], [a] that are
    not all 0. *)
Lemma build_adj_masked_matrix_value t v a mode direction :
  0 < t + v + a →
  build_adj_masked_matrix (nat_split t v a) mode direction
  = if String.eqb mode "cross" then
      if direction_is direction "forward" || direction_is direction "backward"
      then Ok (get_mask_neginf_0 (mask_rows_spec t v a direction))
      else Raise (ValueError "direction must be 'forward' or 'backward'")
    else if String.eqb mode "self" then
      Ok (get_mask_neginf_0 (abs_minus_one (mask_rows_spec t v a direction)))
    else Raise (ValueError "mode must be \'cross\' or \'self\'").
Proof.
  intros Hn. unfold build_adj_masked_matrix.
  change (nat_split t v a) with (Z.of_nat t, Z.of_nat v, Z.of_nat a) at 1.
  cbv iota beta. rewrite !Nat2Z.id.
  rewrite (mask_row_value t v a direction 0), (mask_row_value t v a direction 1),
    (mask_row_value t v a direction 2) by lia.
  rewrite !append_rows_ok. cbn [mbind result_bind app segment_of_idx].
  rewrite !append_rows_ok. cbn [mbind result_bind].
  rewrite !append_rows_ok. cbn [mbind result_bind].
  rewrite <- app_assoc, stack_mask_rows by assumption.
  cbn [mbind result_bind].
  destruct (String.eqb mode "cross"); [|reflexivity].
  destruct (direction_is direction "forward"); [reflexivity|].
  destruct (direction_is direction "backward"); reflexivity.
Qed.

Lemma mask_rows_spec_entry t v a direction i j :
  i < t + v + a → j < t + v + a →
  get2 (mask_rows_spec t v a direction) i j
  = if zero_at direction (position_segment t v a i) (position_segment t v a j)
    then 0%Z else 1%Z.
Proof.
  intros Hi Hj. unfold mask_rows_spec, mask_row_spec.
  rewrite get2_mk2, get1_mk1 by assumption. reflexivity.
Qed.

Lemma cross_mask_entries t v a direction :
  0 < t + v + a →
  direction_is direction "forward" || direction_is direction "backward" = true →
  ∃ m, build_adj_masked_matrix (nat_split t v a) "cross" direction = Ok m
    ∧ ∀ i j, i < t + v + a → j < t + v + a →
        get2 m i j
        = if segment_eqb (position_segment t v a j)
               (mask_open_segment direction (position_segment t v a i))
          then 0%Z else neg_inf.
Proof.
  intros Hn Hd. rewrite build_adj_masked_matrix_value by assumption.
  cbn [String.eqb Ascii.eqb Bool.eqb]. rewrite Hd.
  eexists. split; [reflexivity|].
  intros i j Hi Hj. unfold get_mask_neginf_0.
  change (rows2 (mask_rows_spec t v a direction)) with (t + v + a).
  change (cols2 (mask_rows_spec t v a direction)) with (t + v + a).
  rewrite get2_mk2, mask_rows_spec_entry by assumption.
  unfold zero_at. rewrite Hd.
  destruct (segment_eqb _ _); reflexivity.
Qed.

(** X1.  For segment lengths that are not all 0 and direction 'forward'
    or 'backward', the cross-modal mask is square of side [t + v + a], and
    its row of a position of segment [s] is 0 on the positions of the one
    segment [mask_open_segment direction s] and -10e9 elsewhere. *)
Theorem cross_mask_opens_one_segment t v a direction :
  0 < t + v + a →
  direction_is direction "forward" || direction_is direction "backward" = true →
  ∃ m, build_adj_masked_matrix (nat_split t v a) "cross" direction = Ok m
    ∧ rows2 m = t + v + a ∧ cols2 m = t + v + a
    ∧ ∀ i j, i < t + v + a → j < t + v + a →
        get2 m i j
        = if segment_eqb (position_segment t v a j)
               (mask_open_segment direction (position_segment t v a i))
          then 0%Z else neg_inf.
Proof.
  intros Hn Hd. rewrite build_adj_masked_matrix_value by assumption.
  cbn [String.eqb Ascii.eqb Bool.eqb]. rewrite Hd.
  eexists. split; [reflexivity|]. split; [reflexivity|]. split; [reflexivity|].
  intros i j Hi Hj. unfold get_mask_neginf_0.
  change (rows2 (mask_rows_spec t v a direction)) with (t + v + a).
  change (cols2 (mask_rows_spec t v a direction)) with (t + v + a).
  rewrite get2_mk2, mask_rows_spec_entry by assumption.
  unfold zero_at. rewrite Hd.
  destruct (segment_eqb _ _); reflexivity.
Qed.

(** X2.  With mode 'self' and a direction other than 'forward' and
    'backward', the mask is block-diagonal: 0 between positions of the
    same segment and -10e9 between positions of different segments. *)
Theorem self_mask_is_block_diagonal t v a direction :
  0 < t + v + a →
  direction_is direction "forward" || direction_is direction "backward" = false →
  ∃ m, build_adj_masked_matrix (nat_split t v a) "self" direction = Ok m
    ∧ rows2 m = t + v + a ∧ cols2 m = t + v + a
    ∧ ∀ i j, i < t + v + a → j < t + v + a →
        get2 m i j
        = if segment_eqb (position_segment t v a j) (position_segment t v a i)
          then 0%Z else neg_inf.
Proof.
  intros Hn Hd. rewrite build_adj_masked_matrix_value by assumption.
  cbn [String.eqb Ascii.eqb Bool.eqb].
  eexists. split; [reflexivity|]. split; [reflexivity|]. split; [reflexivity|].
  intros i j Hi Hj. unfold get_mask_neginf_0, abs_minus_one.
  change (rows2 (mask_rows_spec t v a direction)) with (t + v + a).
  change (cols2 (mask_rows_spec t v a direction)) with (t + v + a).
  cbn [rows2 cols2 mk2]. rewrite !get2_mk2, mask_rows_spec_entry by assumption.
  unfold zero_at. rewrite Hd.
  destruct (segment_eqb _ _); reflexivity.
Qed.

(** X3.  For direction 'forward' or 'backward' the masks of the two modes
    are complementary: the 'self' mask is -10e9 exactly where the 'cross'
    mask is 0, and 0 exactly where the 'cross' mask is -10e9. *)
Theorem self_mask_complements_cross_mask t v a direction :
  0 < t + v + a →
  direction_is direction "forward" || direction_is direction "backward" = true →
  ∃ mc ms,
    build_adj_masked_matrix (nat_split t v a) "cross" direction = Ok mc
    ∧ build_adj_masked_matrix (nat_split t v a) "self" direction = Ok ms
    ∧ size_pair mc = size_pair ms
    ∧ ∀ i j, i < t + v + a → j < t + v + a →
        (get2 mc i j = 0%Z ∧ get2 ms i j = neg_inf)
        ∨ (get2 mc i j = neg_inf ∧ get2 ms i j = 0%Z).
Proof.
  intros Hn Hd. rewrite !build_adj_masked_matrix_value by assumption.
  cbn [String.eqb Ascii.eqb Bool.eqb]. rewrite Hd.
  do 2 eexists. split; [reflexivity|]. split; [reflexivity|].
  split; [reflexivity|].
  intros i j Hi Hj. unfold get_mask_neginf_0, abs_minus_one.
  change (rows2 (mask_rows_spec t v a direction)) with (t + v + a).
  change (cols2 (mask_rows_spec t v a direction)) with (t + v + a).
  cbn [rows2 cols2 mk2]. rewrite !get2_mk2, mask_rows_spec_entry by assumption.
  destruct (zero_at _ _ _); cbn; auto.
Qed.

(** X4.  Errors of the helper, for non-negative segment lengths: a mode
    other than 'cross' and 'self' is refused with a [ValueError] (whose
    message, a raw string literal, keeps its backslashes); so is,
    in mode 'cross', a direction other than 'forward' and 'backward' when
    there is a position; and with no position at all both modes fail in
    [torch.stack], before the direction is looked at. *)
Theorem mask_helper_errors t v a mode direction :
  (String.eqb mode "cross" = false → String.eqb mode "self" = false →
   build_adj_masked_matrix (nat_split t v a) mode direction
   = Raise (ValueError "mode must be \'cross\' or \'self\'"))
  ∧ (0 < t + v + a →
     direction_is direction "forward" || direction_is direction "backward" = false →
     build_adj_masked_matrix (nat_split t v a) "cross" direction
     = Raise (ValueError "direction must be 'forward' or 'backward'"))
  ∧ (t + v + a = 0 →
     String.eqb mode "cross" || String.eqb mode "self" = true →
     build_adj_masked_matrix (nat_split t v a) mode direction
     = Raise (RuntimeError "stack expects a non-empty TensorList")).
Proof.
  split; [|split].
  - intros Hc Hs. destruct (Nat.eq_dec (t + v + a) 0) as [Hz|Hz].
    + assert (t = 0 ∧ v = 0 ∧ a = 0) as (-> & -> & ->) by lia.
      unfold build_adj_masked_matrix. cbn. now rewrite Hc, Hs.
    + rewrite build_adj_masked_matrix_value by lia. now rewrite Hc, Hs.
  - intros Hn Hd. rewrite build_adj_masked_matrix_value by assumption.
    cbn [String.eqb Ascii.eqb Bool.eqb]. now rewrite Hd.
  - intros Hz Hm. assert (t = 0 ∧ v = 0 ∧ a = 0) as (-> & -> & ->) by lia.
    unfold build_adj_masked_matrix. cbn.
    destruct (String.eqb mode "cross"); [reflexivity|].
    cbn in Hm. now rewrite Hm.
Qed.

(** X5.  The helper's cross-modal mask and the pairs [forward] scores for
    the same direction agree for the queries of S1 only: at every query
    position of S2 or S3, the mask is -10e9 on all key positions of the
    segment that [forward] pairs with it. *)
Theorem cross_mask_blocks_attended_pairs t v a direction :
  0 < t + v + a →
  direction_is direction "forward" || direction_is direction "backward" = true →
  ∃ m, build_adj_masked_matrix (nat_split t v a) "cross" direction = Ok m
    ∧ ∀ n qs ks, spec_direction_pairs direction !! n = Some (qs, ks) →
        ∀ i j, i < t + v + a → j < t + v + a →
          position_segment t v a i = qs → position_segment t v a j = ks →
          get2 m i j = if segment_eqb qs S1 then 0%Z else neg_inf.
Proof.
  intros Hn Hd.
  destruct (cross_mask_entries t v a direction Hn Hd) as (m & Hm & Hget).
  exists m. split; [assumption|].
  intros n qs ks Hpair i j Hi Hj Hqs Hks. rewrite Hget by assumption.
  rewrite Hqs, Hks. unfold mask_open_segment.
  unfold spec_direction_pairs in Hpair.
  destruct (direction_is direction "forward").
  - destruct n as [|[|[|n]]]; cbn in Hpair; try discriminate;
      injection Hpair as <- <-; reflexivity.
  - cbn in Hd. rewrite Hd in Hpair.
    destruct n as [|[|[|n]]]; cbn in Hpair; try discriminate;
      injection Hpair as <- <-; reflexivity.
Qed.

End MaskHelper.

(** ** The forward pass after the split into heads *)

Section ForwardPrefix.
Context {R : Type} {SR : Scalar R}.

Lemma with_zero_attn_same (self : GraphAttention (R:=R)) :
  with_zero_attn self (add_zero_attn self) = self.
Proof. now destruct self. Qed.

Variable self : GraphAttention (R:=R).
Variables query_nodes key_nodes value_nodes : nodes (R:=R).
Variable edge_mask : option (tensor2 (R:=R)).
Variable direction : option string.
Variable plot_map : bool.
Variable noise : nat → nat → nat → nat → bool.
Variables T B S : nat.

Hypothesis Hok : module_ok self = true.
Hypothesis HB : 0 < B.
Hypothesis Hq : size3 (values query_nodes) = (T, B, Z.to_nat (embed_dim self)).
Hypothesis Hk : size3 (values key_nodes) = (S, B, Z.to_nat (embed_dim self)).
Hypothesis Hv : size3 (values value_nodes) = (S, B, Z.to_nat (embed_dim self)).

(** For a well-formed call everything up to the split into heads
    succeeds, whatever [add_zero_attn], [seq_split] and [mask_fixer]: the
    query heads have [T] positions and the key and value heads at least
    [min S T]. *)
Lemma forward_prefix :
  ∃ qh kh vh em S2,
    size3 qh = (B * Z.to_nat (num_heads self), T, Z.to_nat (head_dim self))
    ∧ size3 kh = (B * Z.to_nat (num_heads self), S2, Z.to_nat (head_dim self))
    ∧ size3 vh = (B * Z.to_nat (num_heads self), S2, Z.to_nat (head_dim self))
    ∧ Nat.min S T ≤ S2
    ∧ ∀ za seq_split mask_fixer,
        forward (with_zero_attn self za) query_nodes key_nodes value_nodes
          edge_mask seq_split mask_fixer direction plot_map noise
        = forward_tail self za direction T B (Z.to_nat (embed_dim self))
            qh kh vh em seq_split mask_fixer noise.
Proof using Hok HB Hq Hk Hv.
  destruct (module_ok_shapes self Hok)
    as (HE & HH & HD & HHpos & HDpos & HDH & _ & _ & _ & _ & _ & _ & Hbk & Hbv).
  set (E := Z.to_nat (embed_dim self)) in *.
  set (Hn := Z.to_nat (num_heads self)) in *.
  set (D := Z.to_nat (head_dim self)) in *.
  destruct (project_inputs_dims self Hok query_nodes key_nodes value_nodes T B S Hq Hk Hv)
    as (q & k & v0 & S' & Hproj & Hq' & Hk' & Hv' & HS').
  change (Z.to_nat (embed_dim self)) with E in Hq', Hk', Hv'.
  (* sentinel key and value *)
  assert (Hstage : ∃ k' v' em' S'',
            match bias_k self with
            | Some bias_k =>
                bias_v ← match bias_v self with
                         | Some b => Ok b
                         | None => Raise (AssertionError "")
                         end;
                k ← cat0 k (repeat_1n1 bias_k B);
                v ← cat0 v0 (repeat_1n1 bias_v B);
                Ok (k, v, mask_add_column <$> edge_mask)
            | None => Ok (k, v0, edge_mask)
            end = Ok (k', v', em')
            ∧ size3 k' = (S'', B, E) ∧ size3 v' = (S'', B, E) ∧ S' ≤ S'').
  { destruct (bias_k self) as [bk|] eqn:Hbk'; [|exists k, v0, edge_mask, S'; auto].
    destruct (Hbk bk eq_refl) as (Hbks & bv & Hbv').
    rewrite Hbv'. pose proof (Hbv bv Hbv') as Hbvs.
    unfold size3 in *.
    injection Hbks as ? ? ?. injection Hbvs as ? ? ?.
    injection Hk' as ? ? ?. injection Hv' as ? ? ?.
    cbn [mbind result_bind].
    destruct (cat0_dims k (repeat_1n1 bk B)) as (k' & -> & Hk'' & _);
      [cbn; lia | cbn; lia |].
    destruct (cat0_dims v0 (repeat_1n1 bv B)) as (v' & -> & Hv'' & _);
      [cbn; lia | cbn; lia |].
    cbn [mbind result_bind]. unfold size3 in *.
    exists k', v', (mask_add_column <$> edge_mask), (S' + 1).
    split; [reflexivity|]. cbn in Hk'', Hv''.
    split; [congruence|]. split; [congruence|lia]. }
  destruct Hstage as (k' & v' & em' & S'' & Hstage & Hk'' & Hv'' & HS'').
  unfold size3 in Hq', Hk'', Hv''.
  injection Hq' as Hq0 Hq1 Hq2. injection Hk'' as Hk0 Hk1 Hk2.
  injection Hv'' as Hv0 Hv1 Hv2.
  exists (transpose01 (reshaped (scale3 q (scaling self)) T (B * Hn) D)),
    (transpose01 (reshaped k' S'' (B * Hn) D)),
    (transpose01 (reshaped v' S'' (B * Hn) D)), em', S''.
  split; [reflexivity|]. split; [reflexivity|]. split; [reflexivity|].
  split; [lia|].
  intros za seq_split mask_fixer.
  unfold forward.
  change (project_inputs (with_zero_attn self za)) with (project_inputs self).
  cbn [with_zero_attn embed_dim num_heads head_dim bias_k bias_v scaling
         add_zero_attn out_proj].
  rewrite Hq.
  replace (Z.of_nat E =? embed_dim self)%Z with true
    by (symmetry; apply Z.eqb_eq; lia).
  replace (size3_eqb (values key_nodes) (values value_nodes)) with true.
  2:{ unfold size3 in Hk, Hv. injection Hk as ? ? ?. injection Hv as ? ? ?.
      unfold size3_eqb. symmetry. rewrite !andb_true_iff, !Nat.eqb_eq. lia. }
  cbn [py_assert mbind result_bind]. rewrite Hproj.
  cbn [mbind result_bind]. rewrite Hstage. cbn [mbind result_bind].
  rewrite HH, HD, <- Nat2Z.inj_mul.
  rewrite (view3_exact (scale3 q (scaling self)) T (B * Hn) D)
    by (unfold numel3; cbn [scale3 mk3 dim0 dim1 dim2]; nia).
  rewrite (view3_first k' S'' (B * Hn) D) by (unfold numel3; nia).
  rewrite (view3_first v' S'' (B * Hn) D) by (unfold numel3; nia).
  cbn [mbind result_bind]. reflexivity.
Qed.

End ForwardPrefix.

(** ** More on the forward pass *)

Section ForwardMore.
Context {R : Type} {SR : Scalar R}.

Lemma spec_segment_range_nat t v a s :
  spec_segment_range (nat_split t v a) s
  = (Z.of_nat (seg_start t v a s), Z.of_nat (seg_start t v a s + seg_len t v a s)).
Proof.
  unfold nat_split, spec_segment_range. destruct s; cbn [seg_start seg_len].
  - reflexivity.
  - now rewrite Nat2Z.inj_add.
  - now rewrite !Nat2Z.inj_add.
Qed.

Lemma dropout_noise (x : tensor3 (R:=R)) p training keep keep' :
  negb training || reqb p r0 = true →
  dropout x p training keep = dropout x p training keep'.
Proof.
  intros Hmode. unfold dropout.
  destruct (rltb p r0 || rltb r1 p); [reflexivity|].
  replace (reqb p r0 || negb training || (numel3 x =? 0)) with true; [reflexivity|].
  symmetry. destruct training, (reqb p r0); cbn in *; auto; discriminate.
Qed.

Lemma dropout_each_noise p training noise noise' n (ws : list (tensor3 (R:=R))) :
  negb training || reqb p r0 = true →
  dropout_each p training noise n ws = dropout_each p training noise' n ws.
Proof.
  intros Hmode. revert n. induction ws as [|w ws IH]; intros n; [reflexivity|].
  cbn [dropout_each]. rewrite (dropout_noise w p training (noise n) (noise' n) Hmode).
  now rewrite IH.
Qed.

(** X6.  In evaluation mode, or with dropout probability 0, the result of
    a call does not depend on the random draws of the dropout calls. *)
Theorem forward_deterministic_without_dropout
    (self : GraphAttention (R:=R)) (query_nodes key_nodes value_nodes : nodes)
    edge_mask seq_split mask_fixer direction plot_map noise noise' :
  negb (training self) || reqb (attn_dropout self) r0 = true →
  forward self query_nodes key_nodes value_nodes edge_mask seq_split
    mask_fixer direction plot_map noise
  = forward self query_nodes key_nodes value_nodes edge_mask seq_split
      mask_fixer direction plot_map noise'.
Proof.
  intros Hmode.
  assert (Hatt : ∀ q k v s1 s2 s3,
            segment_attention self direction q k v s1 s2 s3 mask_fixer noise
            = segment_attention self direction q k v s1 s2 s3 mask_fixer noise').
  { intros. unfold segment_attention.
    destruct (pair_scores direction q k s1 s2 s3); [|reflexivity].
    cbn [mbind result_bind]. destruct (normalise mask_fixer a); [|reflexivity].
    cbn [mbind result_bind].
    now rewrite (dropout_each_noise _ _ noise noise' 0 a0 Hmode). }
  unfold forward, size3.
  repeat (cbn beta iota zeta; cbn [mbind result_bind]; rewrite ?Hatt;
          try reflexivity;
          match goal with
          | |- context [mbind _ ?m] =>
              lazymatch m with
              | segment_attention _ _ _ _ _ _ _ _ _ _ => fail
              | context [match _ with _ => _ end] => fail
              | _ => destruct m eqn:?
              end
          | |- context [match ?x with _ => _ end] =>
              lazymatch x with
              | context [match _ with _ => _ end] => fail
              | context [segment_attention] => fail
              | _ => destruct x eqn:?
              end
          end).
Qed.

(** Rows of the block of query segment [s] when the query has [T]
    positions: the part of the segment that lies below [T]. *)
Lemma spec_pair_output_rows p training noise (q k v : tensor3 (R:=R)) t v' a n pair :
  prob_ok p = true →
  dim0 q = dim0 k → dim2 q = dim2 k →
  dim0 v = dim0 k → dim1 v = dim1 k →
  ∃ o, spec_pair_output p training noise q k v (nat_split t v' a) n pair = Ok o
    ∧ dim0 o = dim0 q
    ∧ dim1 o = Nat.min (dim1 q) (seg_start t v' a (fst pair) + seg_len t v' a (fst pair))
               - Nat.min (dim1 q) (seg_start t v' a (fst pair))
    ∧ dim2 o = dim2 v.
Proof.
  intros Hp H0 H2 Hv0 Hv1. unfold spec_pair_output, spec_pair_scores.
  set (qs := spec_segment_range (nat_split t v' a) (fst pair)).
  set (ks := spec_segment_range (nat_split t v' a) (snd pair)).
  destruct (slice_dim1_dims q qs) as (Hq0 & Hq1 & Hq2).
  destruct (slice_dim1_dims k ks) as (Hk0 & Hk1 & Hk2).
  destruct (slice_dim1_dims v ks) as (Hs0 & Hs1 & Hs2).
  assert (Hlen : snd (py_slice (dim1 q) (fst qs) (Some (snd qs)))
                 = Nat.min (dim1 q) (seg_start t v' a (fst pair) + seg_len t v' a (fst pair))
                   - Nat.min (dim1 q) (seg_start t v' a (fst pair))).
  { unfold qs. rewrite spec_segment_range_nat. cbn [fst snd].
    now rewrite py_slice_of_nat. }
  rewrite Hlen in Hq1.
  destruct (bmm_dims (slice_dim1 q qs) (transpose12 (slice_dim1 k ks)))
    as (sc & -> & Hc0 & Hc1 & Hc2);
    [cbn [dim0 dim1 dim2 mk3 transpose12]; lia
    |cbn [dim0 dim1 dim2 mk3 transpose12]; lia |].
  cbn [mbind result_bind].
  destruct (dropout_dims (softmax_last sc) p training (noise n) Hp)
    as (w & -> & Hw0 & Hw1 & Hw2).
  cbn [mbind result_bind].
  cbn [dim0 dim1 dim2 mk3 transpose12 softmax_last] in Hc0, Hc1, Hc2, Hw0, Hw1, Hw2.
  rewrite Hv1 in Hs1.
  destruct (bmm_dims w (slice_dim1 v ks)) as (o & -> & Ho0 & Ho1 & Ho2);
    [lia | lia |].
  exists o. split; [reflexivity|]. repeat split; lia.
Qed.

(** The three blocks of a call without [mask_fixer] and their
    concatenation, for any non-negative segment lengths: the
    concatenation has [min T (t + v + a)] rows. *)
Lemma segment_attention_clipped (self : GraphAttention (R:=R)) direction
    (q k v : tensor3 (R:=R)) t v' a noise :
  prob_ok (attn_dropout self) = true →
  dim0 q = dim0 k → dim2 q = dim2 k →
  dim0 v = dim0 k → dim1 v = dim1 k →
  ∃ outs c,
    segment_attention self direction q k v
      (spec_segment_range (nat_split t v' a) S1)
      (spec_segment_range (nat_split t v' a) S2)
      (spec_segment_range (nat_split t v' a) S3) None noise
    = Ok outs
    ∧ concat1 outs = Ok c
    ∧ size3 c = (dim0 q, Nat.min (dim1 q) (t + v' + a), dim2 v).
Proof.
  intros Hp H0 H2 Hv0 Hv1.
  destruct (spec_direction_pairs_queries direction) as (k1 & k2 & k3 & Htab).
  pose proof (λ n pair, spec_pair_output_rows (attn_dropout self) (training self)
                noise q k v t v' a n pair Hp H0 H2 Hv0 Hv1) as Hpair.
  destruct (Hpair 0 (S1, k1)) as (o1 & E1 & Ha0 & Ha1 & Ha2).
  destruct (Hpair 1 (S2, k2)) as (o2 & E2 & Hb0 & Hb1 & Hb2).
  destruct (Hpair 2 (S3, k3)) as (o3 & E3 & Hc0 & Hc1 & Hc2).
  cbn [fst seg_start seg_len] in Ha1, Hb1, Hc1.
  destruct (concat1_three o1 o2 o3 (dim0 q) (dim2 v) (dim1 o1) (dim1 o2) (dim1 o3))
    as (c & Hcat & Hc); try (unfold size3; congruence).
  exists [o1; o2; o3], c. split; [|split; [assumption|]].
  - apply segment_attention_table. rewrite Htab. cbn [spec_outputs].
    rewrite E1, E2, E3. reflexivity.
  - rewrite Hc. f_equal. f_equal. lia.
Qed.

(** The zero position appended by [add_zero_attn] lies after every
    segment that fits the keys. *)
Lemma cat1_zeros_segment (x : tensor3 (R:=R)) t v a :
  t + v + a ≤ dim1 x →
  ∃ z, cat1 x (zeros_row x) = Ok z
    ∧ size3 z = (dim0 x, dim1 x + 1, dim2 x)
    ∧ ∀ s, slice_dim1 z (spec_segment_range (nat_split t v a) s)
           = slice_dim1 x (spec_segment_range (nat_split t v a) s).
Proof.
  intros Hx.
  exists (mk3 (dim0 x) (dim1 x + 1) (dim2 x)
            (λ i j k, if j <? dim1 x then get3 x i j k
                      else get3 (zeros_row x) i (j - dim1 x) k)).
  split; [|split; [reflexivity|]].
  - unfold cat1.
    change (dim0 (zeros_row x)) with (dim0 x).
    change (dim1 (zeros_row x)) with 1.
    change (dim2 (zeros_row x)) with (dim2 x).
    now rewrite !Nat.eqb_refl.
  - intros s. rewrite !segment_slice by (cbn [mk3 dim1]; lia).
    cbn [mk3 dim0 dim1 dim2]. apply mk3_ext. intros i j k Hi Hj Hk.
    change (T3 ?n0 ?n1 ?n2 (tabulate ?n0 (λ i, tabulate ?n1 (λ j, tabulate ?n2 (?f i j)))))
      with (mk3 n0 n1 n2 f).
    assert (seg_start t v a s + j < dim1 x) by (destruct s; cbn in *; lia).
    rewrite get3_mk3 by lia.
    replace (seg_start t v a s + j <? dim1 x) with true
      by (symmetry; apply Nat.ltb_lt; lia).
    reflexivity.
Qed.

Section WellFormed.
Variable self : GraphAttention (R:=R).
Variables query_nodes key_nodes value_nodes : nodes (R:=R).
Variable edge_mask : option (tensor2 (R:=R)).
Variable direction : option string.
Variable plot_map : bool.
Variable noise : nat → nat → nat → nat → bool.
Variables T B S : nat.

Hypothesis Hok : module_ok self = true.
Hypothesis HB : 0 < B.
Hypothesis Hq : size3 (values query_nodes) = (T, B, Z.to_nat (embed_dim self)).
Hypothesis Hk : size3 (values key_nodes) = (S, B, Z.to_nat (embed_dim self)).
Hypothesis Hv : size3 (values value_nodes) = (S, B, Z.to_nat (embed_dim self)).

Lemma forward_without_seq_split mask_fixer :
  forward self query_nodes key_nodes value_nodes edge_mask None mask_fixer
    direction plot_map noise
  = Raise (TypeError "cannot unpack non-iterable NoneType object").
Proof using Hok HB Hq Hk Hv.
  destruct (forward_prefix self query_nodes key_nodes value_nodes edge_mask
              direction plot_map noise T B S Hok HB Hq Hk Hv)
    as (qh & kh & vh & em & S2 & _ & _ & _ & _ & Hfw).
  pose proof (Hfw (add_zero_attn self)) as Hfw'.
  rewrite with_zero_attn_same in Hfw'. rewrite Hfw'.
  unfold forward_tail. destruct (add_zero_attn self); [|reflexivity].
  destruct (cat1_zeros_segment kh 0 0 0) as (kz & -> & _); [lia|].
  destruct (cat1_zeros_segment vh 0 0 0) as (vz & -> & _); [lia|].
  reflexivity.
Qed.

Lemma forward_clipped t v a :
  prob_ok (attn_dropout self) = true →
  ∃ c, size3 c = (B * Z.to_nat (num_heads self), Nat.min T (t + v + a),
                  Z.to_nat (head_dim self))
    ∧ forward self query_nodes key_nodes value_nodes edge_mask
        (Some (nat_split t v a)) None direction plot_map noise
      = (attn ← view3 (transpose01 c) (Z.of_nat T) (Z.of_nat B)
                  (Z.of_nat (Z.to_nat (embed_dim self)));
         attn ← linear attn (weight (out_proj self)) (bias (out_proj self));
         Ok (attn, (None, None))).
Proof using Hok HB Hq Hk Hv.
  intros Hp.
  destruct (forward_prefix self query_nodes key_nodes value_nodes edge_mask
              direction plot_map noise T B S Hok HB Hq Hk Hv)
    as (qh & kh & vh & em & S2 & Hqh & Hkh & Hvh & _ & Hfw).
  pose proof (Hfw (add_zero_attn self)) as Hfw'.
  rewrite with_zero_attn_same in Hfw'. rewrite Hfw'.
  unfold size3 in Hqh, Hkh, Hvh.
  injection Hqh as Hq0 Hq1 Hq2. injection Hkh as Hk0 Hk1 Hk2.
  injection Hvh as Hv0 Hv1 Hv2.
  unfold forward_tail. rewrite segment_ranges_spec.
  assert (Hzero : ∃ sl k2 v2 em2,
            (if add_zero_attn self then
               k ← cat1 kh (zeros_row kh);
               v ← cat1 vh (zeros_row vh);
               Ok (dim1 kh + 1, k, v, mask_add_column <$> em)
             else Ok (dim1 kh, kh, vh, em)) = Ok (sl, k2, v2, em2)
            ∧ dim0 k2 = dim0 kh ∧ dim2 k2 = dim2 kh
            ∧ dim0 v2 = dim0 vh ∧ dim2 v2 = dim2 vh ∧ dim1 v2 = dim1 k2).
  { destruct (add_zero_attn self); [|do 4 eexists; split; [reflexivity|]; lia].
    destruct (cat1_dims kh (zeros_row kh)) as (k2 & -> & ? & ? & ?);
      [reflexivity | reflexivity |].
    destruct (cat1_dims vh (zeros_row vh)) as (v2 & -> & ? & ? & ?);
      [reflexivity | reflexivity |].
    cbn [mbind result_bind]. do 4 eexists. split; [reflexivity|].
    cbn [zeros_row mk3 dim1] in *. lia. }
  destruct Hzero as (sl & k2 & v2 & em2 & -> & ? & ? & ? & ? & ?).
  cbn [mbind result_bind].
  destruct (segment_attention_clipped self direction qh k2 v2 t v a noise Hp)
    as (outs & c & -> & Hcat & Hc); try lia.
  cbn [mbind result_bind]. rewrite Hcat. cbn [mbind result_bind].
  exists c. split; [|reflexivity]. rewrite Hc. congruence.
Qed.

End WellFormed.

(** X7.  A call that leaves [seq_split] at its default [None] never
    returns; when the module and the three sequences are well-formed, it
    fails at line 110 with a [TypeError], whatever the other arguments. *)
Theorem missing_seq_split_is_a_type_error
    (self : GraphAttention (R:=R)) (query_nodes key_nodes value_nodes : nodes)
    edge_mask direction plot_map noise :
  (∀ mask_fixer,
     is_ok (forward self query_nodes key_nodes value_nodes edge_mask None
              mask_fixer direction plot_map noise) = false)
  ∧ (∀ T B S mask_fixer,
     module_ok self = true → 0 < B →
     size3 (values query_nodes) = (T, B, Z.to_nat (embed_dim self)) →
     size3 (values key_nodes) = (S, B, Z.to_nat (embed_dim self)) →
     size3 (values value_nodes) = (S, B, Z.to_nat (embed_dim self)) →
     forward self query_nodes key_nodes value_nodes edge_mask None
       mask_fixer direction plot_map noise
     = Raise (TypeError "cannot unpack non-iterable NoneType object")).
Proof.
  split.
  - intros mask_fixer. unfold forward, size3. cbv [mbind result_bind]. run_cases.
  - intros T B S mask_fixer Hok HB Hq Hk Hv.
    now apply (forward_without_seq_split self query_nodes key_nodes value_nodes
                 edge_mask direction plot_map noise T B S).
Qed.

(** X8.  A well-formed call without [mask_fixer] returns exactly when the
    (non-negative) segment lengths sum to at least the query's sequence
    length [T]: slices past the end are clipped, so longer segment lengths
    go unnoticed, and the output then has the query's shape. *)
Theorem forward_returns_iff_segments_cover_query
    (self : GraphAttention (R:=R)) (query_nodes key_nodes value_nodes : nodes)
    edge_mask direction plot_map noise (T B S t v a : nat) :
  module_ok self = true →
  prob_ok (attn_dropout self) = true →
  0 < B →
  size3 (values query_nodes) = (T, B, Z.to_nat (embed_dim self)) →
  size3 (values key_nodes) = (S, B, Z.to_nat (embed_dim self)) →
  size3 (values value_nodes) = (S, B, Z.to_nat (embed_dim self)) →
  (is_ok (forward self query_nodes key_nodes value_nodes edge_mask
            (Some (nat_split t v a)) None direction plot_map noise) = true
   ↔ T ≤ t + v + a)
  ∧ (T ≤ t + v + a →
     ∃ out, forward self query_nodes key_nodes value_nodes edge_mask
              (Some (nat_split t v a)) None direction plot_map noise
            = Ok (out, (None, None))
          ∧ size3 out = size3 (values query_nodes)).
Proof.
  intros Hok Hp HB Hq Hk Hv.
  destruct (forward_clipped self query_nodes key_nodes value_nodes edge_mask
              direction plot_map noise T B S Hok HB Hq Hk Hv t v a Hp)
    as (c & Hc & Hfw).
  destruct (module_ok_shapes self Hok)
    as (HE & HH & HD & HHpos & HDpos & HDH & _ & _ & _ & Hor & Hoc & Hob & _).
  unfold size3 in Hc. injection Hc as Hc0 Hc1 Hc2.
  assert (Hyes : T ≤ t + v + a →
            ∃ out, forward self query_nodes key_nodes value_nodes edge_mask
                     (Some (nat_split t v a)) None direction plot_map noise
                   = Ok (out, (None, None))
                 ∧ size3 out = size3 (values query_nodes)).
  { intros Hle. rewrite Hfw.
    rewrite view3_exact.
    2:{ unfold numel3. cbn [transpose01 mk3 dim0 dim1 dim2].
        rewrite Hc0, Hc1, Hc2, <- HDH, Nat.min_l by lia. lia. }
    cbn [mbind result_bind].
    destruct (linear_dims (reshaped (transpose01 c) T B (Z.to_nat (embed_dim self)))
                (out_proj self))
      as (out & -> & Hout); [cbn; lia | intros b Hb; rewrite (Hob b Hb); lia |].
    exists out. split; [reflexivity|]. rewrite Hout, Hq. cbn. now rewrite Hor. }
  split; [split|exact Hyes].
  - intros Hret. destruct (Nat.le_gt_cases T (t + v + a)) as [|Hlt]; [assumption|].
    exfalso. rewrite Hfw in Hret. rewrite view3_mismatch in Hret; [discriminate|].
    unfold numel3. cbn [transpose01 mk3 dim0 dim1 dim2].
    rewrite Hc0, Hc1, Hc2, <- HDH. intros Heq.
    replace (Nat.min T (t + v + a)) with (t + v + a) in Heq by lia.
    set (Hn := Z.to_nat (num_heads self)) in *.
    set (D := Z.to_nat (head_dim self)) in *.
    assert (Hx : (t + v + a) * (B * Hn * D) = T * (B * Hn * D)) by lia.
    apply Nat.mul_cancel_r in Hx; [lia|].
    pose proof (Nat.mul_pos_pos _ _ (Nat.mul_pos_pos _ _ HB HHpos) HDpos). lia.
  - intros Hle. destruct (Hyes Hle) as (out & -> & _). reflexivity.
Qed.

(** X9.  For a well-formed call whose segment lengths fit the query and
    the key sequence, the zero position that [add_zero_attn] appends to the
    keys and values is never attended: the result is the same with the flag
    set and unset. *)
Theorem add_zero_attn_has_no_effect
    (self : GraphAttention (R:=R)) (query_nodes key_nodes value_nodes : nodes)
    edge_mask mask_fixer direction plot_map noise (T B S t v a : nat) :
  module_ok self = true →
  0 < B →
  size3 (values query_nodes) = (T, B, Z.to_nat (embed_dim self)) →
  size3 (values key_nodes) = (S, B, Z.to_nat (embed_dim self)) →
  size3 (values value_nodes) = (S, B, Z.to_nat (embed_dim self)) →
  t + v + a ≤ T → t + v + a ≤ S →
  forward (with_zero_attn self true) query_nodes key_nodes value_nodes
    edge_mask (Some (nat_split t v a)) mask_fixer direction plot_map noise
  = forward (with_zero_attn self false) query_nodes key_nodes value_nodes
      edge_mask (Some (nat_split t v a)) mask_fixer direction plot_map noise.
Proof.
  intros Hok HB Hq Hk Hv HT HS.
  destruct (forward_prefix self query_nodes key_nodes value_nodes edge_mask
              direction plot_map noise T B S Hok HB Hq Hk Hv)
    as (qh & kh & vh & em & S2 & _ & Hkh & Hvh & HS2 & Hfw).
  rewrite !Hfw. unfold forward_tail.
  unfold size3 in Hkh, Hvh. injection Hkh as ? ? ?. injection Hvh as ? ? ?.
  destruct (cat1_zeros_segment kh t v a) as (kz & -> & _ & Hkz); [lia|].
  destruct (cat1_zeros_segment vh t v a) as (vz & -> & _ & Hvz); [lia|].
  cbn [mbind result_bind]. rewrite segment_ranges_spec.
  rewrite (segment_attention_slices self direction qh kz vz kh vh); [reflexivity| |].
  - intros s [-> | [-> | ->]]; apply Hkz.
  - intros s [-> | [-> | ->]]; apply Hvz.
Qed.

End ForwardMore.

(** ** More on construction *)

Section ConstructionMore.
Context {R : Type} {SR : Scalar R}.

Lemma div_exact_nonzero (e h : Z) :
  h ≠ 0%Z → ((e / h * h =? e)%Z = true ↔ (e mod h = 0)%Z).
Proof.
  intros Hh. rewrite Z.eqb_eq.
  pose proof (Z.div_mod e h Hh) as Hdm. split; intros E; nia.
Qed.

(** X10.  The constructor's failures over all integers: [num_heads = 0]
    is a division by zero; a [num_heads] that does not divide [embed_dim]
    fails the assertion; [embed_dim = 0] passes the assertion and fails at
    [head_dim ** -0.5]; a negative [embed_dim] that [num_heads] divides
    passes both and fails when the weight is allocated. *)
Theorem constructor_rejections
    (e h : Z) p b kv za (init : initial_values (R:=R)) :
  (h = 0%Z → GraphAttention_init e h p b kv za init = Raise ZeroDivisionError)
  ∧ (h ≠ 0%Z → (e mod h ≠ 0)%Z →
     GraphAttention_init e h p b kv za init
     = Raise (AssertionError "embed_dim must be divisible by num_heads"))
  ∧ (h ≠ 0%Z → e = 0%Z →
     GraphAttention_init e h p b kv za init = Raise ZeroDivisionError)
  ∧ (h ≠ 0%Z → (e < 0)%Z → (e mod h = 0)%Z →
     GraphAttention_init e h p b kv za init
     = Raise (RuntimeError "Trying to create tensor with negative dimension")).
Proof.
  repeat split.
  - intros ->. reflexivity.
  - intros Hh Hmod. unfold GraphAttention_init, floordiv.
    replace (h =? 0)%Z with false by (symmetry; apply Z.eqb_neq; lia).
    cbn [mbind result_bind].
    destruct (e / h * h =? e)%Z eqn:Hassert; [|reflexivity].
    apply div_exact_nonzero in Hassert; [contradiction | assumption].
  - intros Hh ->. unfold GraphAttention_init, floordiv, pow_neg_half.
    replace (h =? 0)%Z with false by (symmetry; apply Z.eqb_neq; lia).
    cbn [mbind result_bind]. rewrite Z.div_0_l by assumption. reflexivity.
  - intros Hh He Hmod.
    pose proof (proj2 (div_exact_nonzero e h Hh) Hmod) as Hassert.
    unfold GraphAttention_init, floordiv, pow_neg_half, new_tensor2.
    replace (h =? 0)%Z with false by (symmetry; apply Z.eqb_neq; lia).
    cbn [mbind result_bind]. rewrite Hassert. cbn [py_assert mbind result_bind].
    replace (e / h =? 0)%Z with false
      by (symmetry; apply Z.eqb_neq; apply Z.eqb_eq in Hassert; nia).
    cbn [mbind result_bind].
    replace (3 * e <? 0)%Z with true by (symmetry; apply Z.ltb_lt; lia).
    reflexivity.
Qed.

(** X11.  Every module the constructor returns for a positive
    [num_heads] is well-formed (the weights have the shapes [forward]
    relies on and [head_dim * num_heads = embed_dim]), is in training mode,
    has both biases filled with zeros exactly when [bias] is set, and has
    both sentinel vectors exactly when [add_bias_kv] is set. *)
Theorem constructed_module_is_well_formed
    (e h : Z) p b kv za (init : initial_values (R:=R)) (m : GraphAttention (R:=R)) :
  (0 < h)%Z →
  GraphAttention_init e h p b kv za init = Ok m →
  module_ok m = true
  ∧ (0 < embed_dim m)%Z
  ∧ training m = true
  ∧ (∀ bi, in_proj_bias m = Some bi → ∀ i, i < len1 bi → get1 bi i = r0)
  ∧ (∀ bo, bias (out_proj m) = Some bo → ∀ i, i < len1 bo → get1 bo i = r0)
  ∧ (in_proj_bias m = None ↔ b = false)
  ∧ (bias (out_proj m) = None ↔ b = false)
  ∧ (bias_k m = None ↔ kv = false)
  ∧ (bias_v m = None ↔ kv = false).
Proof.
  intros Hh Hm.
  assert (He : (0 < e)%Z ∧ (e mod h = 0)%Z).
  { unfold GraphAttention_init, floordiv, pow_neg_half, new_tensor2 in Hm.
    replace (h =? 0)%Z with false in Hm by (symmetry; apply Z.eqb_neq; lia).
    cbn [mbind result_bind] in Hm.
    destruct (e / h * h =? e)%Z eqn:Hassert; [|discriminate].
    cbn [py_assert mbind result_bind] in Hm.
    destruct (e / h =? 0)%Z eqn:Hd; [discriminate|].
    cbn [mbind result_bind] in Hm.
    destruct ((3 * e <? 0)%Z || (e <? 0)%Z) eqn:Hneg; [discriminate|].
    apply orb_false_iff in Hneg as [_ Hneg]. apply Z.ltb_ge in Hneg.
    apply Z.eqb_neq in Hd.
    split; [|apply div_exact_iff; assumption].
    apply Z.eqb_eq in Hassert. nia. }
  destruct He as [He Hmod].
  destruct (init_ok_of_divisible e h p b kv za init He Hh Hmod)
    as (m' & Hm' & Hok & Hem & _).
  rewrite Hm in Hm'. injection Hm' as <-.
  split; [assumption|]. split; [lia|].
  pose proof (proj2 (div_exact_iff e h Hh) Hmod) as Hassert.
  assert (Hd : (0 < e / h)%Z) by (apply Z.eqb_eq in Hassert; nia).
  unfold GraphAttention_init, floordiv, pow_neg_half, new_tensor2, new_tensor1,
    new_tensor_11n in Hm.
  replace (h =? 0)%Z with false in Hm by (symmetry; apply Z.eqb_neq; lia).
  cbn [mbind result_bind] in Hm. rewrite Hassert in Hm.
  cbn [py_assert mbind result_bind] in Hm.
  replace (e / h =? 0)%Z with false in Hm by (symmetry; apply Z.eqb_neq; lia).
  replace (3 * e <? 0)%Z with false in Hm by (symmetry; apply Z.ltb_ge; lia).
  replace (e <? 0)%Z with false in Hm by (symmetry; apply Z.ltb_ge; lia).
  destruct b, kv; cbn in Hm; injection Hm as <-;
    cbn [training in_proj_bias out_proj bias bias_k bias_v];
    repeat split; try discriminate; try reflexivity;
    try (intros bi [= <-] i Hi; cbn [len1 mk1] in Hi; now rewrite get1_mk1);
    try (intros ? [=]).
Qed.

End ConstructionMore.

(** ** Aliased and oversized arguments *)

Section Aliasing.
Context {R : Type} {SR : Scalar R}.

Lemma size3_eqb_true (x y : tensor3 (R:=R)) :
  size3 x = size3 y → size3_eqb x y = true.
Proof.
  unfold size3, size3_eqb. intros [= -> -> ->]. now rewrite !Nat.eqb_refl.
Qed.

(** X12.  Arguments are told apart by their data pointers only.  When
    the three pointers are equal, keys and values are projected from the
    query and the contents of the key and value arguments are never read;
    when the key and value pointers are equal, the values are projected
    from the key and the contents of the value argument are never read.
    Only the sizes of the ignored arguments are compared. *)
Theorem aliased_arguments_are_not_read
    (self : GraphAttention (R:=R)) (q k v k' v' : tensor3 (R:=R))
    edge_mask seq_split mask_fixer direction plot_map noise :
  (∀ p, size3 k = size3 v → size3 k' = size3 v' →
     forward self (Nodes p q) (Nodes p k) (Nodes p v) edge_mask seq_split
       mask_fixer direction plot_map noise
     = forward self (Nodes p q) (Nodes p k') (Nodes p v') edge_mask seq_split
         mask_fixer direction plot_map noise)
  ∧ (∀ pq pk, size3 k = size3 v → size3 k = size3 v' →
     forward self (Nodes pq q) (Nodes pk k) (Nodes pk v) edge_mask seq_split
       mask_fixer direction plot_map noise
     = forward self (Nodes pq q) (Nodes pk k) (Nodes pk v') edge_mask seq_split
         mask_fixer direction plot_map noise).
Proof.
  split.
  - intros p Hkv Hkv'. unfold forward, project_inputs. cbn [data_ptr values].
    rewrite (size3_eqb_true k v Hkv), (size3_eqb_true k' v' Hkv').
    rewrite !Z.eqb_refl. reflexivity.
  - intros pq pk Hkv Hkv'. unfold forward, project_inputs. cbn [data_ptr values].
    rewrite (size3_eqb_true k v Hkv), (size3_eqb_true k v' Hkv').
    rewrite !Z.eqb_refl, !andb_true_r. reflexivity.
Qed.

(** X13.  The width of the key is not asserted: with pointers that do
    not select the fused projection, a key (and value) whose width differs
    from [embed_dim] passes the assertions of lines 63-65 and is rejected
    by [F.linear] with a [RuntimeError]. *)
Theorem key_width_is_rejected_by_the_projection
    (self : GraphAttention (R:=R)) (query_nodes key_nodes value_nodes : nodes)
    edge_mask seq_split mask_fixer direction plot_map noise :
  module_ok self = true →
  dim2 (values query_nodes) = Z.to_nat (embed_dim self) →
  size3 (values key_nodes) = size3 (values value_nodes) →
  dim2 (values key_nodes) ≠ Z.to_nat (embed_dim self) →
  data_ptr query_nodes ≠ data_ptr key_nodes
    ∨ data_ptr key_nodes ≠ data_ptr value_nodes →
  forward self query_nodes key_nodes value_nodes edge_mask seq_split
    mask_fixer direction plot_map noise
  = Raise (RuntimeError "mat1 and mat2 shapes cannot be multiplied").
Proof.
  intros Hok Hq Hkv Hk Hptr.
  destruct (module_ok_shapes self Hok) as (HE & _ & _ & _ & _ & _ & _ & Hc & _).
  unfold forward, size3. rewrite Hq.
  replace (Z.of_nat (Z.to_nat (embed_dim self)) =? embed_dim self)%Z with true
    by (symmetry; apply Z.eqb_eq; lia).
  rewrite (size3_eqb_true _ _ Hkv). cbn [py_assert mbind result_bind].
  unfold project_inputs.
  replace ((data_ptr query_nodes =? data_ptr key_nodes)%Z
           && (data_ptr key_nodes =? data_ptr value_nodes)%Z) with false.
  2:{ symmetry. apply andb_false_iff.
      destruct Hptr as [Hne|Hne]; [left|right]; now apply Z.eqb_neq. }
  rewrite (in_proj_q_value self Hok _ Hq).
  cbn [mbind result_bind]. unfold in_proj_kv, in_proj_k.
  rewrite !in_proj_mismatch by (rewrite Hc; exact Hk).
  destruct (data_ptr key_nodes =? data_ptr value_nodes)%Z; reflexivity.
Qed.

End Aliasing.

(** ** Key positions beyond the segments *)

Section TrailingKeys.
Context {R : Type} {SR : Scalar R}.

Lemma proj_rows_agree (self : GraphAttention (R:=R)) n (x y : tensor3 (R:=R)) a m :
  agree_rows n x y → agree_rows n (proj_rows self x a m) (proj_rows self y a m).
Proof.
  intros [Hsize Hget]. unfold size3 in Hsize. injection Hsize as H0 H1 H2.
  split.
  - unfold size3, proj_rows. cbn [mk3 dim0 dim1 dim2]. congruence.
  - intros i j o Hn Hi Hj Ho. unfold proj_rows in *.
    change (dim0 (mk3 ?a _ _ _)) with a in Hi.
    change (dim1 (mk3 _ ?b _ _)) with b in Hj.
    change (dim2 (mk3 _ _ ?c _)) with c in Ho.
    rewrite !get3_mk3 by lia. unfold affine. rewrite <- H2.
    replace (sum_upto (dim2 x) (λ e, rmul (get3 y i j e)
               (get2 (in_proj_weight self) (a + o) e)))
      with (sum_upto (dim2 x) (λ e, rmul (get3 x i j e)
               (get2 (in_proj_weight self) (a + o) e))); [reflexivity|].
    apply sum_upto_ext. intros e He. now rewrite Hget.
Qed.

Lemma with_sentinel_row_agree b bsz n (x y : tensor3 (R:=R)) :
  agree_rows n x y → n ≤ dim0 x →
  agree_rows n (with_sentinel_row b bsz x) (with_sentinel_row b bsz y).
Proof.
  intros Hxy Hn. destruct b as [b|]; [|exact Hxy].
  destruct Hxy as [Hsize Hget]. unfold size3 in Hsize. injection Hsize as H0 H1 H2.
  unfold with_sentinel_row. split.
  - unfold size3. cbn [mk3 dim0 dim1 dim2]. congruence.
  - intros i j e Hi _ Hj He.
    change (dim1 (mk3 _ ?b _ _)) with b in Hj.
    change (dim2 (mk3 _ _ ?c _)) with c in He.
    rewrite !get3_mk3 by lia. rewrite <- H0.
    replace (i <? dim0 x) with true by (symmetry; apply Nat.ltb_lt; lia).
    apply Hget; lia.
Qed.

Lemma heads_agree (self : GraphAttention (R:=R)) bsz n (x y : tensor3 (R:=R)) :
  agree_rows n x y → n ≤ dim0 x →
  dim1 x * dim2 x = bsz * Z.to_nat (num_heads self) * Z.to_nat (head_dim self) →
  0 < bsz * Z.to_nat (num_heads self) → 0 < Z.to_nat (head_dim self) →
  agree_below n (heads self bsz x) (heads self bsz y).
Proof.
  intros [Hsize Hget] Hn Hbc Hb Hc. unfold heads.
  pose proof Hsize as Hsize'. unfold size3 in Hsize'. injection Hsize' as H0 H1 H2.
  rewrite <- H0. apply reshaped_agree; try assumption.
  intros i j k Hi Hj Hk. apply Hget; lia.
Qed.

Section Run.
Variable self : GraphAttention (R:=R).
Variables query_nodes key_nodes value_nodes : nodes (R:=R).
Variable edge_mask : option (tensor2 (R:=R)).
Variable direction : option string.
Variable plot_map : bool.
Variable noise : nat → nat → nat → nat → bool.
Variables T B S : nat.

Hypothesis Hok : module_ok self = true.
Hypothesis HB : 0 < B.
Hypothesis Hq : size3 (values query_nodes) = (T, B, Z.to_nat (embed_dim self)).
Hypothesis Hk : size3 (values key_nodes) = (S, B, Z.to_nat (embed_dim self)).
Hypothesis Hv : size3 (values value_nodes) = (S, B, Z.to_nat (embed_dim self)).
Hypothesis Hdiff :
  (data_ptr query_nodes =? data_ptr key_nodes)%Z
  && (data_ptr key_nodes =? data_ptr value_nodes)%Z = false.

(** A well-formed call that does not take the fused projection, up to
    the split into heads. *)
Lemma forward_heads za seq_split mask_fixer :
  forward (with_zero_attn self za) query_nodes key_nodes value_nodes
    edge_mask seq_split mask_fixer direction plot_map noise
  = forward_tail self za direction T B (Z.to_nat (embed_dim self))
      (heads self B
         (scale3 (proj_rows self (values query_nodes) 0 (Z.to_nat (embed_dim self)))
            (scaling self)))
      (heads self B
         (with_sentinel_row (bias_k self) B
            (proj_rows self (values key_nodes) (Z.to_nat (embed_dim self))
               (Z.to_nat (embed_dim self)))))
      (heads self B
         (with_sentinel_row (bias_v self) B
            (proj_rows self
               (if (data_ptr key_nodes =? data_ptr value_nodes)%Z
                then values key_nodes else values value_nodes)
               (2 * Z.to_nat (embed_dim self)) (Z.to_nat (embed_dim self)))))
      (match bias_k self with
       | Some _ => mask_add_column <$> edge_mask
       | None => edge_mask
       end)
      seq_split mask_fixer noise.
Proof using Hok HB Hq Hk Hv Hdiff.
  destruct (module_ok_shapes self Hok)
    as (HE & HH & HD & HHpos & HDpos & HDH & _ & _ & _ & _ & _ & _ & Hbk & Hbv).
  set (E := Z.to_nat (embed_dim self)) in *.
  set (Hn := Z.to_nat (num_heads self)) in *.
  set (D := Z.to_nat (head_dim self)) in *.
  pose proof Hq as Hq'. pose proof Hk as Hk'. pose proof Hv as Hv'.
  unfold size3 in Hq', Hk', Hv'.
  injection Hq' as Hq0 Hq1 Hq2. injection Hk' as Hk0 Hk1 Hk2.
  injection Hv' as Hv0 Hv1 Hv2.
  unfold forward.
  change (project_inputs (with_zero_attn self za)) with (project_inputs self).
  cbn [with_zero_attn embed_dim num_heads head_dim bias_k bias_v scaling
         add_zero_attn out_proj].
  rewrite Hq.
  replace (Z.of_nat E =? embed_dim self)%Z with true
    by (symmetry; apply Z.eqb_eq; lia).
  rewrite (size3_eqb_true (values key_nodes) (values value_nodes)) by congruence.
  cbn [py_assert mbind result_bind].
  unfold project_inputs. rewrite Hdiff.
  rewrite (in_proj_q_value self Hok _ Hq2), (in_proj_k_value self Hok _ Hk2),
    (in_proj_v_value self Hok _ Hv2), (in_proj_kv_value self Hok _ Hk2).
  fold E.
  set (q := proj_rows self (values query_nodes) 0 E).
  set (k := proj_rows self (values key_nodes) E E).
  assert (Hproj :
    (if (data_ptr key_nodes =? data_ptr value_nodes)%Z
     then q0 ← Ok q;
          kv ← Ok [k; proj_rows self (values key_nodes) (2 * E) E];
          '(k0, v0) ← unpack2 kv; Ok (q0, k0, v0)
     else q0 ← Ok q; k0 ← Ok k;
          v0 ← Ok (proj_rows self (values value_nodes) (2 * E) E);
          Ok (q0, k0, v0))
    = Ok (q, k, proj_rows self
                  (if (data_ptr key_nodes =? data_ptr value_nodes)%Z
                   then values key_nodes else values value_nodes) (2 * E) E)).
  { destruct (data_ptr key_nodes =? data_ptr value_nodes)%Z; reflexivity. }
  rewrite Hproj. clear Hproj.
  set (v0 := proj_rows self _ (2 * E) E).
  assert (Hv0s : size3 v0 = (S, B, E)).
  { unfold v0, size3, proj_rows. cbn [mk3 dim0 dim1 dim2].
    destruct (data_ptr key_nodes =? data_ptr value_nodes)%Z; congruence. }
  assert (Hks : size3 k = (S, B, E)).
  { unfold k, size3, proj_rows. cbn [mk3 dim0 dim1 dim2]. congruence. }
  assert (Hqs : size3 q = (T, B, E)).
  { unfold q, size3, proj_rows. cbn [mk3 dim0 dim1 dim2]. congruence. }
  clearbody q k v0.
  unfold size3 in Hqs, Hks, Hv0s.
  injection Hqs as Hqs0 Hqs1 Hqs2. injection Hks as Hks0 Hks1 Hks2.
  injection Hv0s as Hvs0 Hvs1 Hvs2.
  cbn [mbind result_bind].
  rewrite HH, HD, <- Nat2Z.inj_mul.
  rewrite (view3_exact (scale3 q (scaling self)) T (B * Hn) D)
    by (unfold numel3; cbn [scale3 mk3 dim0 dim1 dim2]; nia).
  cbn [mbind result_bind].
  assert (Hqh : reshaped (scale3 q (scaling self)) T (B * Hn) D
                = reshaped (scale3 q (scaling self))
                    (dim0 (scale3 q (scaling self))) (B * Hn) D).
  { cbn [scale3 mk3 dim0]. now rewrite Hqs0. }
  unfold heads. fold Hn D. rewrite <- Hqh. clear Hqh.
  destruct (bias_k self) as [bk|] eqn:Hbk'.
  - destruct (Hbk bk eq_refl) as (Hbks & bv & Hbv').
    rewrite Hbv'. pose proof (Hbv bv Hbv') as Hbvs.
    cbn [mbind result_bind].
    rewrite (cat0_sentinel k bk B E Hbks), (cat0_sentinel v0 bv B E Hbvs).
    replace ((dim1 k =? B) && (dim2 k =? E)) with true
      by (symmetry; rewrite andb_true_iff, !Nat.eqb_eq; lia).
    replace ((dim1 v0 =? B) && (dim2 v0 =? E)) with true
      by (symmetry; rewrite andb_true_iff, !Nat.eqb_eq; lia).
    cbn [mbind result_bind with_sentinel_row].
    set (kc := mk3 (dim0 k + 1) _ _ _).
    set (vc := mk3 (dim0 v0 + 1) _ _ _).
    rewrite (view3_first kc (dim0 kc) (B * Hn) D)
      by (try lia; unfold numel3; cbn [kc mk3 dim0 dim1 dim2]; nia).
    rewrite (view3_first vc (dim0 vc) (B * Hn) D)
      by (try lia; unfold numel3; cbn [vc mk3 dim0 dim1 dim2]; nia).
    reflexivity.
  - cbn [mbind result_bind with_sentinel_row].
    assert (Hbv' : bias_v self = None).
    { destruct (bias_v self) as [bv|] eqn:Hbv'; [|reflexivity].
      exfalso. unfold module_ok in Hok. rewrite Hbk', Hbv' in Hok.
      rewrite andb_false_r in Hok. discriminate. }
    rewrite Hbv'. cbn [with_sentinel_row].
    rewrite (view3_first k (dim0 k) (B * Hn) D) by (try lia; unfold numel3; nia).
    rewrite (view3_first v0 (dim0 v0) (B * Hn) D) by (try lia; unfold numel3; nia).
    reflexivity.
Qed.

End Run.

Lemma with_sentinel_row_dims b bsz (x : tensor3 (R:=R)) :
  dim0 x ≤ dim0 (with_sentinel_row b bsz x)
  ∧ dim1 (with_sentinel_row b bsz x) = dim1 x
  ∧ dim2 (with_sentinel_row b bsz x) = dim2 x.
Proof. destruct b; cbn [with_sentinel_row mk3 dim0 dim1 dim2]; repeat split; lia. Qed.

(** The heads of two projected sequences that agree below [n]. *)
Lemma projected_heads_agree (self : GraphAttention (R:=R)) b B S n
    (x y : tensor3 (R:=R)) c :
  module_ok self = true → 0 < B →
  size3 x = (S, B, Z.to_nat (embed_dim self)) → n ≤ S →
  agree_rows n x y →
  let E := Z.to_nat (embed_dim self) in
  agree_below n (heads self B (with_sentinel_row b B (proj_rows self x c E)))
    (heads self B (with_sentinel_row b B (proj_rows self y c E)))
  ∧ n ≤ dim1 (heads self B (with_sentinel_row b B (proj_rows self x c E))).
Proof.
  intros Hok HB Hx Hn Hxy E.
  destruct (module_ok_shapes self Hok) as (_ & _ & _ & HHpos & HDpos & HDH & _).
  unfold size3 in Hx. injection Hx as Hx0 Hx1 Hx2.
  destruct (with_sentinel_row_dims b B (proj_rows self x c E)) as (Hd0 & Hd1 & Hd2).
  change (dim0 (proj_rows self x c E)) with (dim0 x) in Hd0.
  change (dim1 (proj_rows self x c E)) with (dim1 x) in Hd1.
  change (dim2 (proj_rows self x c E)) with E in Hd2.
  split.
  - apply heads_agree; try lia.
    apply with_sentinel_row_agree; [now apply proj_rows_agree|].
    change (dim0 (proj_rows self x c E)) with (dim0 x). lia.
  - unfold heads. cbn [transpose01 mk3 dim1]. unfold reshaped. cbn [mk3 dim0]. lia.
Qed.

(** X14.  Key and value positions from [text + vision + audio] on are
    never read: two well-formed calls whose key and value sequences have
    the same shape and pointers, and agree at the positions below the sum
    of the segment lengths, give the same result. *)
Theorem trailing_key_positions_are_not_read
    (self : GraphAttention (R:=R))
    (query_nodes key_nodes value_nodes key_nodes' value_nodes' : nodes (R:=R))
    edge_mask mask_fixer direction plot_map noise (T B S t v a : nat) :
  module_ok self = true →
  0 < B →
  size3 (values query_nodes) = (T, B, Z.to_nat (embed_dim self)) →
  size3 (values key_nodes) = (S, B, Z.to_nat (embed_dim self)) →
  size3 (values value_nodes) = (S, B, Z.to_nat (embed_dim self)) →
  data_ptr key_nodes' = data_ptr key_nodes →
  data_ptr value_nodes' = data_ptr value_nodes →
  agree_rows (t + v + a) (values key_nodes) (values key_nodes') →
  agree_rows (t + v + a) (values value_nodes) (values value_nodes') →
  t + v + a ≤ S →
  forward self query_nodes key_nodes value_nodes edge_mask
    (Some (nat_split t v a)) mask_fixer direction plot_map noise
  = forward self query_nodes key_nodes' value_nodes' edge_mask
      (Some (nat_split t v a)) mask_fixer direction plot_map noise.
Proof.
  intros Hok HB Hq Hk Hv Hpk Hpv Hka Hva Hn.
  assert (Hk' : size3 (values key_nodes') = (S, B, Z.to_nat (embed_dim self)))
    by (destruct Hka as [<- _]; assumption).
  assert (Hv' : size3 (values value_nodes') = (S, B, Z.to_nat (embed_dim self)))
    by (destruct Hva as [<- _]; assumption).
  destruct ((data_ptr query_nodes =? data_ptr key_nodes)%Z
            && (data_ptr key_nodes =? data_ptr value_nodes)%Z) eqn:Hdiff.
  - unfold forward, project_inputs. rewrite Hpk, Hpv, Hdiff.
    rewrite (size3_eqb_true (values key_nodes) (values value_nodes)) by congruence.
    rewrite (size3_eqb_true (values key_nodes') (values value_nodes')) by congruence.
    reflexivity.
  - assert (Hdiff' : (data_ptr query_nodes =? data_ptr key_nodes')%Z
                     && (data_ptr key_nodes' =? data_ptr value_nodes')%Z = false)
      by (now rewrite Hpk, Hpv).
    pose proof (forward_heads self query_nodes key_nodes value_nodes edge_mask
                  direction plot_map noise T B S Hok HB Hq Hk Hv Hdiff
                  (add_zero_attn self) (Some (nat_split t v a)) mask_fixer) as H1.
    pose proof (forward_heads self query_nodes key_nodes' value_nodes' edge_mask
                  direction plot_map noise T B S Hok HB Hq Hk' Hv' Hdiff'
                  (add_zero_attn self) (Some (nat_split t v a)) mask_fixer) as H2.
    rewrite with_zero_attn_same in H1, H2. rewrite H1, H2, Hpk, Hpv.
    clear H1 H2.
    destruct (projected_heads_agree self (bias_k self) B S (t + v + a)
                (values key_nodes) (values key_nodes') (Z.to_nat (embed_dim self))
                Hok HB Hk Hn Hka) as [Hkh Hkn].
    assert (Hvh :
      let x := if (data_ptr key_nodes =? data_ptr value_nodes)%Z
               then values key_nodes else values value_nodes in
      let y := if (data_ptr key_nodes =? data_ptr value_nodes)%Z
               then values key_nodes' else values value_nodes' in
      agree_below (t + v + a)
        (heads self B (with_sentinel_row (bias_v self) B
           (proj_rows self x (2 * Z.to_nat (embed_dim self))
              (Z.to_nat (embed_dim self)))))
        (heads self B (with_sentinel_row (bias_v self) B
           (proj_rows self y (2 * Z.to_nat (embed_dim self))
              (Z.to_nat (embed_dim self)))))
      ∧ t + v + a
        ≤ dim1 (heads self B (with_sentinel_row (bias_v self) B
             (proj_rows self x (2 * Z.to_nat (embed_dim self))
                (Z.to_nat (embed_dim self)))))).
    { destruct (data_ptr key_nodes =? data_ptr value_nodes)%Z; cbn zeta;
        apply (projected_heads_agree self (bias_v self) B S); assumption. }
    cbn zeta in Hvh. destruct Hvh as [Hvh Hvn].
    unfold forward_tail. rewrite segment_ranges_spec.
    destruct (add_zero_attn self).
    + destruct (cat1_zeros_agree _ _ _ Hkh) as (zk & zk' & -> & -> & Hzk & Hzk1).
      destruct (cat1_zeros_agree _ _ _ Hvh) as (zv & zv' & -> & -> & Hzv & Hzv1).
      cbn [mbind result_bind].
      rewrite (segment_attention_slices self direction _ zk zv zk' zv');
        [reflexivity| |];
        intros s [-> | [-> | ->]]; apply (agree_below_segment (t + v + a)); auto; lia.
    + cbn [mbind result_bind].
      match goal with
      | |- ?l = ?r =>
          match l with
          | context [segment_attention self direction ?qh ?kh ?vh _ _ _ _ _] =>
              match r with
              | context [segment_attention self direction qh ?kh' ?vh' _ _ _ _ _] =>
                  rewrite (segment_attention_slices self direction qh kh vh kh' vh')
              end
          end
      end; [reflexivity| |];
        intros s [-> | [-> | ->]]; apply (agree_below_segment (t + v + a)); auto; lia.
Qed.

End TrailingKeys.

(** ** The properties above on small inputs *)

Lemma cross_mask_opens_one_segment_witness :
  ∃ m, build_adj_masked_matrix (nat_split 2 1 1) "cross" (Some "forward"%string) = Ok m
    ∧ rows2 m = 2 + 1 + 1 ∧ cols2 m = 2 + 1 + 1
    ∧ ∀ i j, i < 2 + 1 + 1 → j < 2 + 1 + 1 →
        get2 m i j
        = if segment_eqb (position_segment 2 1 1 j)
               (mask_open_segment (Some "forward"%string) (position_segment 2 1 1 i))
          then 0%Z else neg_inf.
Proof.
  apply (cross_mask_opens_one_segment 2 1 1 (Some "forward"%string));
    [lia | reflexivity].
Defined.

Lemma self_mask_is_block_diagonal_witness :
  ∃ m, build_adj_masked_matrix (nat_split 2 1 1) "self" None = Ok m
    ∧ rows2 m = 2 + 1 + 1 ∧ cols2 m = 2 + 1 + 1
    ∧ ∀ i j, i < 2 + 1 + 1 → j < 2 + 1 + 1 →
        get2 m i j
        = if segment_eqb (position_segment 2 1 1 j) (position_segment 2 1 1 i)
          then 0%Z else neg_inf.
Proof.
  apply (self_mask_is_block_diagonal 2 1 1 None); [lia | reflexivity].
Defined.

Lemma self_mask_complements_cross_mask_witness :
  ∃ mc ms,
    build_adj_masked_matrix (nat_split 1 2 1) "cross" (Some "backward"%string) = Ok mc
    ∧ build_adj_masked_matrix (nat_split 1 2 1) "self" (Some "backward"%string) = Ok ms
    ∧ size_pair mc = size_pair ms
    ∧ ∀ i j, i < 1 + 2 + 1 → j < 1 + 2 + 1 →
        (get2 mc i j = 0%Z ∧ get2 ms i j = neg_inf)
        ∨ (get2 mc i j = neg_inf ∧ get2 ms i j = 0%Z).
Proof.
  apply (self_mask_complements_cross_mask 1 2 1 (Some "backward"%string));
    [lia | reflexivity].
Defined.

Lemma mask_helper_errors_witness :
  build_adj_masked_matrix (nat_split 1 1 1) "both" (Some "forward"%string)
  = Raise (ValueError "mode must be \'cross\' or \'self\'")
  ∧ build_adj_masked_matrix (nat_split 1 1 1) "cross" None
    = Raise (ValueError "direction must be 'forward' or 'backward'")
  ∧ build_adj_masked_matrix (nat_split 0 0 0) "cross" None
    = Raise (RuntimeError "stack expects a non-empty TensorList").
Proof.
  split; [|split].
  - apply (mask_helper_errors 1 1 1 "both" (Some "forward"%string)); reflexivity.
  - apply (mask_helper_errors 1 1 1 "cross" None); [lia | reflexivity].
  - apply (mask_helper_errors 0 0 0 "cross" None); reflexivity.
Defined.

Lemma cross_mask_blocks_attended_pairs_witness :
  ∃ m, build_adj_masked_matrix (nat_split 1 1 1) "cross" (Some "forward"%string) = Ok m
    ∧ ∀ n qs ks,
        spec_direction_pairs (Some "forward"%string) !! n = Some (qs, ks) →
        ∀ i j, i < 1 + 1 + 1 → j < 1 + 1 + 1 →
          position_segment 1 1 1 i = qs → position_segment 1 1 1 j = ks →
          get2 m i j = if segment_eqb qs S1 then 0%Z else neg_inf.
Proof.
  apply (cross_mask_blocks_attended_pairs 1 1 1 (Some "forward"%string));
    [lia | reflexivity].
Defined.

Lemma forward_deterministic_without_dropout_witness :
  forward (demo_module false 0 0) (demo_sequence 0 3) (demo_sequence 1 4)
    (demo_sequence 1 4) None (Some (nat_split 1 1 1)) None
    (Some "forward"%string) false no_noise
  = forward (demo_module false 0 0) (demo_sequence 0 3) (demo_sequence 1 4)
      (demo_sequence 1 4) None (Some (nat_split 1 1 1)) None
      (Some "forward"%string) false (λ _ _ _ _, false).
Proof.
  apply (forward_deterministic_without_dropout (demo_module false 0 0)).
  reflexivity.
Defined.

Lemma missing_seq_split_is_a_type_error_witness :
  forward (demo_module false 0 0) (demo_sequence 0 3) (demo_sequence 0 3)
    (demo_sequence 0 3) None None None None false no_noise
  = Raise (TypeError "cannot unpack non-iterable NoneType object").
Proof.
  apply (missing_seq_split_is_a_type_error (demo_module false 0 0)
           (demo_sequence 0 3) (demo_sequence 0 3) (demo_sequence 0 3)
           None None false no_noise) with (T := 3) (B := 1) (S := 3);
    reflexivity || lia.
Defined.

Lemma forward_returns_iff_segments_cover_query_witness :
  (is_ok (forward (demo_module true 5 7) (demo_sequence 0 3) (demo_sequence 1 4)
            (demo_sequence 1 4) None (Some (nat_split 2 2 2)) None
            (Some "backward"%string) false no_noise) = true
   ↔ 3 ≤ 2 + 2 + 2)
  ∧ (3 ≤ 2 + 2 + 2 →
     ∃ out, forward (demo_module true 5 7) (demo_sequence 0 3) (demo_sequence 1 4)
              (demo_sequence 1 4) None (Some (nat_split 2 2 2)) None
              (Some "backward"%string) false no_noise
            = Ok (out, (None, None))
          ∧ size3 out = size3 (values (demo_sequence 0 3))).
Proof.
  apply (forward_returns_iff_segments_cover_query (demo_module true 5 7)
           (demo_sequence 0 3) (demo_sequence 1 4) (demo_sequence 1 4)
           None (Some "backward"%string) false no_noise 3 1 4 2 2 2);
    reflexivity || lia.
Defined.

Lemma add_zero_attn_has_no_effect_witness :
  forward (with_zero_attn (demo_module true 5 7) true) (demo_sequence 0 3)
    (demo_sequence 1 4) (demo_sequence 1 4) None (Some (nat_split 1 1 1)) None
    (Some "forward"%string) false no_noise
  = forward (with_zero_attn (demo_module true 5 7) false) (demo_sequence 0 3)
      (demo_sequence 1 4) (demo_sequence 1 4) None (Some (nat_split 1 1 1)) None
      (Some "forward"%string) false no_noise.
Proof.
  apply (add_zero_attn_has_no_effect (demo_module true 5 7)
           (demo_sequence 0 3) (demo_sequence 1 4) (demo_sequence 1 4)
           None None (Some "forward"%string) false no_noise 3 1 4 1 1 1);
    reflexivity || lia.
Defined.

Lemma constructor_rejections_witness :
  unit_module_like 4 0 = Raise ZeroDivisionError
  ∧ unit_module_like 7 (-2)
    = Raise (AssertionError "embed_dim must be divisible by num_heads")
  ∧ unit_module_like 0 3 = Raise ZeroDivisionError
  ∧ unit_module_like (-6) 3
    = Raise (RuntimeError "Trying to create tensor with negative dimension").
Proof.
  split; [|split; [|split]].
  - apply (proj1 (constructor_rejections (R:=Z) 4 0 0%Z true false false
                    (MkInit (λ _ _, 1%Z) (λ _ _, 1%Z) (λ _, 0%Z) (λ _, 0%Z)))). reflexivity.
  - apply (proj1 (proj2 (constructor_rejections (R:=Z) 7 (-2) 0%Z true false false
                    (MkInit (λ _ _, 1%Z) (λ _ _, 1%Z) (λ _, 0%Z) (λ _, 0%Z)))));
      [lia | vm_compute; lia].
  - apply (proj1 (proj2 (proj2 (constructor_rejections (R:=Z) 0 3 0%Z true false false
                    (MkInit (λ _ _, 1%Z) (λ _ _, 1%Z) (λ _, 0%Z) (λ _, 0%Z))))));
      [lia | reflexivity].
  - apply (proj2 (proj2 (proj2 (constructor_rejections (R:=Z) (-6) 3 0%Z true false false
                    (MkInit (λ _ _, 1%Z) (λ _ _, 1%Z) (λ _, 0%Z) (λ _, 0%Z))))));
      [lia | lia | reflexivity].
Defined.

Lemma constructed_module_is_well_formed_witness :
  ∃ m, unit_module_like 6 3 = Ok m
    ∧ module_ok m = true
    ∧ (0 < embed_dim m)%Z
    ∧ training m = true
    ∧ (∀ bi, in_proj_bias m = Some bi → ∀ i, i < len1 bi → get1 bi i = r0)
    ∧ (∀ bo, bias (out_proj m) = Some bo → ∀ i, i < len1 bo → get1 bo i = r0)
    ∧ (in_proj_bias m = None ↔ true = false)
    ∧ (bias (out_proj m) = None ↔ true = false)
    ∧ (bias_k m = None ↔ false = false)
    ∧ (bias_v m = None ↔ false = false).
Proof.
  destruct (unit_module_like 6 3) as [m|e] eqn:Hm; [|vm_compute in Hm; discriminate].
  exists m. split; [reflexivity|].
  apply (constructed_module_is_well_formed (R:=Z) 6 3 0%Z true false false
           (MkInit (λ _ _, 1%Z) (λ _ _, 1%Z) (λ _, 0%Z) (λ _, 0%Z)) m);
    [lia | exact Hm].
Defined.

Lemma aliased_arguments_are_not_read_witness :
  forward (demo_module false 0 0) (Nodes 0 (values (demo_sequence 0 3)))
    (Nodes 0 (values (demo_sequence 0 4))) (Nodes 0 (values (demo_sequence 0 4)))
    None (Some (nat_split 1 1 1)) None (Some "forward"%string) false no_noise
  = forward (demo_module false 0 0) (Nodes 0 (values (demo_sequence 0 3)))
      (Nodes 0 (values (demo_sequence_upto 0 2 0 9)))
      (Nodes 0 (values (demo_sequence_upto 0 2 0 8)))
      None (Some (nat_split 1 1 1)) None (Some "forward"%string) false no_noise.
Proof.
  exact (proj1 (aliased_arguments_are_not_read (demo_module false 0 0)
                  (values (demo_sequence 0 3)) (values (demo_sequence 0 4))
                  (values (demo_sequence 0 4)) (values (demo_sequence_upto 0 2 0 9))
                  (values (demo_sequence_upto 0 2 0 8))
                  None (Some (nat_split 1 1 1)) None (Some "forward"%string)
                  false no_noise)
           0%Z eq_refl eq_refl).
Defined.

Lemma key_width_is_rejected_by_the_projection_witness :
  forward (demo_module false 0 0) (demo_sequence 0 3)
    (Nodes 1 (mk3 3 1 3 (λ _ _ _, 1%Z))) (Nodes 1 (mk3 3 1 3 (λ _ _ _, 1%Z)))
    None (Some (nat_split 1 1 1)) None (Some "forward"%string) false no_noise
  = Raise (RuntimeError "mat1 and mat2 shapes cannot be multiplied").
Proof.
  apply (key_width_is_rejected_by_the_projection (demo_module false 0 0));
    try reflexivity.
  - cbn. lia.
  - left. cbn. lia.
Defined.

Lemma trailing_key_positions_are_not_read_witness :
  forward (demo_module true 5 7) (demo_sequence 0 3) (demo_sequence 1 5)
    (demo_sequence 2 5) None (Some (nat_split 1 1 1)) None
    (Some "backward"%string) false no_noise
  = forward (demo_module true 5 7) (demo_sequence 0 3)
      (demo_sequence_upto 1 5 3 9) (demo_sequence_upto 2 5 3 8) None
      (Some (nat_split 1 1 1)) None (Some "backward"%string) false no_noise.
Proof.
  apply (trailing_key_positions_are_not_read (demo_module true 5 7)
           (demo_sequence 0 3) (demo_sequence 1 5) (demo_sequence 2 5)
           (demo_sequence_upto 1 5 3 9) (demo_sequence_upto 2 5 3 8)
           None None (Some "backward"%string) false no_noise 3 1 5 1 1 1);
    try reflexivity; try lia.
  - split; [reflexivity|]. intros i j k Hi _ Hj Hk.
    destruct i as [|[|[|i]]]; try lia;
      destruct j as [|j]; try (cbn in Hj; lia);
      destruct k as [|[|k]]; try (cbn in Hk; lia); reflexivity.
  - split; [reflexivity|]. intros i j k Hi _ Hj Hk.
    destruct i as [|[|[|i]]]; try lia;
      destruct j as [|j]; try (cbn in Hj; lia);
      destruct k as [|[|k]]; try (cbn in Hk; lia); reflexivity.
Defined.
